(** * Cluster worker orchestration of the bcbb next-generation sequencing pipeline

    A shallow embedding of

    - [nextgen/scripts/distributed_nextgen_pipeline.py]: start cluster
      workers, run the analysis as a driver job, stop the workers;
    - [nextgen/bcbio/pipeline/toplevel.py]: the part that chooses and
      launches the processing program ([_run_analysis], [_get_run_yaml]).

    Python code is translated statement by statement into a state and
    exception monad.  The batch scheduler, the clock, the file system and the
    process table are an explicit world of type [W]; every call that leaves
    the interpreter is recorded in a trace, so that statements such as
    "one cancellation per worker, in submission order" are statements
    about lists of events.  The unbounded [while] loops take fuel: one unit
    per execution of the loop body. *)

From Stdlib Require Import String Ascii ZArith List Lia.
From stdpp Require Import gmap strings list fin_maps pretty.

Local Open Scope string_scope.
Local Open Scope Z_scope.
Local Open Scope list_scope.

(** ** Python values, exceptions and dictionaries *)

(** The scalar objects a YAML configuration or a scheduler handle can be. *)
Inductive value : Type :=
| VNone
| VBool (b : bool)
| VInt (n : Z)
| VStr (s : string).

#[global] Instance value_eq_dec : EqDecision value.
Proof. solve_decision. Defined.

Inductive exn : Type :=
| KeyError (key : value)
| AttributeError (attr : string)
| TypeError
| AssertionError (msg : string)
| External (name : string).   (* raised by a collaborator outside the scripts *)

#[global] Instance exn_eq_dec : EqDecision exn.
Proof. solve_decision. Defined.

Abbreviation Dict := (gmap string value).
Abbreviation Config := (gmap string (gmap string value)).

(** [d[k]] *)
Definition getitem {V : Type} (d : gmap string V) (k : string) : exn + V :=
  match d !! k with
  | Some v => inr v
  | None => inl (KeyError (VStr k))
  end.

(** [d[k1][k2]] *)
Definition getitem2 (d : Config) (k1 k2 : string) : exn + value :=
  match getitem d k1 with
  | inl e => inl e
  | inr d1 => getitem d1 k2
  end.

(** [d.get(k, dflt)] *)
Definition dict_get {V : Type} (d : gmap string V) (k : string) (dflt : V) : V :=
  match d !! k with
  | Some v => v
  | None => dflt
  end.

(** [x == "literal"] for a configuration scalar [x]. *)
Definition eq_str (x : value) (lit : string) : bool :=
  match x with
  | VStr s => String.eqb s lit
  | _ => false
  end.

(** Truth value of an object in an [if]. *)
Definition truthy (x : value) : bool :=
  match x with
  | VNone => false
  | VBool b => b
  | VInt n => negb (n =? 0)
  | VStr s => negb (String.eqb s "")
  end.

(** [range(x)] as a number of iterations; booleans are integers. *)
Definition range_len (x : value) : exn + nat :=
  match x with
  | VInt n => inr (Z.to_nat n)
  | VBool b => inr (if b then 1%nat else 0%nat)
  | _ => inl TypeError
  end.

Definition is_space (c : ascii) : bool :=
  match N_of_ascii c with
  | 9%N | 10%N | 11%N | 12%N | 13%N | 32%N => true
  | _ => false
  end.

Fixpoint split_from (cur : string) (s : string) : list string :=
  match s with
  | EmptyString => if String.eqb cur "" then [] else [cur]
  | String c rest =>
      if is_space c
      then (if String.eqb cur "" then split_from "" rest
            else cur :: split_from "" rest)
      else split_from (cur +:+ String c "") rest
  end.

(** [x.split()]: fields separated by runs of white space. *)
Definition py_split (x : value) : exn + list string :=
  match x with
  | VStr s => inr (split_from "" s)
  | _ => inl (AttributeError "split")
  end.

(** ** The monad: state, exceptions, fuel *)

Inductive outcome (A : Type) : Type :=
| Return (a : A)
| Raise (e : exn)
| OutOfFuel.

Arguments Return {A} a.
Arguments Raise {A} e.
Arguments OutOfFuel {A}.

Definition M (St A : Type) : Type := St -> outcome A * St.

Definition ret {St A} (a : A) : M St A := fun s => (Return a, s).

Definition raise {St A} (e : exn) : M St A := fun s => (Raise e, s).

Definition bind {St A B} (m : M St A) (k : A -> M St B) : M St B :=
  fun s =>
    match m s with
    | (Return a, s1) => k a s1
    | (Raise e, s1) => (Raise e, s1)
    | (OutOfFuel, s1) => (OutOfFuel, s1)
    end.

Notation "'let*' x ':=' m 'in' k" := (bind m (fun x => k))
  (at level 10, x pattern, m at level 100, k at level 200).
Notation "m ';;' k" := (bind m (fun _ => k))
  (at level 100, k at level 200, right associativity).

Definition lift {St A} (r : exn + A) : M St A :=
  match r with
  | inl e => raise e
  | inr a => ret a
  end.

(** [assert c, msg] *)
Definition assert_ {St} (c : bool) (msg : string) : M St unit :=
  if c then ret tt else raise (AssertionError msg).

(** [try: body finally: fin].  The outcome of [body] is kept unless [fin]
    itself does not complete normally. *)
Definition try_finally {St A} (body : M St A) (fin : M St unit) : M St A :=
  fun s =>
    match body s with
    | (OutOfFuel, s1) => (OutOfFuel, s1)
    | (r, s1) =>
        match fin s1 with
        | (Return _, s2) => (r, s2)
        | (Raise e, s2) => (Raise e, s2)
        | (OutOfFuel, s2) => (OutOfFuel, s2)
        end
    end.

(** [try: body except: pass] *)
Definition try_except_pass {St} (body : M St unit) : M St unit :=
  fun s =>
    match body s with
    | (Raise _, s1) => (Return tt, s1)
    | other => other
    end.

(** [while cond: body], at most [fuel] executions of [body]. *)
Fixpoint while_ {St} (fuel : nat) (cond : M St bool) (body : M St unit) : M St unit :=
  let* c := cond in
  if c then
    match fuel with
    | O => fun s => (OutOfFuel, s)
    | S fuel' => body ;; while_ fuel' cond body
    end
  else ret tt.

(** [[e for _ in range(n)]] *)
Fixpoint list_comp {St A} (n : nat) (e : M St A) : M St (list A) :=
  match n with
  | O => ret []
  | S n' => let* x := e in let* xs := list_comp n' e in ret (x :: xs)
  end.

(** [for x in xs: body x] *)
Fixpoint for_each {St A} (xs : list A) (body : A -> M St unit) : M St unit :=
  match xs with
  | [] => ret tt
  | x :: xs' => body x ;; for_each xs' body
  end.

(** Exit status of the interpreter after running a script body: 0 after a
    normal return, 1 after an uncaught exception. *)
Definition exit_status {A} (r : outcome A) : option Z :=
  match r with
  | Return _ => Some 0
  | Raise _ => Some 1
  | OutOfFuel => None
  end.

(** ** scripts/distributed_nextgen_pipeline.py *)

Module Distributed.

(** A job identifier, as the scheduler backend returns it. *)
Abbreviation JobId := value (only parsing).

(** What the script does to the outside, in program order. *)
Inductive event : Type :=
| EvPrint (line : string)
| EvSubmit (args : list string) (program_cl : list value) (r : exn + JobId)
| EvPoll (jobids : list JobId) (r : exn + bool)
| EvSleep (secs : Z) (r : exn + unit)
| EvStop (jobid : JobId) (r : exn + unit).

Section Script.

(** State of the scheduler, the clock and the file system. *)
Context {W : Type}.

(** A scheduler backend such as [bcbio.distributed.lsf]: a module with three
    functions.  Each may raise and each may find the world changed. *)
Record Cluster : Type := {
  submit_job : list string -> list value -> W -> (exn + JobId) * W;
  are_running : list JobId -> W -> (exn + bool) * W;
  stop_job : JobId -> W -> (exn + unit) * W
}.

(** An object bound to a module-level name of the script: a scheduler
    backend, or anything else ([sys], [time], [yaml], [main], ...), which has
    none of the three attributes. *)
Inductive pyobj : Type :=
| Backend (c : Cluster)
| OtherObject.

(** The collaborators the script imports. *)
Record Env : Type := {
  load_config : string -> W -> exn + Config;   (* bcbio.pipeline.config_loader *)
  globals_ : string -> option pyobj;           (* globals() *)
  time_sleep : Z -> W -> (exn + unit) * W      (* time.sleep; may be interrupted *)
}.

Variable env : Env.

Record state : Type := { world : W; trace : list event }.

Abbreviation Run := (M state).

(** The state once the world has become [w] and the events [tr] have been
    added to the trace. *)
Definition after (s : state) (w : W) (tr : list event) : state :=
  {| world := w; trace := trace s ++ tr |}.

Definition emit (ev : event) : Run unit :=
  fun s => (Return tt, after s (world s) [ev]).

(** Call into the world, log the call with its result, and return or raise. *)
Definition extern {A} (op : W -> (exn + A) * W) (log : exn + A -> event) : Run A :=
  fun s =>
    let '(r, w') := op (world s) in
    lift r (after s w' [log r]).

Definition print (line : string) : Run unit := emit (EvPrint line).

Definition sleep (secs : Z) : Run unit := extern (time_sleep env secs) (EvSleep secs).

Definition call_submit_job (cluster : pyobj) (args : list string) (program_cl : list value)
  : Run JobId :=
  match cluster with
  | Backend c => extern (submit_job c args program_cl) (EvSubmit args program_cl)
  | OtherObject => raise (AttributeError "submit_job")
  end.

Definition call_are_running (cluster : pyobj) (jobids : list JobId) : Run bool :=
  match cluster with
  | Backend c => extern (are_running c jobids) (EvPoll jobids)
  | OtherObject => raise (AttributeError "are_running")
  end.

Definition call_stop_job (cluster : pyobj) (jobid : JobId) : Run unit :=
  match cluster with
  | Backend c => extern (stop_job c jobid) (EvStop jobid)
  | OtherObject => raise (AttributeError "stop_job")
  end.

Definition config_item (config : Config) (section key : string) : Run value :=
  lift (getitem2 config section key).

Definition start_workers (fuel : nat) (cluster : pyobj) (config : Config)
    (config_file : string) : Run (list JobId) :=
  let* platform_args := config_item config "distributed" "platform_args" in
  let* args := lift (py_split platform_args) in
  let* worker_program := config_item config "analysis" "worker_program" in
  let program_cl := [worker_program; VStr config_file] in
  let* num_workers := config_item config "distributed" "num_workers" in
  let* n := lift (range_len num_workers) in
  let* jobids := list_comp n (call_submit_job cluster args program_cl) in
  while_ fuel (let* r := call_are_running cluster jobids in ret (negb r))
              (sleep 5) ;;
  ret jobids.

(** The command line of the driver job: the run description is added when
    one was given on the command line and is not empty. *)
Definition driver_program_cl (process_program : value) (config_file fc_dir : string)
    (run_info_yaml : option string) : list value :=
  let program_cl := [process_program; VStr config_file; VStr fc_dir] in
  match run_info_yaml with
  | Some y => if truthy (VStr y) then program_cl ++ [VStr y] else program_cl
  | None => program_cl
  end.

Definition run_analysis (fuel : nat) (config_file fc_dir : string)
    (run_info_yaml : option string) (cluster : pyobj) (config : Config) : Run unit :=
  let* platform_args := config_item config "distributed" "platform_args" in
  let* args := lift (py_split platform_args) in
  let* process_program := config_item config "analysis" "process_program" in
  let program_cl := driver_program_cl process_program config_file fc_dir run_info_yaml in
  let* jobid := call_submit_job cluster args program_cl in
  (* wait for job to start *)
  while_ fuel (let* r := call_are_running cluster [jobid] in ret (negb r))
              (sleep 5) ;;
  (* wait for job to finish *)
  while_ fuel (call_are_running cluster [jobid]) (sleep 5).

Definition stop_workers (cluster : pyobj) (jobids : list JobId) : Run unit :=
  for_each jobids (fun jobid => try_except_pass (call_stop_job cluster jobid)).

Definition main (fuel : nat) (config_file fc_dir : string)
    (run_info_yaml : option string) : Run unit :=
  let* config := (fun s => lift (load_config env config_file (world s)) s) in
  let* num_cores := config_item config "algorithm" "num_cores" in
  assert_ (eq_str num_cores "messaging")
          "Designed for use with messaging parallelization" ;;
  let* cluster_platform := config_item config "distributed" "cluster_platform" in
  let* cluster :=
    match cluster_platform with
    | VStr name =>
        match globals_ env name with
        | Some o => ret o
        | None => raise (KeyError cluster_platform)
        end
    | _ => raise (KeyError cluster_platform)
    end in
  print "Starting cluster workers" ;;
  let* jobids := start_workers fuel cluster config config_file in
  try_finally
    (print "Running analysis" ;;
     run_analysis fuel config_file fc_dir run_info_yaml cluster config)
    (print "Cleaning up cluster workers" ;;
     stop_workers cluster jobids).

(** The script entry point: [main] applied to the command-line arguments
    after the program name, two or three of them. *)
Definition script (fuel : nat) (argv : list string) : Run unit :=
  match argv with
  | [_; config_file; fc_dir] => main fuel config_file fc_dir None
  | [_; config_file; fc_dir; run_info_yaml] =>
      main fuel config_file fc_dir (Some run_info_yaml)
  | _ => raise TypeError
  end.

(** *** Reading traces *)

(** The world after the calls of a trace, provided each call has, in the
    world it is made in, the result the trace records for it. *)
Fixpoint replay (c : Cluster) (tr : list event) (w : W) : option W :=
  match tr with
  | [] => Some w
  | EvPrint _ :: tr' => replay c tr' w
  | EvSubmit args program_cl r :: tr' =>
      let '(r', w') := submit_job c args program_cl w in
      if decide (r' = r) then replay c tr' w' else None
  | EvPoll jobids r :: tr' =>
      let '(r', w') := are_running c jobids w in
      if decide (r' = r) then replay c tr' w' else None
  | EvSleep secs r :: tr' =>
      let '(r', w') := time_sleep env secs w in
      if decide (r' = r) then replay c tr' w' else None
  | EvStop jobid r :: tr' =>
      let '(r', w') := stop_job c jobid w in
      if decide (r' = r) then replay c tr' w' else None
  end.

End Script.

(** The job identifiers handed to [stop_job], in call order. *)
Definition stops (tr : list event) : list JobId :=
  flat_map (fun ev => match ev with EvStop j _ => [j] | _ => [] end) tr.

(** The job identifiers returned by [submit_job], in call order. *)
Definition submitted (tr : list event) : list JobId :=
  flat_map (fun ev => match ev with EvSubmit _ _ (inr j) => [j] | _ => [] end) tr.

(** The calls of [submit_job], successful or not. *)
Definition submissions (tr : list event) : list event :=
  List.filter (fun ev => match ev with EvSubmit _ _ _ => true | _ => false end) tr.

(** The seconds slept, call by call. *)
Definition sleeps (tr : list event) : list Z :=
  flat_map (fun ev => match ev with EvSleep secs _ => [secs] | _ => [] end) tr.

Definition not_stop (ev : event) : Prop := stops [ev] = [].

Definition not_submit (ev : event) : Prop := submissions [ev] = [].

(** [m] adds only events that satisfy [Q] to the trace, whatever its outcome. *)
Definition emits_only {W A} (Q : event -> Prop) (m : M (@state W) A) : Prop :=
  forall s, exists tr, trace (m s).2 = trace s ++ tr /\ Forall Q tr.

(** [k] rounds of a poll loop: [are_running jobids] answers [b], then the
    script sleeps five seconds. *)
Definition rounds (jobids : list JobId) (b : bool) (k : nat) : list event :=
  concat (replicate k [EvPoll jobids (inr b); EvSleep 5 (inr tt)]).

(** The successful submissions that returned [jobids]. *)
Definition submits (args : list string) (program_cl : list value)
    (jobids : list JobId) : list event :=
  List.map (fun j => EvSubmit args program_cl (inr j)) jobids.

(** One call of [stop_job] per identifier, whatever each call answered. *)
Inductive stop_calls : list JobId -> list event -> Prop :=
| stop_calls_nil : stop_calls [] []
| stop_calls_cons j r jobids tr :
    stop_calls jobids tr -> stop_calls (j :: jobids) (EvStop j r :: tr).

(** A poll of [are_running] on exactly [jobids], or a sleep of five seconds. *)
Definition waits_on (jobids : list JobId) (ev : event) : Prop :=
  (exists r, ev = EvPoll jobids r) \/ (exists r, ev = EvSleep 5 r).

(** [m] logs its calls as they happen: whatever its outcome, the events it
    adds are calls on the backend [c] (and sleeps) that had, in the world
    they were made in, the results logged for them, and the world [m] leaves
    is the world after the last of them. *)
Definition recorded {W A} (env : @Env W) (c : @Cluster W) (m : M (@state W) A) : Prop :=
  forall s, exists tr,
    trace (m s).2 = trace s ++ tr /\
    replay env c tr (world s) = Some (world (m s).2).

(** The worker submission a configuration asks for: the scheduler arguments
    [args] and the command line [program_cl] that [start_workers] builds. *)
Definition worker_call (config : Config) (config_file : string)
    (args : list string) (program_cl : list value) : Prop :=
  exists pa wp,
    getitem2 config "distributed" "platform_args" = inr (VStr pa) /\
    getitem2 config "analysis" "worker_program" = inr wp /\
    args = split_from "" pa /\ program_cl = [wp; VStr config_file].

(** The events of a pool start that succeeded with the handles [jobids]:
    their submissions, polls that answered "no" each followed by a sleep, the
    poll that answered "yes". *)
Definition pool_started (args : list string) (program_cl : list value)
    (jobids : list JobId) (tr : list event) : Prop :=
  exists k,
    tr = submits args program_cl jobids ++
         rounds jobids false k ++ [EvPoll jobids (inr true)].

(** A poll of [are_running] on exactly [jobids] that did not answer "yes",
    or a sleep of five seconds. *)
Definition still_waiting (jobids : list JobId) (ev : event) : Prop :=
  (exists r, ev = EvPoll jobids r /\ r <> inr true) \/ (exists r, ev = EvSleep 5 r).

(** The events of a pool start that made a scheduler call and did not
    succeed: a submission failed after some had succeeded, and that was the
    last event; or all submissions succeeded, and afterwards there were only
    polls of the whole pool, none answering "yes", and sleeps. *)
Definition pool_not_started (args : list string) (program_cl : list value)
    (tr : list event) : Prop :=
  (exists done e,
      tr = submits args program_cl done ++ [EvSubmit args program_cl (inl e)]) \/
  (exists jobids tr_p,
      tr = submits args program_cl jobids ++ tr_p /\
      Forall (still_waiting jobids) tr_p).

(** The driver submission a run asks for: the scheduler arguments [args] and
    the command line [program_cl] that [run_analysis] builds. *)
Definition driver_call (config : Config) (config_file fc_dir : string)
    (run_info_yaml : option string) (args : list string) (program_cl : list value)
  : Prop :=
  exists pa pp,
    getitem2 config "distributed" "platform_args" = inr (VStr pa) /\
    getitem2 config "analysis" "process_program" = inr pp /\
    args = split_from "" pa /\
    program_cl = driver_program_cl pp config_file fc_dir run_info_yaml.

(** The events of a driver phase that made a scheduler call: one submission,
    which is the first event, followed if it succeeded by polls of the
    driver job alone and sleeps. *)
Definition driver_phase (args : list string) (program_cl : list value)
    (tr : list event) : Prop :=
  exists r rest,
    tr = EvSubmit args program_cl r :: rest /\
    match r with
    | inl _ => rest = []
    | inr jobid => Forall (waits_on [jobid]) rest
    end.

End Distributed.

(** ** A simulated scheduler

    A small, deterministic backend used to run the scripts on concrete
    inputs.  A job starts [delay] seconds after its submission; a job whose
    program is ["worker.py"] then runs until it is stopped, any other job
    runs for [driver_len] seconds.  The submission numbered [reject_at] is
    refused.  Stopping a job that is unknown or already stopped fails. *)

Module Sim.
Import Distributed.

Record job : Type := {
  jid : Z;
  starts : Z;
  ends : option Z;
  stopped : bool
}.

Record sched : Type := {
  clock : Z;
  jobs : list job;
  delay : Z;
  driver_len : Z;
  reject_at : option Z;
  unreachable : list Z      (* jobs the scheduler cannot stop *)
}.

Definition fresh (delay driver_len : Z) (reject_at : option Z)
    (unreachable : list Z) : sched :=
  {| clock := 0; jobs := []; delay := delay; driver_len := driver_len;
     reject_at := reject_at; unreachable := unreachable |}.

Definition is_running (w : sched) (j : job) : bool :=
  negb (stopped j) && (starts j <=? clock w) &&
  match ends j with
  | Some e => clock w <? e
  | None => true
  end.

Definition find_job (w : sched) (id : value) : option job :=
  match id with
  | VInt n => List.find (fun j => jid j =? n) (jobs w)
  | _ => None
  end.

Definition sim_submit (args : list string) (program_cl : list value) (w : sched)
  : (exn + value) * sched :=
  let n := Z.of_nat (length (jobs w)) in
  if decide (reject_at w = Some n) then (inl (External "SubmissionError"), w)
  else
    let s := clock w + delay w in
    let e := match program_cl with
             | VStr "worker.py" :: _ => None
             | _ => Some (s + driver_len w)
             end in
    (inr (VInt n),
     {| clock := clock w;
        jobs := jobs w ++ [{| jid := n; starts := s; ends := e; stopped := false |}];
        delay := delay w; driver_len := driver_len w; reject_at := reject_at w;
        unreachable := unreachable w |}).

Definition sim_are_running (jobids : list value) (w : sched) : (exn + bool) * sched :=
  (inr (forallb (fun id => match find_job w id with
                           | Some j => is_running w j
                           | None => false
                           end) jobids), w).

Definition mark_stopped (n : Z) (j : job) : job :=
  if jid j =? n
  then {| jid := jid j; starts := starts j; ends := ends j; stopped := true |}
  else j.

Definition sim_stop (jobid : value) (w : sched) : (exn + unit) * sched :=
  match find_job w jobid with
  | Some j =>
      if stopped j || existsb (Z.eqb (jid j)) (unreachable w)
      then (inl (External "CancellationError"), w)
      else (inr tt,
            {| clock := clock w; jobs := List.map (mark_stopped (jid j)) (jobs w);
               delay := delay w; driver_len := driver_len w;
               reject_at := reject_at w; unreachable := unreachable w |})
  | None => (inl (External "CancellationError"), w)
  end.

Definition lsf : @Cluster sched :=
  {| submit_job := sim_submit; are_running := sim_are_running; stop_job := sim_stop |}.

(** The same scheduler with a queue that never dispatches. *)
Definition stalled : @Cluster sched :=
  {| submit_job := fun _ _ w =>
       (inr (VInt (Z.of_nat (length (jobs w)))),
        {| clock := clock w;
           jobs := jobs w ++ [{| jid := Z.of_nat (length (jobs w)); starts := clock w;
                                 ends := None; stopped := false |}];
           delay := delay w; driver_len := driver_len w; reject_at := reject_at w;
           unreachable := unreachable w |});
     are_running := fun _ w => (inr false, w);
     stop_job := sim_stop |}.

Definition sim_sleep (secs : Z) (w : sched) : (exn + unit) * sched :=
  (inr tt,
   {| clock := clock w + secs; jobs := jobs w; delay := delay w;
      driver_len := driver_len w; reject_at := reject_at w;
      unreachable := unreachable w |}).

(** A configuration file for [num_workers] workers. *)
Definition sample_config (num_cores : value) (num_workers : Z) : Config :=
  {[ "algorithm" := {[ "num_cores" := num_cores ]} : gmap string value;
     "distributed" := {[ "cluster_platform" := VStr "lsf";
                          "platform_args" := VStr "-q  normal";
                          "num_workers" := VInt num_workers ]} : gmap string value;
     "analysis" := {[ "worker_program" := VStr "worker.py";
                       "process_program" := VStr "automated_initial_analysis.py" ]}
                   : gmap string value ]}.

Definition sample_env (config : Config) : @Env sched :=
  {| load_config := fun _ _ => inr config;
     globals_ := fun name =>
       if String.eqb name "lsf" then Some (Backend lsf)
       else if String.eqb name "stalled" then Some (Backend stalled)
       else if String.eqb name "time" then Some OtherObject
       else None;
     time_sleep := sim_sleep |}.

Definition start (w : sched) : @state sched := {| world := w; trace := [] |}.

End Sim.

(** ** bcbio/pipeline/toplevel.py: launching the processing program *)

Module Toplevel.

Inductive event : Type :=
| EvMakedirs (path : string) (r : exn + unit)
| EvChdir (path : string) (r : exn + unit)
| EvChdirBack (r : exn + unit)
| EvCheckCall (cl : list value) (r : exn + unit).

(** [posixpath.basename]: what follows the last slash. *)
Fixpoint basename_from (cur : string) (p : string) : string :=
  match p with
  | EmptyString => cur
  | String c rest =>
      if Ascii.eqb c "/" then basename_from "" rest
      else basename_from (cur +:+ String c "") rest
  end.

Definition basename (p : string) : string := basename_from "" p.

Definition startswith_slash (p : string) : bool :=
  match p with
  | String c _ => Ascii.eqb c "/"
  | EmptyString => false
  end.

Fixpoint endswith_slash (p : string) : bool :=
  match p with
  | EmptyString => false
  | String c EmptyString => Ascii.eqb c "/"
  | String _ rest => endswith_slash rest
  end.

(** One turn of the loop of [posixpath.join] with a string so far. *)
Definition join_step (path b : string) : string :=
  if startswith_slash b then b
  else if String.eqb path "" || endswith_slash path then path +:+ b
  else path +:+ "/" +:+ b.

(** [os.path.join(a, b, ..)]: [a] comes from a dictionary and need not be a
    string, in which case it has no [endswith] once that is asked for. *)
Definition os_path_join (a : value) (b : string) (more : list string) : exn + string :=
  let first :=
    if startswith_slash b then inr b
    else match a with
         | VStr path => inr (join_step path b)
         | _ => inl (AttributeError "endswith")
         end in
  match first with
  | inl e => inl e
  | inr path => inr (fold_left join_step more path)
  end.

Section Script.

Context {W : Type}.

(** The operating system and the helpers of [bcbio.utils]. *)
Record Env : Type := {
  path_exists : string -> W -> bool;                    (* os.path.exists *)
  getcwd : W -> string;                                 (* os.getcwd *)
  makedirs : string -> W -> (exn + unit) * W;           (* os.makedirs *)
  chdir_enter : string -> W -> (exn + unit) * W;        (* entering utils.chdir *)
  chdir_exit : W -> (exn + unit) * W;                   (* leaving utils.chdir *)
  check_call : list value -> W -> (exn + unit) * W      (* subprocess.check_call *)
}.

Variable env : Env.

Record state : Type := { world : W; trace : list event }.

Abbreviation Run := (M state).

Definition extern {A} (op : W -> (exn + A) * W) (log : exn + A -> event) : Run A :=
  fun s =>
    let '(r, w') := op (world s) in
    lift r {| world := w'; trace := trace s ++ [log r] |}.

(** [os.path.exists(p)]; a number or a boolean is not a path. *)
Definition os_path_exists (p : value) : Run bool :=
  match p with
  | VStr path => fun s => (Return (path_exists env path (world s)), s)
  | _ => raise TypeError
  end.

(** [with utils.chdir(d): body].  [bcbio.utils] is not among the sources
    read here, so entering and leaving the directory are the parameters
    [chdir_enter] and [chdir_exit].  The [with] statement runs the exit in
    every case; the exit is taken not to swallow an exception of the body. *)
Definition with_chdir {A} (d : string) (body : Run A) : Run A :=
  extern (chdir_enter env d) (EvChdir d) ;;
  try_finally body (extern (chdir_exit env) EvChdirBack).

Definition _get_run_yaml (remote_info : Dict) (fc_dir : string) (config : Config)
  : Run value :=
  let* run_yaml :=
    if truthy (dict_get remote_info "run_yaml" VNone)
    then lift (getitem remote_info "run_yaml")
    else
      let* store_dir := lift (getitem2 config "analysis" "store_dir") in
      let* p := lift (os_path_join store_dir (basename fc_dir) ["run_info.yaml"]) in
      ret (VStr p) in
  let* found := os_path_exists run_yaml in
  let run_yaml := if negb found then VNone else run_yaml in
  ret run_yaml.

Definition _run_analysis (fc_dir : string) (remote_info : Dict) (config : Config)
    (config_file : string) : Run string :=
  let* run_yaml := _get_run_yaml remote_info fc_dir config in
  let* analysis := lift (getitem config "analysis") in
  let* cwd := (fun s => (Return (getcwd env (world s)), s)) in
  let base_dir := dict_get analysis "base_dir" (VStr cwd) in
  let* directory := lift (getitem remote_info "directory") in
  let* directory_name :=
    match directory with
    | VStr d => ret (basename d)
    | _ => raise (AttributeError "rfind")
    end in
  let* analysis_dir := lift (os_path_join base_dir directory_name []) in
  let* present := os_path_exists (VStr analysis_dir) in
  (if negb present
   then extern (makedirs env analysis_dir) (EvMakedirs analysis_dir)
   else ret tt) ;;
  with_chdir analysis_dir
    (let* num_cores := lift (getitem2 config "algorithm" "num_cores") in
     let* prog :=
       if eq_str num_cores "messaging"
       then
         let* analysis := lift (getitem config "analysis") in
         ret (dict_get analysis "distributed_process_program"
                       (VStr "distributed_nextgen_pipeline.py"))
       else lift (getitem2 config "analysis" "process_program") in
     let cl := [prog; VStr config_file; VStr fc_dir] in
     let cl := if truthy run_yaml then cl ++ [run_yaml] else cl in
     extern (check_call env cl) (EvCheckCall cl)) ;;
  ret analysis_dir.

Definition _upload_to_galaxy (fc_dir analysis_dir : string) (remote_info : Dict)
    (config : Config) (config_file : string) : Run unit :=
  let* run_yaml := _get_run_yaml remote_info fc_dir config in
  with_chdir analysis_dir
    (let* upload_program := lift (getitem2 config "analysis" "upload_program") in
     let cl := [upload_program; VStr config_file; VStr fc_dir; VStr analysis_dir] in
     let cl := if truthy run_yaml then cl ++ [run_yaml] else cl in
     extern (check_call env cl) (EvCheckCall cl)).

End Script.

(** The command lines handed to [subprocess.check_call], in call order. *)
Definition check_calls (tr : list event) : list (list value) :=
  flat_map (fun ev => match ev with EvCheckCall cl _ => [cl] | _ => [] end) tr.

(** The command line the pipeline is meant to launch, as a function of the
    configuration and of the run description [_get_run_yaml] came back with. *)
Definition spec_command_line (config : Config) (config_file fc_dir : string)
    (run_yaml : value) : option (list value) :=
  match getitem2 config "algorithm" "num_cores", config !! "analysis" with
  | inr num_cores, Some analysis =>
      let prog :=
        if decide (num_cores = VStr "messaging")
        then Some (dict_get analysis "distributed_process_program"
                            (VStr "distributed_nextgen_pipeline.py"))
        else analysis !! "process_program" in
      match prog with
      | Some prog =>
          Some ([prog; VStr config_file; VStr fc_dir] ++
                match run_yaml with VNone => [] | y => [y] end)
      | None => None
      end
  | _, _ => None
  end.

(** Whether a path has a slash in it. *)
Fixpoint has_slash (p : string) : bool :=
  match p with
  | EmptyString => false
  | String c rest => Ascii.eqb c "/" || has_slash rest
  end.

End Toplevel.

(** ** A simulated file system and process launcher *)

Module SimOs.
Import Toplevel.

Record os : Type := {
  paths : list string;     (* what exists *)
  cwd : string;
  back : list string       (* directories to return to *)
}.

Definition os_exists (p : string) (w : os) : bool :=
  existsb (String.eqb p) (paths w).

Definition os_makedirs (p : string) (w : os) : (exn + unit) * os :=
  if os_exists p w then (inl (External "OSError"), w)
  else (inr tt, {| paths := p :: paths w; cwd := cwd w; back := back w |}).

Definition os_chdir_enter (p : string) (w : os) : (exn + unit) * os :=
  if os_exists p w
  then (inr tt, {| paths := paths w; cwd := p; back := cwd w :: back w |})
  else (inl (External "OSError"), w).

Definition os_chdir_exit (w : os) : (exn + unit) * os :=
  match back w with
  | d :: rest => (inr tt, {| paths := paths w; cwd := d; back := rest |})
  | [] => (inl (External "OSError"), w)
  end.

(** Launching succeeds for programs given by name. *)
Definition os_check_call (cl : list value) (w : os) : (exn + unit) * os :=
  match cl with
  | VStr _ :: _ => (inr tt, w)
  | _ => (inl TypeError, w)
  end.

Definition sample_env : @Env os :=
  {| path_exists := os_exists; getcwd := cwd; makedirs := os_makedirs;
     chdir_enter := os_chdir_enter; chdir_exit := os_chdir_exit;
     check_call := os_check_call |}.

Definition sample_config (num_cores : value) : Config :=
  {[ "algorithm" := {[ "num_cores" := num_cores ]} : gmap string value;
     "analysis" := {[ "store_dir" := VStr "/store";
                       "base_dir" := VStr "/work";
                       "process_program" := VStr "automated_initial_analysis.py" ]}
                   : gmap string value ]}.

Definition sample_remote_info : Dict :=
  {[ "directory" := VStr "/seq/110106_FC70BUKAAXX" ]}.

Definition start (existing : list string) : @state os :=
  {| world := {| paths := existing; cwd := "/home/galaxy"; back := [] |};
     trace := [] |}.

End SimOs.

(** ** More sample configurations *)

Module Samples.

(** A configuration whose [cluster_platform] names the [time] module. *)
Definition misnamed_platform : Config :=
  {[ "algorithm" := {[ "num_cores" := VStr "messaging" ]} : gmap string value;
     "distributed" := {[ "cluster_platform" := VStr "time";
                          "platform_args" := VStr "-q normal";
                          "num_workers" := VInt 2 ]} : gmap string value;
     "analysis" := {[ "worker_program" := VStr "worker.py";
                       "process_program" := VStr "automated_initial_analysis.py" ]}
                   : gmap string value ]}.

End Samples.

Module SamplesOs.

(** A configuration with an upload program. *)
Definition upload_config : Config :=
  {[ "algorithm" := {[ "num_cores" := VInt 8 ]} : gmap string value;
     "analysis" := {[ "store_dir" := VStr "/store";
                       "base_dir" := VStr "/work";
                       "process_program" := VStr "automated_initial_analysis.py";
                       "upload_program" := VStr "upload_to_galaxy.py" ]}
                   : gmap string value ]}.

End SamplesOs.

(** ** bcbio/pipeline/toplevel.py: from the sequencer to the upload *)

Module Pipeline.

(** An entry at the top of the configuration: a scalar or a mapping. *)
Inductive entry : Type :=
| Scalar (v : value)
| Mapping (d : Dict).

#[global] Instance entry_eq_dec : EqDecision entry.
Proof. solve_decision. Defined.

(** [str(x)], as the ["%s"] of string formatting gives it. *)
Definition py_str (x : value) : string :=
  match x with
  | VNone => "None"
  | VBool true => "True"
  | VBool false => "False"
  | VInt n => pretty n
  | VStr s => s
  end.

(** [re.sub(r'\..*', '', s)]: from a dot to the end of its line. *)
Fixpoint strip_from_dot (skipping : bool) (s : string) : string :=
  match s with
  | EmptyString => EmptyString
  | String c rest =>
      if Ascii.eqb c "010" then String c (strip_from_dot false rest)
      else if skipping then strip_from_dot true rest
      else if Ascii.eqb c "." then strip_from_dot true rest
      else String c (strip_from_dot false rest)
  end.

Definition strip_domain (s : string) : string := strip_from_dot false s.

Fixpoint has_char (x : ascii) (s : string) : bool :=
  match s with
  | EmptyString => false
  | String c rest => Ascii.eqb c x || has_char x rest
  end.

Inductive event : Type :=
| EvOs (ev : Toplevel.event)
| EvDebug (remote_info : Dict)
| EvSettings (host_string : string) (r : exn + unit)
| EvSettingsBack (r : exn + unit)
| EvRemoteCopy (remote_info : Dict) (base_dir protocol : entry) (r : exn + string)
| EvLogHandler (r : exn + unit)
| EvLogBound (r : exn + unit)
| EvLogUnbound (r : exn + unit).

Section Script.

Context {W : Type}.

(** [fabric.api], when it could be imported. *)
Record Fabric : Type := {
  settings_enter : string -> W -> (exn + unit) * W;    (* with fabric.settings(host_string=..) *)
  settings_exit : W -> (exn + unit) * W
}.

(** What [toplevel.py] uses besides the operating system of [Toplevel.Env]:
    the process environment, the host name, Fabric, and the modules of the
    package that are not among the sources read here. *)
Record Env : Type := {
  os : @Toplevel.Env W;
  environ : W -> gmap string string;                   (* os.environ *)
  nodename : W -> string;                              (* os.uname()[1] *)
  fabric : option Fabric;                              (* None after ImportError *)
  remote_copy : Dict -> entry -> entry -> W -> (exn + string) * W;
                                                       (* bcbio.pipeline.transfer *)
  load_config : string -> W -> exn + gmap string entry;   (* bcbio.pipeline.config_loader *)
  create_log_handler : gmap string entry -> W -> (exn + unit) * W;   (* bcbio.log *)
  log_bound_enter : W -> (exn + unit) * W;             (* with log_handler.applicationbound() *)
  log_bound_exit : W -> (exn + unit) * W
}.

Variable env : Env.

Record state : Type := { world : W; trace : list event }.

Abbreviation Run := (M state).

Definition emit (ev : event) : Run unit :=
  fun s => (Return tt, {| world := world s; trace := trace s ++ [ev] |}).

Definition extern {A} (op : W -> (exn + A) * W) (log : exn + A -> event) : Run A :=
  fun s =>
    let '(r, w') := op (world s) in
    lift r {| world := w'; trace := trace s ++ [log r] |}.

(** A function of [Toplevel] run here: its events are added to the trace. *)
Definition os_run {A} (m : M (@Toplevel.state W) A) : Run A :=
  fun s =>
    let '(r, s') := m {| Toplevel.world := world s; Toplevel.trace := [] |} in
    (r, {| world := Toplevel.world s';
           trace := trace s ++ List.map EvOs (Toplevel.trace s') |}).

(** [with manager: body] for a context manager given by its entry and exit;
    the exit runs in every case and is taken not to swallow an exception of
    the body. *)
Definition with_ {A} (enter exit : Run unit) (body : Run A) : Run A :=
  enter ;; try_finally body exit.

(** [config["analysis"]] as the receiver of [.get]. *)
Definition analysis_mapping (config : gmap string entry) : exn + Dict :=
  match getitem config "analysis" with
  | inl e => inl e
  | inr (Mapping d) => inr d
  | inr (Scalar _) => inl (AttributeError "get")
  end.

Definition _config_hosts (config : gmap string entry) : Run string :=
  let* analysis := lift (analysis_mapping config) in
  let copy_user := dict_get analysis "copy_user" VNone in
  let* analysis := lift (analysis_mapping config) in
  let copy_host := dict_get analysis "copy_host" VNone in
  let* (copy_user, copy_host) :=
    if negb (truthy copy_user) || negb (truthy copy_host)
    then
      let* user := (fun s => lift (getitem (environ env (world s)) "USER") s) in
      let* node := (fun s => (Return (nodename env (world s)), s)) in
      ret (VStr user, VStr (strip_domain node))
    else ret (copy_user, copy_host) in
  let copy_host_str := py_str copy_user +:+ "@" +:+ py_str copy_host in
  ret copy_host_str.

Definition _copy_from_sequencer (remote_info : Dict) (config : gmap string entry)
  : Run value :=
  match remote_info !! "fc_dir" with
  | Some fc_dir =>
      let* found := os_run (Toplevel.os_path_exists (os env) fc_dir) in
      assert_ found "" ;;
      ret fc_dir
  | None =>
      emit (EvDebug remote_info) ;;
      let* c_host_str := _config_hosts config in
      let* fab :=
        match fabric env with
        | Some fab => ret fab
        | None => raise (AttributeError "settings")
        end in
      with_ (extern (settings_enter fab c_host_str) (EvSettings c_host_str))
            (extern (settings_exit fab) EvSettingsBack)
        (let* base_dir := lift (getitem config "store_dir") in
         let protocol :=
           match getitem config "transfer_protocol" with
           | inr protocol => protocol
           | inl _ => Scalar VNone
           end in
         let* fc_dir := extern (remote_copy env remote_info base_dir protocol)
                               (EvRemoteCopy remote_info base_dir protocol) in
         ret (VStr fc_dir))
  end.

(** [config[section][key]] on the configuration as loaded: a missing
    section is a [KeyError], and a section that is a scalar cannot be
    subscripted by a string. *)
Definition getitem_in (config : gmap string entry) (section key : string)
  : exn + value :=
  match getitem config section with
  | inl e => inl e
  | inr (Mapping d) => getitem d key
  | inr (Scalar _) => inl TypeError
  end.

(** [os.path.exists(p)]; a number or a boolean is not a path. *)
Definition os_path_exists (p : value) : Run bool :=
  match p with
  | VStr path => fun s => (Return (Toplevel.path_exists (os env) path (world s)), s)
  | _ => raise TypeError
  end.

(** [with utils.chdir(d): body] *)
Definition with_chdir {A} (d : string) (body : Run A) : Run A :=
  with_ (extern (Toplevel.chdir_enter (os env) d) (fun r => EvOs (Toplevel.EvChdir d r)))
        (extern (Toplevel.chdir_exit (os env)) (fun r => EvOs (Toplevel.EvChdirBack r)))
        body.

(** [_get_run_yaml], [_run_analysis] and [_upload_to_galaxy] as
    [analyze_and_upload] calls them: with the configuration as it was
    loaded, in which [analysis] or [algorithm] may turn out to be a scalar.
    Line by line they are the functions of [Toplevel]; only the look-ups in
    the configuration differ, [config[..][..]] being [getitem_in] and
    [config["analysis"].get] going through [analysis_mapping]. *)
Definition _get_run_yaml (remote_info : Dict) (fc_dir : string)
    (config : gmap string entry) : Run value :=
  let* run_yaml :=
    if truthy (dict_get remote_info "run_yaml" VNone)
    then lift (getitem remote_info "run_yaml")
    else
      let* store_dir := lift (getitem_in config "analysis" "store_dir") in
      let* p := lift (Toplevel.os_path_join store_dir (Toplevel.basename fc_dir)
                        ["run_info.yaml"]) in
      ret (VStr p) in
  let* found := os_path_exists run_yaml in
  let run_yaml := if negb found then VNone else run_yaml in
  ret run_yaml.

Definition _run_analysis (fc_dir : string) (remote_info : Dict)
    (config : gmap string entry) (config_file : string) : Run string :=
  let* run_yaml := _get_run_yaml remote_info fc_dir config in
  let* analysis := lift (analysis_mapping config) in
  let* cwd := (fun s => (Return (Toplevel.getcwd (os env) (world s)), s)) in
  let base_dir := dict_get analysis "base_dir" (VStr cwd) in
  let* directory := lift (getitem remote_info "directory") in
  let* directory_name :=
    match directory with
    | VStr d => ret (Toplevel.basename d)
    | _ => raise (AttributeError "rfind")
    end in
  let* analysis_dir := lift (Toplevel.os_path_join base_dir directory_name []) in
  let* present := os_path_exists (VStr analysis_dir) in
  (if negb present
   then extern (Toplevel.makedirs (os env) analysis_dir)
               (fun r => EvOs (Toplevel.EvMakedirs analysis_dir r))
   else ret tt) ;;
  with_chdir analysis_dir
    (let* num_cores := lift (getitem_in config "algorithm" "num_cores") in
     let* prog :=
       if eq_str num_cores "messaging"
       then
         let* analysis := lift (analysis_mapping config) in
         ret (dict_get analysis "distributed_process_program"
                       (VStr "distributed_nextgen_pipeline.py"))
       else lift (getitem_in config "analysis" "process_program") in
     let cl := [prog; VStr config_file; VStr fc_dir] in
     let cl := if truthy run_yaml then cl ++ [run_yaml] else cl in
     extern (Toplevel.check_call (os env) cl)
            (fun r => EvOs (Toplevel.EvCheckCall cl r))) ;;
  ret analysis_dir.

Definition _upload_to_galaxy (fc_dir analysis_dir : string) (remote_info : Dict)
    (config : gmap string entry) (config_file : string) : Run unit :=
  let* run_yaml := _get_run_yaml remote_info fc_dir config in
  with_chdir analysis_dir
    (let* upload_program := lift (getitem_in config "analysis" "upload_program") in
     let cl := [upload_program; VStr config_file; VStr fc_dir; VStr analysis_dir] in
     let cl := if truthy run_yaml then cl ++ [run_yaml] else cl in
     extern (Toplevel.check_call (os env) cl)
            (fun r => EvOs (Toplevel.EvCheckCall cl r))).

(** The flowcell directory as the string it is: [_copy_from_sequencer]
    returns nothing else, so the second case is never taken. *)
Definition as_path (fc_dir : value) : Run string :=
  match fc_dir with
  | VStr p => ret p
  | _ => raise TypeError
  end.

Definition analyze_and_upload (remote_info : Dict) (config_file : string) : Run unit :=
  let* config := (fun s => lift (load_config env config_file (world s)) s) in
  extern (create_log_handler env config) EvLogHandler ;;
  with_ (extern (log_bound_enter env) EvLogBound)
        (extern (log_bound_exit env) EvLogUnbound)
    (let* fc_dir := _copy_from_sequencer remote_info config in
     let* fc_dir := as_path fc_dir in
     let* analysis_dir := _run_analysis fc_dir remote_info config config_file in
     _upload_to_galaxy fc_dir analysis_dir remote_info config config_file).

End Script.

(** The programs launched, in call order, each with how it ended. *)
Definition launches (tr : list event) : list (list value * (exn + unit)) :=
  flat_map (fun ev => match ev with
                      | EvOs (Toplevel.EvCheckCall cl r) => [(cl, r)]
                      | _ => []
                      end) tr.

(** The remote copies made. *)
Definition remote_copies (tr : list event) : list event :=
  List.filter (fun ev => match ev with EvRemoteCopy _ _ _ _ => true | _ => false end) tr.

End Pipeline.

(** ** A simulated sequencer host *)

Module SimPipe.
Import Pipeline.

Definition sample_config (copy_user copy_host : value) : gmap string entry :=
  {[ "store_dir" := Scalar (VStr "/store");
     "algorithm" := Mapping {[ "num_cores" := VInt 8 ]};
     "analysis" := Mapping {[ "copy_user" := copy_user;
                              "copy_host" := copy_host;
                              "store_dir" := VStr "/store";
                              "base_dir" := VStr "/work";
                              "process_program" := VStr "automated_initial_analysis.py";
                              "upload_program" := VStr "upload_to_galaxy.py" ]} ]}.

(** Copying makes the flowcell directory appear under the store. *)
Definition sim_remote_copy (remote_info : Dict) (base_dir protocol : entry)
    (w : SimOs.os) : (exn + string) * SimOs.os :=
  match base_dir, remote_info !! "directory" with
  | Scalar (VStr base), Some (VStr d) =>
      let p := Toplevel.join_step base (Toplevel.basename d) in
      (inr p, {| SimOs.paths := p :: SimOs.paths w; SimOs.cwd := SimOs.cwd w;
                 SimOs.back := SimOs.back w |})
  | _, _ => (inl (External "ValueError"), w)
  end.

Definition sample_env (config : gmap string entry) (user : option string)
    (with_fabric : bool) : @Env SimOs.os :=
  {| os := SimOs.sample_env;
     environ := fun _ => match user with Some u => {[ "USER" := u ]} | None => ∅ end;
     nodename := fun _ => "seq01.example.org";
     fabric := if with_fabric
               then Some {| settings_enter := fun _ w => (inr tt, w);
                            settings_exit := fun w => (inr tt, w) |}
               else None;
     remote_copy := sim_remote_copy;
     load_config := fun _ _ => inr config;
     create_log_handler := fun _ w => (inr tt, w);
     log_bound_enter := fun w => (inr tt, w);
     log_bound_exit := fun w => (inr tt, w) |}.

Definition start (existing : list string) : @state SimOs.os :=
  {| world := {| SimOs.paths := existing; SimOs.cwd := "/home/galaxy";
                 SimOs.back := [] |};
     trace := [] |}.

(** Remote information that names a flowcell directory on this machine. *)
Definition local_remote_info : Dict :=
  {[ "fc_dir" := VStr "/store/110106_FC70BUKAAXX";
     "directory" := VStr "/seq/110106_FC70BUKAAXX" ]}.

Definition empty_config : gmap string entry := ∅.

(** A configuration whose [analysis] entry is a string, not a mapping. *)
Definition scalar_analysis_config : gmap string entry :=
  {[ "store_dir" := Scalar (VStr "/store");
     "analysis" := Scalar (VStr "automated_initial_analysis.py") ]}.

End SimPipe.

(** * The monad *)

Lemma bind_run {St A B} (m : M St A) (k : A -> M St B) (s : St) :
  bind m k s =
  match m s with
  | (Return a, s1) => k a s1
  | (Raise e, s1) => (Raise e, s1)
  | (OutOfFuel, s1) => (OutOfFuel, s1)
  end.
Proof. reflexivity. Qed.

Lemma bind_lift {St A B} (r : exn + A) (k : A -> M St B) (s : St) :
  bind (lift r) k s = match r with inl e => (Raise e, s) | inr a => k a s end.
Proof. by destruct r. Qed.

Lemma try_finally_run {St A} (body : M St A) (fin : M St unit) (s : St) :
  try_finally body fin s =
  match body s with
  | (OutOfFuel, s1) => (OutOfFuel, s1)
  | (r, s1) =>
      match fin s1 with
      | (Return _, s2) => (r, s2)
      | (Raise e, s2) => (Raise e, s2)
      | (OutOfFuel, s2) => (OutOfFuel, s2)
      end
  end.
Proof. reflexivity. Qed.

(** * Properties of the distributed script *)

Import Distributed.

Section DistributedFacts.

Context {W : Type} (env : @Env W).

Implicit Types (s : @state W) (tr : list event) (c : @Cluster W).

Lemma after_after s w1 tr1 w2 tr2 :
  after (after s w1 tr1) w2 tr2 = after s w2 (tr1 ++ tr2).
Proof. unfold after. simpl. by rewrite <- app_assoc. Qed.

Lemma after_nil s : after s (world s) [] = s.
Proof. destruct s. unfold after. simpl. by rewrite app_nil_r. Qed.

Lemma extern_run {A} (op : W -> (exn + A) * W) (log : exn + A -> event) s :
  extern op log s =
  (match (op (world s)).1 with inl e => Raise e | inr a => Return a end,
   after s (op (world s)).2 [log (op (world s)).1]).
Proof. unfold extern. destruct (op (world s)) as [[e|a] w']; reflexivity. Qed.

Lemma while_run (fuel : nat) (cond : M state bool) (body : M state unit) s :
  while_ fuel cond body s =
  match cond s with
  | (Return true, s1) =>
      match fuel with
      | O => (OutOfFuel, s1)
      | S fuel' =>
          match body s1 with
          | (Return _, s2) => while_ fuel' cond body s2
          | (Raise e, s2) => (Raise e, s2)
          | (OutOfFuel, s2) => (OutOfFuel, s2)
          end
      end
  | (Return false, s1) => (Return tt, s1)
  | (Raise e, s1) => (Raise e, s1)
  | (OutOfFuel, s1) => (OutOfFuel, s1)
  end.
Proof.
  destruct fuel; simpl; unfold bind; destruct (cond s) as [[[|]| |] s1]; reflexivity.
Qed.

(** *** Reading traces *)

Lemma stops_app tr1 tr2 : stops (tr1 ++ tr2) = stops tr1 ++ stops tr2.
Proof. apply flat_map_app. Qed.

Lemma submitted_app tr1 tr2 : submitted (tr1 ++ tr2) = submitted tr1 ++ submitted tr2.
Proof. apply flat_map_app. Qed.

Lemma sleeps_app tr1 tr2 : sleeps (tr1 ++ tr2) = sleeps tr1 ++ sleeps tr2.
Proof. apply flat_map_app. Qed.

Lemma submissions_app tr1 tr2 :
  submissions (tr1 ++ tr2) = submissions tr1 ++ submissions tr2.
Proof. apply List.filter_app. Qed.

Lemma rounds_S jobids b k :
  rounds jobids b (S k) =
  EvPoll jobids (inr b) :: EvSleep 5 (inr tt) :: rounds jobids b k.
Proof. reflexivity. Qed.

Lemma stops_rounds jobids b k : stops (rounds jobids b k) = [].
Proof. induction k; [reflexivity | rewrite rounds_S; exact IHk]. Qed.

Lemma submitted_rounds jobids b k : submitted (rounds jobids b k) = [].
Proof. induction k; [reflexivity | rewrite rounds_S; exact IHk]. Qed.

Lemma submissions_rounds jobids b k : submissions (rounds jobids b k) = [].
Proof. induction k; [reflexivity | rewrite rounds_S; exact IHk]. Qed.

Lemma sleeps_rounds jobids b k : sleeps (rounds jobids b k) = replicate k 5.
Proof. induction k; [reflexivity | rewrite rounds_S; simpl; by rewrite IHk]. Qed.

Lemma stops_submits args cl jobids : stops (submits args cl jobids) = [].
Proof. induction jobids; [reflexivity | exact IHjobids]. Qed.

Lemma submitted_submits args cl jobids : submitted (submits args cl jobids) = jobids.
Proof. induction jobids; [reflexivity | simpl; by rewrite IHjobids]. Qed.

Lemma sleeps_submits args cl jobids : sleeps (submits args cl jobids) = [].
Proof. induction jobids; [reflexivity | exact IHjobids]. Qed.


Lemma stop_calls_length jobids tr : stop_calls jobids tr -> length tr = length jobids.
Proof. induction 1; [reflexivity | simpl; by rewrite IHstop_calls]. Qed.

Lemma stop_calls_submitted jobids tr : stop_calls jobids tr -> submitted tr = [].
Proof. induction 1; [reflexivity | exact IHstop_calls]. Qed.

Lemma stop_calls_attempted jobids tr :
  stop_calls jobids tr -> Forall (fun j => exists r, In (EvStop j r) tr) jobids.
Proof.
  induction 1 as [|j r ids tr Hc IH]; constructor.
  - exists r. by left.
  - eapply Forall_impl; [exact IH|]. intros j' (r' & Hin). exists r'. by right.
Qed.

End DistributedFacts.

Lemma eqb_false_negb (r b : bool) : Bool.eqb r b = false -> r = negb b.
Proof. destruct r, b; simpl; congruence. Qed.

Section DistributedRuns.

Context {W : Type} (env : @Env W) (c : @Cluster W).

Implicit Types (s : @state W) (tr : list event).

(** *** Calls to the scheduler *)

Lemma submit_run args cl s :
  call_submit_job (Backend c) args cl s =
  (match (submit_job c args cl (world s)).1 with inl e => Raise e | inr j => Return j end,
   after s (submit_job c args cl (world s)).2
         [EvSubmit args cl (submit_job c args cl (world s)).1]).
Proof. apply extern_run. Qed.

Lemma poll_run jobids s :
  call_are_running (Backend c) jobids s =
  (match (are_running c jobids (world s)).1 with inl e => Raise e | inr r => Return r end,
   after s (are_running c jobids (world s)).2
         [EvPoll jobids (are_running c jobids (world s)).1]).
Proof. apply extern_run. Qed.

Lemma stop_run jobid s :
  call_stop_job (Backend c) jobid s =
  (match (stop_job c jobid (world s)).1 with inl e => Raise e | inr r => Return r end,
   after s (stop_job c jobid (world s)).2
         [EvStop jobid (stop_job c jobid (world s)).1]).
Proof. apply extern_run. Qed.

Lemma sleep_run secs s :
  sleep env secs s =
  (match (time_sleep env secs (world s)).1 with inl e => Raise e | inr r => Return r end,
   after s (time_sleep env secs (world s)).2
         [EvSleep secs (time_sleep env secs (world s)).1]).
Proof. apply extern_run. Qed.

(** *** Submitting the workers *)

Lemma submit_all_progress args cl jobids s w' :
  replay env c (submits args cl jobids) (world s) = Some w' ->
  list_comp (length jobids) (call_submit_job (Backend c) args cl) s =
  (Return jobids, after s w' (submits args cl jobids)).
Proof.
  revert s. induction jobids as [|j jobids IH]; intros s H; simpl in H.
  - injection H as <-. simpl. unfold ret. by rewrite after_nil.
  - destruct (submit_job c args cl (world s)) as [r w1] eqn:E.
    case_decide; [subst r | discriminate].
    cbn [length list_comp]. rewrite bind_run, submit_run, E.
    cbn [fst snd]. rewrite bind_run.
    rewrite (IH (after s w1 [EvSubmit args cl (inr j)]) H).
    unfold ret. by rewrite after_after.
Qed.

Lemma submit_all_shape args cl n s r s' :
  list_comp n (call_submit_job (Backend c) args cl) s = (r, s') ->
  match r with
  | Return jobids =>
      length jobids = n /\
      trace s' = trace s ++ submits args cl jobids /\
      replay env c (submits args cl jobids) (world s) = Some (world s')
  | Raise e =>
      exists done,
        (length done < n)%nat /\
        trace s' = trace s ++ submits args cl done ++ [EvSubmit args cl (inl e)] /\
        replay env c (submits args cl done ++ [EvSubmit args cl (inl e)]) (world s)
        = Some (world s')
  | OutOfFuel => False
  end.
Proof.
  revert s r s'. induction n as [|n IH]; intros s r s' H.
  - injection H as <- <-. by rewrite app_nil_r.
  - cbn [list_comp] in H. rewrite bind_run, submit_run in H.
    destruct (submit_job c args cl (world s)) as [[e|j] w1] eqn:E; cbn [fst snd] in H.
    + injection H as <- <-. exists []. simpl. rewrite E.
      split; [lia|]. split; [done|]. by rewrite decide_True.
    + rewrite bind_run in H.
      destruct (list_comp n _ (after s w1 _)) as [r1 s1] eqn:E1.
      specialize (IH _ _ _ E1). destruct r1 as [jobids|e|]; [| |done].
      * injection H as <- <-. destruct IH as (Hlen & Htr & Hre).
        split; [simpl; lia|]. simpl in *. rewrite E, decide_True by done.
        split; [|done]. rewrite Htr. by rewrite <- app_assoc.
      * injection H as <- <-. destruct IH as (done_ & Hlen & Htr & Hre).
        exists (j :: done_). simpl in *. rewrite E, decide_True by done.
        split; [lia|]. split; [|done]. rewrite Htr. by rewrite <- app_assoc.
Qed.

(** *** Poll loops

    Both loops of the script poll [are_running] on a fixed set of jobs and
    sleep five seconds while the answer is [b]. *)

Section PollLoop.

Variable cond : M (@state W) bool.
Variable jobids : list value.
Variable b : bool.

Hypothesis cond_run : forall s,
  cond s =
  (match (are_running c jobids (world s)).1 with
   | inl e => Raise e
   | inr r => Return (Bool.eqb r b)
   end,
   after s (are_running c jobids (world s)).2
         [EvPoll jobids (are_running c jobids (world s)).1]).

Lemma poll_loop_shape fuel s s' :
  while_ fuel cond (sleep env 5) s = (Return tt, s') ->
  exists k, (k <= fuel)%nat /\
    trace s' = trace s ++ rounds jobids b k ++ [EvPoll jobids (inr (negb b))] /\
    replay env c (rounds jobids b k ++ [EvPoll jobids (inr (negb b))]) (world s)
    = Some (world s').
Proof.
  revert s s'. induction fuel as [|fuel IH]; intros s s' H;
    rewrite while_run, cond_run in H;
    destruct (are_running c jobids (world s)) as [[e|r] w1] eqn:E;
    cbn [fst snd] in H; try discriminate;
    destruct (Bool.eqb r b) eqn:Erb; try discriminate.
  - injection H as <-. exists 0%nat. simpl. rewrite E.
    apply eqb_false_negb in Erb. subst r.
    rewrite decide_True by done. auto.
  - rewrite sleep_run in H. cbn [after world] in H.
    destruct (time_sleep env 5 w1) as [[e|[]] w2] eqn:E2; cbn [fst snd] in H;
      [discriminate|].
    apply IH in H as (k & Hk & Htr & Hre). exists (S k).
    apply Bool.eqb_prop in Erb. subst r.
    split; [lia|]. rewrite rounds_S. simpl in *.
    rewrite E, decide_True by done. rewrite E2, decide_True by done.
    split; [|done]. rewrite Htr. rewrite <- !app_assoc. reflexivity.
  - injection H as <-. exists 0%nat. simpl. rewrite E.
    apply eqb_false_negb in Erb. subst r.
    rewrite decide_True by done. split; [lia|]. auto.
Qed.

Lemma poll_loop_progress k : forall fuel s w',
  replay env c (rounds jobids b k ++ [EvPoll jobids (inr (negb b))]) (world s)
  = Some w' ->
  (k <= fuel)%nat ->
  while_ fuel cond (sleep env 5) s =
  (Return tt, after s w' (rounds jobids b k ++ [EvPoll jobids (inr (negb b))])).
Proof.
  induction k as [|k IH]; intros fuel s w' H Hk.
  - simpl in H. destruct (are_running c jobids (world s)) as [r w1] eqn:E.
    case_decide; [subst r | discriminate]. injection H as <-.
    rewrite while_run, cond_run, E. cbn [fst snd].
    destruct b; reflexivity.
  - destruct fuel as [|fuel]; [lia|].
    rewrite rounds_S in H. simpl in H.
    destruct (are_running c jobids (world s)) as [r w1] eqn:E.
    case_decide; [subst r | discriminate].
    destruct (time_sleep env 5 w1) as [r2 w2] eqn:E2.
    case_decide; [subst r2 | discriminate].
    rewrite while_run, cond_run, E. cbn [fst snd]. rewrite Bool.eqb_reflx.
    rewrite sleep_run. cbn [after world]. rewrite E2. cbn [fst snd].
    fold (after s w1 [EvPoll jobids (inr b)]).
    rewrite (IH fuel (after (after s w1 [EvPoll jobids (inr b)]) w2 [EvSleep 5 (inr tt)]) w')
      by (done || lia).
    rewrite !after_after. reflexivity.
Qed.

(** With a scheduler that never gives the awaited answer the loop cannot
    come to a normal end. *)
Lemma poll_loop_never fuel s :
  (forall w, (are_running c jobids w).1 <> inr (negb b)) ->
  (while_ fuel cond (sleep env 5) s).1 <> Return tt.
Proof.
  intros Hnever. revert s. induction fuel as [|fuel IH]; intros s;
    rewrite while_run, cond_run;
    pose proof (Hnever (world s)) as Hn;
    destruct (are_running c jobids (world s)) as [[e|r] w1] eqn:E;
    cbn [fst snd] in *; try discriminate;
    (destruct (Bool.eqb r b) eqn:Erb;
     [| apply eqb_false_negb in Erb; exfalso; apply Hn; by f_equal]).
  - discriminate.
  - rewrite sleep_run. cbn [after world].
    destruct (time_sleep env 5 w1) as [[e|[]] w2] eqn:E2; cbn [fst snd].
    + discriminate.
    + apply IH.
Qed.

(** With a scheduler that always answers [b] and an undisturbed sleep, the
    loop uses up any fuel: it sleeps [fuel] times and is still polling. *)
Lemma poll_loop_spin fuel s :
  (forall w, (are_running c jobids w).1 = inr b) ->
  (forall w, (time_sleep env 5 w).1 = inr tt) ->
  exists s',
    while_ fuel cond (sleep env 5) s = (OutOfFuel, s') /\
    trace s' = trace s ++ rounds jobids b fuel ++ [EvPoll jobids (inr b)].
Proof.
  intros Hpoll Hsleep. revert s. induction fuel as [|fuel IH]; intros s;
    rewrite while_run, cond_run, Hpoll; rewrite Bool.eqb_reflx.
  - eexists. split; [reflexivity|]. reflexivity.
  - rewrite sleep_run, Hsleep.
    destruct (IH (after (after s (are_running c jobids (world s)).2 [EvPoll jobids (inr b)])
                    (time_sleep env 5 (world (after s (are_running c jobids (world s)).2 [EvPoll jobids (inr b)]))).2
                    [EvSleep 5 (inr tt)])) as (s' & Hrun & Htr).
    exists s'. split; [exact Hrun|]. rewrite Htr, rounds_S. simpl.
    rewrite <- !app_assoc. reflexivity.
Qed.

End PollLoop.

Lemma wait_cond_run jobids s :
  (let* r := call_are_running (Backend c) jobids in ret (negb r)) s =
  (match (are_running c jobids (world s)).1 with
   | inl e => Raise e
   | inr r => Return (Bool.eqb r false)
   end,
   after s (are_running c jobids (world s)).2
         [EvPoll jobids (are_running c jobids (world s)).1]).
Proof.
  rewrite bind_run, poll_run.
  destruct (are_running c jobids (world s)) as [[e|[|]] w1]; reflexivity.
Qed.

Lemma finish_cond_run jobids s :
  call_are_running (Backend c) jobids s =
  (match (are_running c jobids (world s)).1 with
   | inl e => Raise e
   | inr r => Return (Bool.eqb r true)
   end,
   after s (are_running c jobids (world s)).2
         [EvPoll jobids (are_running c jobids (world s)).1]).
Proof.
  rewrite poll_run.
  destruct (are_running c jobids (world s)) as [[e|[|]] w1]; reflexivity.
Qed.

End DistributedRuns.

(** *** What a computation may add to the trace *)

Section EmitsOnly.

Context {W : Type} (env : @Env W) (Q : event -> Prop).

Lemma only_ret {A} (a : A) : emits_only (W:=W) Q (ret a).
Proof. intros s. exists []. by rewrite app_nil_r. Qed.

Lemma only_raise {A} e : emits_only (W:=W) (A:=A) Q (raise e).
Proof. intros s. exists []. by rewrite app_nil_r. Qed.

Lemma only_lift {A} (r : exn + A) : emits_only (W:=W) Q (lift r).
Proof. destruct r; [apply only_raise | apply only_ret]. Qed.

Lemma only_bind {A B} (m : M (@state W) A) (k : A -> M state B) :
  emits_only Q m -> (forall a, emits_only Q (k a)) -> emits_only Q (bind m k).
Proof.
  intros Hm Hk s. rewrite bind_run. destruct (Hm s) as (tr1 & Htr1 & HQ1).
  destruct (m s) as [[a|e|] s1]; simpl in Htr1; [|by exists tr1..].
  destruct (Hk a s1) as (tr2 & Htr2 & HQ2). exists (tr1 ++ tr2).
  rewrite Htr2, Htr1, <- app_assoc. split; [done|]. by apply Forall_app.
Qed.

Lemma only_extern {A} (op : W -> (exn + A) * W) (log : exn + A -> event) :
  (forall r, Q (log r)) -> emits_only Q (extern op log).
Proof.
  intros HQ s. rewrite extern_run. eexists. split; [reflexivity|].
  by apply Forall_singleton.
Qed.

Lemma only_print line : Q (EvPrint line) -> emits_only (W:=W) Q (print line).
Proof. intros HQ s. exists [EvPrint line]. split; [done|]. by apply Forall_singleton. Qed.

Lemma only_while fuel (cond : M (@state W) bool) (body : M state unit) :
  emits_only Q cond -> emits_only Q body -> emits_only Q (while_ fuel cond body).
Proof.
  intros Hc Hb. induction fuel as [|fuel IH]; cbn [while_];
    apply only_bind; try done; intros [|]; try apply only_ret.
  - intros s. exists []. by rewrite app_nil_r.
  - by apply only_bind.
Qed.

Lemma only_list_comp {A} n (e : M (@state W) A) :
  emits_only Q e -> emits_only Q (list_comp n e).
Proof.
  intros He. induction n as [|n IH]; cbn [list_comp]; [apply only_ret|].
  apply only_bind; [done|]. intros x. apply only_bind; [done|]. intros xs.
  apply only_ret.
Qed.

Lemma only_submit cluster args cl :
  (forall r, Q (EvSubmit args cl r)) -> emits_only Q (call_submit_job (W:=W) cluster args cl).
Proof. destruct cluster; intros; [by apply only_extern | apply only_raise]. Qed.

Lemma only_poll cluster jobids :
  (forall r, Q (EvPoll jobids r)) -> emits_only Q (call_are_running (W:=W) cluster jobids).
Proof. destruct cluster; intros; [by apply only_extern | apply only_raise]. Qed.

Lemma only_sleep secs : (forall r, Q (EvSleep secs r)) -> emits_only Q (sleep env secs).
Proof. intros. by apply only_extern. Qed.

End EmitsOnly.

Lemma Forall_not_stop tr : Forall not_stop tr -> stops tr = [].
Proof.
  induction 1 as [|ev tr Hev _ IH]; [reflexivity|].
  change (ev :: tr) with ([ev] ++ tr). by rewrite stops_app, Hev, IH.
Qed.

Lemma Forall_not_submit tr : Forall not_submit tr -> submissions tr = [].
Proof.
  induction 1 as [|ev tr Hev _ IH]; [reflexivity|].
  change (ev :: tr) with ([ev] ++ tr). by rewrite submissions_app, Hev, IH.
Qed.

Section DistributedScript.

Context {W : Type} (env : @Env W).

Implicit Types (s : @state W) (tr : list event) (c : @Cluster W) (cluster : @pyobj W).

Lemma replay_app c tr1 tr2 (w : W) :
  replay env c (tr1 ++ tr2) w =
  match replay env c tr1 w with
  | Some w1 => replay env c tr2 w1
  | None => None
  end.
Proof.
  revert w. induction tr1 as [|ev tr1 IH]; intros w; [reflexivity|].
  destruct ev; simpl; [apply IH|..];
    match goal with |- context [let '(_, _) := ?op in _] => destruct op end;
    case_decide; auto.
Qed.

(** *** [stop_workers] *)

Lemma stop_workers_run c jobids s :
  exists w' tr,
    stop_workers (Backend c) jobids s = (Return tt, after s w' tr) /\
    stop_calls jobids tr /\
    replay env c tr (world s) = Some w'.
Proof.
  revert s. induction jobids as [|j jobids IH]; intros s.
  - exists (world s), []. rewrite after_nil. repeat split. constructor.
  - unfold stop_workers. cbn [for_each]. rewrite bind_run.
    unfold try_except_pass. rewrite stop_run.
    destruct (stop_job c j (world s)) as [r w1] eqn:E. cbn [fst snd].
    destruct (IH (after s w1 [EvStop j r])) as (w' & tr & Hrun & Hcalls & Hre).
    exists w', (EvStop j r :: tr).
    assert (for_each jobids (fun jobid => try_except_pass (call_stop_job (Backend c) jobid))
                     (after s w1 [EvStop j r])
            = (Return tt, after s w' (EvStop j r :: tr))) as Hrest.
    { unfold stop_workers in Hrun. rewrite Hrun. by rewrite after_after. }
    split; [| split; [by constructor|]].
    + destruct r as [e|[]]; exact Hrest.
    + simpl. rewrite E, decide_True by done. exact Hre.
Qed.

(** Whatever object [cluster] is and whatever [stop_job] does, [stop_workers]
    comes to a normal end. *)
Lemma stop_workers_returns cluster jobids s :
  (stop_workers cluster jobids s).1 = Return tt.
Proof.
  destruct cluster as [c|].
  - destruct (stop_workers_run c jobids s) as (w' & tr & -> & _). reflexivity.
  - revert s. induction jobids as [|j jobids IH]; intros s; [reflexivity|].
    unfold stop_workers. cbn [for_each]. rewrite bind_run. apply IH.
Qed.

Lemma stop_workers_emits cluster jobids (Q : event -> Prop) :
  (forall j r, Q (EvStop j r)) -> emits_only Q (stop_workers cluster jobids).
Proof.
  intros HQ. induction jobids as [|j jobids IH]; [apply only_ret|].
  unfold stop_workers. cbn [for_each]. apply only_bind; [|intros _; exact IH].
  intros s. unfold try_except_pass.
  destruct cluster as [c|].
  - rewrite stop_run. destruct (stop_job c j (world s)) as [[e|[]] w1];
      (eexists; split; [reflexivity|]; by apply Forall_singleton).
  - exists []. by rewrite app_nil_r.
Qed.

End DistributedScript.

(** *** The trace is a faithful log *)

Section Recorded.

Context {W : Type} (env : @Env W) (c : @Cluster W).

Implicit Types (s : @state W) (tr : list event).





Lemma recorded_print line : recorded env c (print line).
Proof. intros s. by exists [EvPrint line]. Qed.



Lemma recorded_stop jobid : recorded env c (call_stop_job (Backend c) jobid).
Proof.
  intros s. rewrite stop_run. eexists. split; [reflexivity|]. cbn [snd after world replay].
  destruct (stop_job c jobid (world s)) as [r w1]. cbn [fst snd].
  by rewrite decide_True.
Qed.






End Recorded.

(** *** [start_workers] *)

Section StartWorkers.

Context {W : Type} (env : @Env W).

Implicit Types (s : @state W) (tr : list event) (c : @Cluster W) (cluster : @pyobj W).

Lemma start_workers_unfold fuel cluster (config : Config) cf pa wp nw n s :
  getitem2 config "distributed" "platform_args" = inr (VStr pa) ->
  getitem2 config "analysis" "worker_program" = inr wp ->
  getitem2 config "distributed" "num_workers" = inr nw ->
  range_len nw = inr n ->
  start_workers env fuel cluster config cf s =
  (let* jobids := list_comp n (call_submit_job cluster (split_from "" pa) [wp; VStr cf]) in
   while_ fuel (let* r := call_are_running cluster jobids in ret (negb r)) (sleep env 5) ;;
   ret jobids) s.
Proof.
  intros Hpa Hwp Hnw Hn. unfold start_workers, config_item.
  rewrite bind_lift, Hpa, bind_lift. cbn [py_split].
  rewrite bind_lift, Hwp, bind_lift, Hnw, bind_lift, Hn. reflexivity.
Qed.

(** A name bound to something that is not a scheduler backend never yields a
    started pool. *)
Lemma start_workers_other fuel (config : Config) cf s jobids s' :
  start_workers env fuel OtherObject config cf s <> (Return jobids, s').
Proof.
  unfold start_workers, config_item. rewrite bind_lift.
  destruct (getitem2 config "distributed" "platform_args") as [e|pa]; [discriminate|].
  rewrite bind_lift. destruct (py_split pa) as [e|args]; [discriminate|].
  rewrite bind_lift.
  destruct (getitem2 config "analysis" "worker_program") as [e|wp]; [discriminate|].
  rewrite bind_lift.
  destruct (getitem2 config "distributed" "num_workers") as [e|nw]; [discriminate|].
  rewrite bind_lift. destruct (range_len nw) as [e|n]; [discriminate|].
  rewrite bind_run. destruct n as [|n]; [|discriminate].
  cbn [list_comp ret]. rewrite bind_run, while_run. discriminate.
Qed.

Section WithConfig.

Variables (c : @Cluster W) (config : Config) (config_file pa : string) (wp nw : value)
          (n : nat).

Hypothesis platform_args_ok : getitem2 config "distributed" "platform_args" = inr (VStr pa).
Hypothesis worker_program_ok : getitem2 config "analysis" "worker_program" = inr wp.
Hypothesis num_workers_ok : getitem2 config "distributed" "num_workers" = inr nw.
Hypothesis range_ok : range_len nw = inr n.

Local Abbreviation args := (split_from "" pa).
Local Abbreviation program_cl := [wp; VStr config_file].

Lemma start_workers_shape fuel s jobids s' :
  start_workers env fuel (Backend c) config config_file s = (Return jobids, s') ->
  length jobids = n /\
  exists k, (k <= fuel)%nat /\
    trace s' = trace s ++ submits args program_cl jobids ++
               rounds jobids false k ++ [EvPoll jobids (inr true)] /\
    replay env c (submits args program_cl jobids ++
                  rounds jobids false k ++ [EvPoll jobids (inr true)]) (world s)
    = Some (world s').
Proof.
  rewrite (start_workers_unfold _ _ _ _ _ _ _ _ _ platform_args_ok worker_program_ok
             num_workers_ok range_ok).
  rewrite bind_run.
  destruct (list_comp _ _ s) as [r1 s1] eqn:E1.
  apply (submit_all_shape env) in E1.
  destruct r1 as [ids|e|]; [|discriminate|done].
  destruct E1 as (Hlen & Htr1 & Hre1). rewrite bind_run.
  destruct (while_ fuel _ _ s1) as [r2 s2] eqn:E2.
  destruct r2 as [[]|e|]; [|discriminate..].
  intros H. injection H as <- <-.
  apply (poll_loop_shape env c _ ids false (wait_cond_run c ids)) in E2
    as (k & Hk & Htr2 & Hre2).
  split; [done|]. exists k. split; [done|]. split.
  - rewrite Htr2, Htr1, <- app_assoc. reflexivity.
  - rewrite replay_app. rewrite Hre1. exact Hre2.
Qed.

Lemma start_workers_progress fuel s jobids k w' :
  length jobids = n ->
  replay env c (submits args program_cl jobids ++
                rounds jobids false k ++ [EvPoll jobids (inr true)]) (world s)
  = Some w' ->
  (k <= fuel)%nat ->
  start_workers env fuel (Backend c) config config_file s =
  (Return jobids,
   after s w' (submits args program_cl jobids ++
               rounds jobids false k ++ [EvPoll jobids (inr true)])).
Proof.
  intros Hlen Hre Hk.
  rewrite (start_workers_unfold _ _ _ _ _ _ _ _ _ platform_args_ok worker_program_ok
             num_workers_ok range_ok).
  rewrite replay_app in Hre.
  destruct (replay env c (submits _ _ jobids) (world s)) as [w1|] eqn:E1;
    [|discriminate].
  rewrite bind_run, <- Hlen.
  rewrite (submit_all_progress env c _ _ _ _ _ E1). rewrite bind_run.
  rewrite (poll_loop_progress env c _ jobids false (wait_cond_run c jobids) k fuel
             (after s w1 (submits _ _ jobids)) w' Hre Hk).
  unfold ret. rewrite after_after. reflexivity.
Qed.

(** No normal end while the scheduler never reports a set of [n] jobs running. *)
Lemma start_workers_never fuel s jobids s' :
  (forall ids w, length ids = n -> (are_running c ids w).1 <> inr true) ->
  start_workers env fuel (Backend c) config config_file s <> (Return jobids, s').
Proof.
  intros Hnever H. pose proof (start_workers_shape _ _ _ _ H) as (Hlen & k & _ & _ & Hre).
  rewrite replay_app in Hre.
  destruct (replay env c (submits _ _ jobids) (world s)) as [w1|];
    [|discriminate].
  rewrite replay_app in Hre.
  destruct (replay env c (rounds jobids false k) w1) as [w2|]; [|discriminate].
  simpl in Hre. specialize (Hnever jobids w2 Hlen).
  destruct (are_running c jobids w2) as [r w3]. case_decide; [|discriminate].
  by subst r.
Qed.

(** With submissions that succeed, polls that answer "not running" and an
    undisturbed sleep, every amount of fuel is used up in the poll loop. *)
Lemma start_workers_spin fuel s :
  (forall w, exists j, (submit_job c args program_cl w).1 = inr j) ->
  (forall ids w, length ids = n -> (are_running c ids w).1 = inr false) ->
  (forall w, (time_sleep env 5 w).1 = inr tt) ->
  exists jobids s',
    start_workers env fuel (Backend c) config config_file s = (OutOfFuel, s') /\
    length jobids = n /\
    trace s' = trace s ++ submits args program_cl jobids ++
               rounds jobids false fuel ++ [EvPoll jobids (inr false)].
Proof.
  intros Hsub Hpoll Hsleep.
  rewrite (start_workers_unfold _ _ _ _ _ _ _ _ _ platform_args_ok worker_program_ok
             num_workers_ok range_ok).
  assert (forall i s0, exists jobids s1,
             list_comp i (call_submit_job (Backend c) args program_cl) s0
             = (Return jobids, s1) /\ length jobids = i /\
             trace s1 = trace s0 ++ submits args program_cl jobids) as Hall.
  { induction i as [|i IH]; intros s0.
    - exists [], s0. by rewrite app_nil_r.
    - cbn [list_comp]. rewrite bind_run, submit_run.
      destruct (Hsub (world s0)) as [j Hj]. rewrite Hj.
      destruct (IH (after s0 (submit_job c args program_cl (world s0)).2
                      [EvSubmit args program_cl (inr j)])) as (ids & s1 & Hrun & Hlen & Htr).
      exists (j :: ids), s1. rewrite bind_run, Hrun. simpl.
      split; [done|]. split; [by rewrite Hlen|].
      rewrite Htr. simpl. by rewrite <- app_assoc. }
  destruct (Hall n s) as (jobids & s1 & Hrun & Hlen & Htr1).
  rewrite bind_run, Hrun, bind_run.
  destruct (poll_loop_spin env c _ jobids false (wait_cond_run c jobids) fuel s1)
    as (s2 & Hloop & Htr2); [by intros w; apply Hpoll | done |].
  rewrite Hloop. exists jobids, s2. split; [done|]. split; [done|].
  rewrite Htr2, Htr1, <- app_assoc. reflexivity.
Qed.

End WithConfig.
End StartWorkers.

(** C4.  A pool of [N >= 0] workers: when [start_workers] returns, it returns
    the [N] handles of its [N] submissions, all of them, and the trace since
    the call is those submissions, then polls of [are_running] on the full
    list that answered "no", each followed by a sleep of five seconds, then
    the first poll that answered "yes".  Conversely, a scheduler that behaves
    in this way makes [start_workers] return once the fuel covers the
    sleeps. *)
Theorem start_workers_full_pool {W : Type} (env : @Env W) (c : @Cluster W)
    (config : Config) (config_file pa : string) (wp : value) (N : Z)
    (fuel : nat) (s : @state W) :
  getitem2 config "distributed" "platform_args" = inr (VStr pa) ->
  getitem2 config "analysis" "worker_program" = inr wp ->
  getitem2 config "distributed" "num_workers" = inr (VInt N) ->
  0 <= N ->
  (forall jobids s',
      start_workers env fuel (Backend c) config config_file s = (Return jobids, s') ->
      Z.of_nat (length jobids) = N /\
      exists k tr,
        (k <= fuel)%nat /\
        tr = submits (split_from "" pa) [wp; VStr config_file] jobids ++
             rounds jobids false k ++ [EvPoll jobids (inr true)] /\
        trace s' = trace s ++ tr /\
        submitted tr = jobids /\
        replay env c tr (world s) = Some (world s')) /\
  (forall jobids k w',
      Z.of_nat (length jobids) = N ->
      replay env c (submits (split_from "" pa) [wp; VStr config_file] jobids ++
                    rounds jobids false k ++ [EvPoll jobids (inr true)]) (world s)
      = Some w' ->
      (k <= fuel)%nat ->
      start_workers env fuel (Backend c) config config_file s =
      (Return jobids,
       after s w' (submits (split_from "" pa) [wp; VStr config_file] jobids ++
                   rounds jobids false k ++ [EvPoll jobids (inr true)]))).
Proof.
  intros Hpa Hwp Hnw HN. split.
  - intros jobids s' H.
    destruct (start_workers_shape env c config config_file pa wp (VInt N) (Z.to_nat N)
                Hpa Hwp Hnw eq_refl fuel s jobids s' H) as (Hlen & k & Hk & Htr & Hre).
    split; [lia|]. exists k. eexists. split; [done|]. split; [reflexivity|].
    split; [done|]. split; [|done].
    rewrite !submitted_app, submitted_submits, submitted_rounds. simpl.
    by rewrite app_nil_r.
  - intros jobids k w' Hlen Hre Hk.
    apply (start_workers_progress env c config config_file pa wp (VInt N) (Z.to_nat N)
             Hpa Hwp Hnw eq_refl); [lia | done | done].
Qed.

Lemma start_workers_full_pool_witness :
  exists s',
    start_workers (Sim.sample_env (Sim.sample_config (VStr "messaging") 2)) 10
      (Backend Sim.lsf) (Sim.sample_config (VStr "messaging") 2) "post_process.yaml"
      (Sim.start (Sim.fresh 10 7 None []))
    = (Return [VInt 0; VInt 1], s') /\
    sleeps (trace s') = [5; 5].
Proof.
  eexists. split.
  - apply (proj2 (start_workers_full_pool
                    (Sim.sample_env (Sim.sample_config (VStr "messaging") 2)) Sim.lsf
                    (Sim.sample_config (VStr "messaging") 2) "post_process.yaml"
                    "-q  normal" (VStr "worker.py") 2 10
                    (Sim.start (Sim.fresh 10 7 None []))
                    eq_refl eq_refl eq_refl ltac:(lia))
                 [VInt 0; VInt 1] 2%nat);
      [reflexivity | vm_compute; reflexivity | lia].
  - vm_compute. reflexivity.
Defined.

(** C7.  [start_workers] has no timeout.  While the scheduler never reports a
    full set of [N] handles running, no amount of fuel lets [start_workers]
    return; and when the submissions succeed, every poll answers "not
    running" and the sleep is not interrupted, every amount of fuel is used
    up inside the poll loop: [fuel] sleeps of five seconds and one more
    poll. *)
Theorem start_workers_no_timeout {W : Type} (env : @Env W) (c : @Cluster W)
    (config : Config) (config_file pa : string) (wp : value) (N : Z) :
  getitem2 config "distributed" "platform_args" = inr (VStr pa) ->
  getitem2 config "analysis" "worker_program" = inr wp ->
  getitem2 config "distributed" "num_workers" = inr (VInt N) ->
  (forall ids w, length ids = Z.to_nat N -> (are_running c ids w).1 <> inr true) ->
  (forall fuel s jobids s',
      start_workers env fuel (Backend c) config config_file s <> (Return jobids, s')) /\
  ((forall w, exists j,
       (submit_job c (split_from "" pa) [wp; VStr config_file] w).1 = inr j) ->
   (forall ids w, length ids = Z.to_nat N -> (are_running c ids w).1 = inr false) ->
   (forall w, (time_sleep env 5 w).1 = inr tt) ->
   forall fuel s, exists jobids s',
     start_workers env fuel (Backend c) config config_file s = (OutOfFuel, s') /\
     length jobids = Z.to_nat N /\
     trace s' = trace s ++ submits (split_from "" pa) [wp; VStr config_file] jobids ++
                rounds jobids false fuel ++ [EvPoll jobids (inr false)] /\
     sleeps (submits (split_from "" pa) [wp; VStr config_file] jobids ++
             rounds jobids false fuel ++ [EvPoll jobids (inr false)])
     = replicate fuel 5).
Proof.
  intros Hpa Hwp Hnw Hnever. split.
  - intros fuel s jobids s'.
    by apply (start_workers_never env c config config_file pa wp (VInt N) (Z.to_nat N)
                Hpa Hwp Hnw eq_refl).
  - intros Hsub Hpoll Hsleep fuel s.
    destruct (start_workers_spin env c config config_file pa wp (VInt N) (Z.to_nat N)
                Hpa Hwp Hnw eq_refl fuel s Hsub Hpoll Hsleep) as (jobids & s' & Hrun & Hlen & Htr).
    exists jobids, s'. repeat (split; [done|]).
    rewrite !sleeps_app, sleeps_submits, sleeps_rounds. simpl. by rewrite app_nil_r.
Qed.

Lemma start_workers_no_timeout_witness :
  exists s',
    start_workers (Sim.sample_env (Sim.sample_config (VStr "messaging") 2)) 3
      (Backend Sim.stalled) (Sim.sample_config (VStr "messaging") 2) "post_process.yaml"
      (Sim.start (Sim.fresh 10 7 None []))
    = (OutOfFuel, s') /\
    sleeps (trace s') = [5; 5; 5].
Proof.
  destruct (proj2 (start_workers_no_timeout
                     (Sim.sample_env (Sim.sample_config (VStr "messaging") 2)) Sim.stalled
                     (Sim.sample_config (VStr "messaging") 2) "post_process.yaml"
                     "-q  normal" (VStr "worker.py") 2
                     eq_refl eq_refl eq_refl
                     (fun ids w _ H => ltac:(discriminate H)))
                  (fun w => ex_intro _ _ eq_refl)
                  (fun ids w _ => eq_refl)
                  (fun w => eq_refl)
                  3%nat (Sim.start (Sim.fresh 10 7 None [])))
    as (jobids & s' & Hrun & _ & Htr & Hsl).
  exists s'. split; [exact Hrun|]. rewrite Htr. exact Hsl.
Defined.

(** C8.  If [are_running] answers "yes" on the empty list, [start_workers]
    with [num_workers] 0 returns the empty list after that single poll: no
    job submitted, no sleep, whatever the fuel. *)
Theorem start_workers_empty_pool {W : Type} (env : @Env W) (c : @Cluster W)
    (config : Config) (config_file pa : string) (wp : value)
    (fuel : nat) (s : @state W) (w' : W) :
  getitem2 config "distributed" "platform_args" = inr (VStr pa) ->
  getitem2 config "analysis" "worker_program" = inr wp ->
  getitem2 config "distributed" "num_workers" = inr (VInt 0) ->
  are_running c [] (world s) = (inr true, w') ->
  start_workers env fuel (Backend c) config config_file s =
  (Return [], after s w' [EvPoll [] (inr true)]) /\
  submissions [EvPoll [] (inr true)] = [] /\
  sleeps [EvPoll [] (inr true)] = [].
Proof.
  intros Hpa Hwp Hnw Hpoll. split; [|done].
  apply (start_workers_progress env c config config_file pa wp (VInt 0) 0%nat
           Hpa Hwp Hnw eq_refl fuel s [] 0%nat w'); [done| |lia].
  simpl. rewrite Hpoll. by rewrite decide_True.
Qed.

Lemma start_workers_empty_pool_witness :
  start_workers (Sim.sample_env (Sim.sample_config (VStr "messaging") 0)) 0
    (Backend Sim.lsf) (Sim.sample_config (VStr "messaging") 0) "post_process.yaml"
    (Sim.start (Sim.fresh 10 7 None []))
  = (Return [], after (Sim.start (Sim.fresh 10 7 None [])) (Sim.fresh 10 7 None [])
                      [EvPoll [] (inr true)]).
Proof.
  apply (start_workers_empty_pool
           (Sim.sample_env (Sim.sample_config (VStr "messaging") 0)) Sim.lsf
           (Sim.sample_config (VStr "messaging") 0) "post_process.yaml"
           "-q  normal" (VStr "worker.py") 0 (Sim.start (Sim.fresh 10 7 None []))
           (Sim.fresh 10 7 None []) eq_refl eq_refl eq_refl eq_refl).
Defined.

(** *** [run_analysis] *)

Section RunAnalysis.

Context {W : Type} (env : @Env W).

Implicit Types (s : @state W) (tr : list event) (c : @Cluster W) (cluster : @pyobj W).

(** The events of a driver job that starts after [k] polls and is seen
    running for [m] more. *)
Lemma run_analysis_unfold fuel cf fc ry cluster (config : Config) pa pp s :
  getitem2 config "distributed" "platform_args" = inr (VStr pa) ->
  getitem2 config "analysis" "process_program" = inr pp ->
  run_analysis env fuel cf fc ry cluster config s =
  (let* jobid := call_submit_job cluster (split_from "" pa)
                   (driver_program_cl pp cf fc ry) in
   while_ fuel (let* r := call_are_running cluster [jobid] in ret (negb r)) (sleep env 5) ;;
   while_ fuel (call_are_running cluster [jobid]) (sleep env 5)) s.
Proof.
  intros Hpa Hpp. unfold run_analysis, config_item.
  rewrite bind_lift, Hpa, bind_lift. cbn [py_split].
  rewrite bind_lift, Hpp. reflexivity.
Qed.

Lemma run_analysis_no_stop fuel cf fc ry cluster (config : Config) :
  emits_only not_stop (run_analysis env fuel cf fc ry cluster config).
Proof.
  unfold run_analysis, config_item.
  repeat (apply only_bind; [try apply only_lift | intros ?]).
  - by apply only_submit.
  - apply only_while; [|by apply only_sleep].
    apply only_bind; [by apply only_poll | intros; apply only_ret].
  - apply only_while; [by apply only_poll | by apply only_sleep].
Qed.

Lemma driver_loops_no_submit fuel cluster (jobid : value) :
  emits_only not_submit
    (while_ fuel (let* r := call_are_running cluster [jobid] in ret (negb r)) (sleep env 5) ;;
     while_ fuel (call_are_running cluster [jobid]) (sleep env 5)).
Proof.
  apply only_bind; [|intros _].
  - apply only_while; [|by apply only_sleep].
    apply only_bind; [by apply only_poll | intros; apply only_ret].
  - apply only_while; [by apply only_poll | by apply only_sleep].
Qed.

Lemma run_analysis_one_submission fuel cf fc ry cluster (config : Config) s :
  exists tr,
    trace (run_analysis env fuel cf fc ry cluster config s).2 = trace s ++ tr /\
    (length (submissions tr) <= 1)%nat.
Proof.
  assert (exists tr, trace s = trace s ++ tr /\ (length (submissions tr) <= 1)%nat) as Hnil.
  { exists []. rewrite app_nil_r. simpl. split; [done | lia]. }
  unfold run_analysis, config_item. rewrite bind_lift.
  destruct (getitem2 config "distributed" "platform_args") as [e|pa]; [exact Hnil|].
  rewrite bind_lift. destruct (py_split pa) as [e|args]; [exact Hnil|].
  rewrite bind_lift.
  destruct (getitem2 config "analysis" "process_program") as [e|pp]; [exact Hnil|].
  destruct cluster as [c|]; [|exact Hnil].
  rewrite bind_run, submit_run.
  destruct (submit_job c args _ (world s)) as [[e|j] w1]; cbn [fst snd].
  - eexists. split; [reflexivity|]. simpl. lia.
  - destruct (driver_loops_no_submit fuel (Backend c) j (after s w1 [EvSubmit args
                (driver_program_cl pp cf fc ry) (inr j)])) as (tr & Htr & HQ).
    eexists. split; [rewrite Htr; simpl; rewrite <- app_assoc; reflexivity|].
    rewrite submissions_app, (Forall_not_submit _ HQ). simpl. lia.
Qed.

Section WithConfig.

Variables (c : @Cluster W) (config : Config) (cf fc pa : string) (ry : option string)
          (pp : value).

Hypothesis platform_args_ok : getitem2 config "distributed" "platform_args" = inr (VStr pa).
Hypothesis process_program_ok : getitem2 config "analysis" "process_program" = inr pp.

Local Abbreviation args := (split_from "" pa).
Local Abbreviation program_cl := (driver_program_cl pp cf fc ry).
Local Abbreviation driver_trace jobid k m :=
  ([EvSubmit args program_cl (inr jobid)] ++
   rounds [jobid] false k ++ [EvPoll [jobid] (inr true)] ++
   rounds [jobid] true m ++ [EvPoll [jobid] (inr false)]).

Lemma run_analysis_shape fuel s s' :
  run_analysis env fuel cf fc ry (Backend c) config s = (Return tt, s') ->
  exists jobid k m,
    (k <= fuel)%nat /\ (m <= fuel)%nat /\
    trace s' = trace s ++ driver_trace jobid k m /\
    replay env c (driver_trace jobid k m) (world s) = Some (world s').
Proof.
  rewrite (run_analysis_unfold _ _ _ _ _ _ _ _ _ platform_args_ok process_program_ok).
  rewrite bind_run, submit_run.
  destruct (submit_job c args program_cl (world s)) as [[e|j] w1] eqn:E; cbn [fst snd];
    [discriminate|].
  rewrite bind_run.
  destruct (while_ fuel _ _ (after s w1 _)) as [r1 s1] eqn:E1.
  destruct r1 as [[]|e|]; [|discriminate..].
  intros E2.
  apply (poll_loop_shape env c _ [j] false (wait_cond_run c [j])) in E1
    as (k & Hk & Htr1 & Hre1).
  apply (poll_loop_shape env c _ [j] true (finish_cond_run c [j])) in E2
    as (m & Hm & Htr2 & Hre2).
  exists j, k, m. split; [done|]. split; [done|]. split.
  - rewrite Htr2, Htr1. cbn [after trace negb]. rewrite <- !app_assoc. reflexivity.
  - rewrite replay_app. cbn [replay]. rewrite E, decide_True by done.
    cbn [after world negb] in Hre1. rewrite app_assoc, replay_app, Hre1. exact Hre2.
Qed.

Lemma run_analysis_progress fuel s jobid k m w' :
  replay env c (driver_trace jobid k m) (world s) = Some w' ->
  (k <= fuel)%nat -> (m <= fuel)%nat ->
  run_analysis env fuel cf fc ry (Backend c) config s =
  (Return tt, after s w' (driver_trace jobid k m)).
Proof.
  intros Hre Hk Hm.
  rewrite (run_analysis_unfold _ _ _ _ _ _ _ _ _ platform_args_ok process_program_ok).
  rewrite replay_app in Hre. cbn [replay] in Hre.
  destruct (submit_job c args program_cl (world s)) as [r w1] eqn:E.
  case_decide; [subst r | discriminate].
  rewrite app_assoc, replay_app in Hre.
  destruct (replay env c (rounds [jobid] false k ++ [EvPoll [jobid] (inr true)]) w1)
    as [w2|] eqn:E1; [|discriminate].
  rewrite bind_run, submit_run, E. cbn [fst snd]. rewrite bind_run.
  rewrite (poll_loop_progress env c _ [jobid] false (wait_cond_run c [jobid]) k fuel
             (after s w1 [EvSubmit args program_cl (inr jobid)]) w2 E1 Hk).
  rewrite (poll_loop_progress env c _ [jobid] true (finish_cond_run c [jobid]) m fuel
             (after (after s w1 [EvSubmit args program_cl (inr jobid)]) w2
                    (rounds [jobid] false k ++ [EvPoll [jobid] (inr (negb false))]))
             w' Hre Hm).
  rewrite !after_after. cbn [negb]. rewrite <- !app_assoc. reflexivity.
Qed.

End WithConfig.
End RunAnalysis.

(** C5.  The job runner.  When [run_analysis] returns, the trace since the
    call is: one submission of the driver job; polls of [are_running] on that
    one handle answering "no", each followed by a sleep of 5; the poll that
    answered "yes"; polls answering "yes", each followed by a sleep of 5;
    the poll that answered "no".  A scheduler behaving so makes it return
    once the fuel covers the sleeps of each loop.  Whatever the outcome,
    [submit_job] is called at most once: the driver job is not retried. *)
Theorem run_analysis_protocol {W : Type} (env : @Env W) (c : @Cluster W)
    (config : Config) (config_file fc_dir pa : string) (run_info_yaml : option string)
    (pp : value) (fuel : nat) (s : @state W) :
  getitem2 config "distributed" "platform_args" = inr (VStr pa) ->
  getitem2 config "analysis" "process_program" = inr pp ->
  (forall s',
      run_analysis env fuel config_file fc_dir run_info_yaml (Backend c) config s
      = (Return tt, s') ->
      exists jobid k m tr,
        (k <= fuel)%nat /\ (m <= fuel)%nat /\
        tr = [EvSubmit (split_from "" pa)
                (driver_program_cl pp config_file fc_dir run_info_yaml) (inr jobid)] ++
             rounds [jobid] false k ++ [EvPoll [jobid] (inr true)] ++
             rounds [jobid] true m ++ [EvPoll [jobid] (inr false)] /\
        trace s' = trace s ++ tr /\
        replay env c tr (world s) = Some (world s')) /\
  (forall jobid k m w',
      replay env c
        ([EvSubmit (split_from "" pa)
            (driver_program_cl pp config_file fc_dir run_info_yaml) (inr jobid)] ++
         rounds [jobid] false k ++ [EvPoll [jobid] (inr true)] ++
         rounds [jobid] true m ++ [EvPoll [jobid] (inr false)]) (world s) = Some w' ->
      (k <= fuel)%nat -> (m <= fuel)%nat ->
      run_analysis env fuel config_file fc_dir run_info_yaml (Backend c) config s =
      (Return tt,
       after s w'
         ([EvSubmit (split_from "" pa)
             (driver_program_cl pp config_file fc_dir run_info_yaml) (inr jobid)] ++
          rounds [jobid] false k ++ [EvPoll [jobid] (inr true)] ++
          rounds [jobid] true m ++ [EvPoll [jobid] (inr false)]))) /\
  (exists tr,
      trace (run_analysis env fuel config_file fc_dir run_info_yaml (Backend c) config s).2
      = trace s ++ tr /\
      (length (submissions tr) <= 1)%nat).
Proof.
  intros Hpa Hpp. split; [|split].
  - intros s' H.
    destruct (run_analysis_shape env c config config_file fc_dir pa run_info_yaml pp
                Hpa Hpp fuel s s' H) as (j & k & m & Hk & Hm & Htr & Hre).
    exists j, k, m. eexists. split; [exact Hk|]. split; [exact Hm|].
    split; [reflexivity|]. split; [exact Htr | exact Hre].
  - intros jobid k m w'.
    apply (run_analysis_progress env c config config_file fc_dir pa run_info_yaml pp
             Hpa Hpp).
  - apply run_analysis_one_submission.
Qed.

Lemma run_analysis_protocol_witness :
  exists s',
    run_analysis (Sim.sample_env (Sim.sample_config (VStr "messaging") 2)) 10
      "post_process.yaml" "/store/110106_FC70BUKAAXX" (Some "run_info.yaml")
      (Backend Sim.lsf) (Sim.sample_config (VStr "messaging") 2)
      (Sim.start (Sim.fresh 10 7 None []))
    = (Return tt, s') /\
    sleeps (trace s') = [5; 5; 5; 5] /\
    submitted (trace s') = [VInt 0].
Proof.
  eexists. split.
  - apply (proj1 (proj2 (run_analysis_protocol
                    (Sim.sample_env (Sim.sample_config (VStr "messaging") 2)) Sim.lsf
                    (Sim.sample_config (VStr "messaging") 2) "post_process.yaml"
                    "/store/110106_FC70BUKAAXX" "-q  normal" (Some "run_info.yaml")
                    (VStr "automated_initial_analysis.py") 10
                    (Sim.start (Sim.fresh 10 7 None []))
                    eq_refl eq_refl))
                 (VInt 0) 2%nat 2%nat);
      [vm_compute; reflexivity | lia | lia].
  - vm_compute. split; reflexivity.
Defined.

(** *** [main] *)

Section Main.

Context {W : Type} (env : @Env W).

Implicit Types (s : @state W) (tr : list event) (c : @Cluster W) (cluster : @pyobj W).

(** A pool that started left its handles, and no stop request, in the trace. *)
Lemma start_workers_returned fuel cluster (config : Config) cf s jobids s' :
  start_workers env fuel cluster config cf s = (Return jobids, s') ->
  exists c tr,
    cluster = Backend c /\ trace s' = trace s ++ tr /\
    submitted tr = jobids /\ stops tr = [].
Proof.
  intros H. destruct cluster as [c|]; [|by apply start_workers_other in H].
  exists c. pose proof H as H0. revert H0.
  unfold start_workers at 1, config_item. rewrite bind_lift.
  destruct (getitem2 config "distributed" "platform_args") as [e|pa] eqn:Hpa;
    [discriminate|].
  rewrite bind_lift. destruct pa as [| | |pa]; try discriminate. cbn [py_split].
  rewrite bind_lift.
  destruct (getitem2 config "analysis" "worker_program") as [e|wp] eqn:Hwp;
    [discriminate|].
  rewrite bind_lift.
  destruct (getitem2 config "distributed" "num_workers") as [e|nw] eqn:Hnw;
    [discriminate|].
  rewrite bind_lift. destruct (range_len nw) as [e|n] eqn:Hn; [discriminate|].
  intros _.
  destruct (start_workers_shape env c config cf pa wp nw n Hpa Hwp Hnw Hn
              fuel s jobids s' H) as (_ & k & _ & Htr & _).
  eexists. split; [done|]. split; [exact Htr|].
  rewrite !submitted_app, !stops_app, submitted_submits, submitted_rounds,
    stops_submits, stops_rounds. simpl. by rewrite app_nil_r.
Qed.

Lemma submit_all_fails c args cl done e : forall n s w',
  (length done < n)%nat ->
  replay env c (submits args cl done ++ [EvSubmit args cl (inl e)]) (world s) = Some w' ->
  list_comp n (call_submit_job (Backend c) args cl) s =
  (Raise e, after s w' (submits args cl done ++ [EvSubmit args cl (inl e)])).
Proof.
  induction done as [|j done_ IH]; intros n s w' Hlen Hre;
    (destruct n as [|n]; [simpl in Hlen; lia|]);
    cbn [list_comp]; rewrite bind_run, submit_run; simpl in Hre;
    destruct (submit_job c args cl (world s)) as [r w1] eqn:E;
    (case_decide; [subst r | discriminate]); cbn [fst snd].
  - by injection Hre as <-.
  - rewrite bind_run.
    rewrite (IH n (after s w1 [EvSubmit args cl (inr j)]) w');
      [| simpl in Hlen; lia | exact Hre].
    by rewrite after_after.
Qed.

Section WithConfig.

Variables (config : Config) (cf fc name : string) (ry : option string) (cluster : @pyobj W).
Variable s : @state W.

Hypothesis load_ok : load_config env cf (world s) = inr config.
Hypothesis num_cores_ok : getitem2 config "algorithm" "num_cores" = inr (VStr "messaging").
Hypothesis platform_ok : getitem2 config "distributed" "cluster_platform" = inr (VStr name).
Hypothesis global_ok : globals_ env name = Some cluster.

Lemma main_unfold fuel :
  main env fuel cf fc ry s =
  (let* jobids := start_workers env fuel cluster config cf in
   try_finally
     (print "Running analysis" ;; run_analysis env fuel cf fc ry cluster config)
     (print "Cleaning up cluster workers" ;; stop_workers cluster jobids))
    (after s (world s) [EvPrint "Starting cluster workers"]).
Proof.
  unfold main. rewrite bind_run. cbv beta. rewrite load_ok. cbn [lift ret].
  unfold config_item. rewrite bind_lift, num_cores_ok. reflexivity || idtac.
  rewrite bind_run. cbn [eq_str]. 
  change (String.eqb "messaging" "messaging") with true. cbn [assert_ ret].
  rewrite bind_lift, platform_ok. rewrite bind_run, global_ok. reflexivity.
Qed.

(** Once the pool has started, the rest of [main] is the driver job and
    then the cleanup, which always comes to a normal end. *)
Lemma main_after_start fuel jobids s2 r s4 :
  start_workers env fuel cluster config cf
    (after s (world s) [EvPrint "Starting cluster workers"]) = (Return jobids, s2) ->
  run_analysis env fuel cf fc ry cluster config
    (after s2 (world s2) [EvPrint "Running analysis"]) = (r, s4) ->
  r <> OutOfFuel ->
  exists w' tr_stop,
    main env fuel cf fc ry s =
    (r, after s4 w' (EvPrint "Cleaning up cluster workers" :: tr_stop)) /\
    stop_calls jobids tr_stop.
Proof.
  intros Hstart Hrun Hr. rewrite main_unfold, bind_run, Hstart, try_finally_run.
  destruct (start_workers_returned _ _ _ _ _ _ _ Hstart) as (c & _ & -> & _).
  rewrite bind_run. change (print "Running analysis" s2)
    with (Return tt, after s2 (world s2) [EvPrint "Running analysis"]).
  cbv beta iota. rewrite Hrun.
  assert ((print "Cleaning up cluster workers" ;; stop_workers (Backend c) jobids) s4
          = stop_workers (Backend c) jobids
              (after s4 (world s4) [EvPrint "Cleaning up cluster workers"])) as ->
    by reflexivity.
  destruct (stop_workers_run env c jobids
              (after s4 (world s4) [EvPrint "Cleaning up cluster workers"]))
    as (w' & tr & Hstop & Hcalls & _).
  rewrite Hstop, after_after. exists w', tr. split; [|done].
  destruct r; [reflexivity..|done].
Qed.


End WithConfig.
End Main.



(** C3.  Errors of [stop_job] are swallowed one by one.  When the pool
    started and the driver phase raised [e], [main] still calls [stop_job] on
    every handle, in order, whatever each call answers, and then raises that
    same [e]: no cancellation error replaces it. *)
Theorem cleanup_errors_do_not_mask_driver_error {W : Type} (env : @Env W)
    (c : @Cluster W) (fuel : nat) (config_file fc_dir : string)
    (run_info_yaml : option string) (s : @state W) (config : Config) (name : string)
    (jobids : list value) (s2 : @state W) (e : exn) (s4 : @state W) :
  load_config env config_file (world s) = inr config ->
  getitem2 config "algorithm" "num_cores" = inr (VStr "messaging") ->
  getitem2 config "distributed" "cluster_platform" = inr (VStr name) ->
  globals_ env name = Some (Backend c) ->
  start_workers env fuel (Backend c) config config_file
    (after s (world s) [EvPrint "Starting cluster workers"]) = (Return jobids, s2) ->
  run_analysis env fuel config_file fc_dir run_info_yaml (Backend c) config
    (after s2 (world s2) [EvPrint "Running analysis"]) = (Raise e, s4) ->
  exists w' tr_stop,
    main env fuel config_file fc_dir run_info_yaml s =
    (Raise e, after s4 w' (EvPrint "Cleaning up cluster workers" :: tr_stop)) /\
    stop_calls jobids tr_stop /\
    Forall (fun j => exists r, In (EvStop j r) tr_stop) jobids.
Proof.
  intros Hload Hnc Hcp Hglob Hstart Hrun.
  destruct (main_after_start env config config_file fc_dir name run_info_yaml
              (Backend c) s Hload Hnc Hcp Hglob fuel jobids s2 (Raise e) s4
              Hstart Hrun ltac:(discriminate)) as (w' & tr_s & Hmain & Hcalls).
  exists w', tr_s. split; [done|]. split; [done|]. by apply stop_calls_attempted.
Qed.

Lemma cleanup_errors_do_not_mask_driver_error_witness :
  (main (Sim.sample_env (Sim.sample_config (VStr "messaging") 2)) 10
     "post_process.yaml" "/store/110106_FC70BUKAAXX" None
     (Sim.start (Sim.fresh 10 7 (Some 2) [0]))).1
  = Raise (External "SubmissionError") /\
  List.skipn 11
    (trace (main (Sim.sample_env (Sim.sample_config (VStr "messaging") 2)) 10
              "post_process.yaml" "/store/110106_FC70BUKAAXX" None
              (Sim.start (Sim.fresh 10 7 (Some 2) [0]))).2)
  = [EvStop (VInt 0) (inl (External "CancellationError")); EvStop (VInt 1) (inr tt)].
Proof.
  pose (cfg := Sim.sample_config (VStr "messaging") 2).
  pose (s0 := Sim.start (Sim.fresh 10 7 (Some 2) [0])).
  pose (s2 := (start_workers (Sim.sample_env cfg) 10 (Backend Sim.lsf) cfg
                 "post_process.yaml"
                 (after s0 (world s0) [EvPrint "Starting cluster workers"])).2).
  pose (s4 := (run_analysis (Sim.sample_env cfg) 10 "post_process.yaml"
                 "/store/110106_FC70BUKAAXX" None (Backend Sim.lsf) cfg
                 (after s2 (world s2) [EvPrint "Running analysis"])).2).
  destruct (cleanup_errors_do_not_mask_driver_error
              (Sim.sample_env cfg) Sim.lsf 10
              "post_process.yaml" "/store/110106_FC70BUKAAXX" None s0 cfg "lsf"
              [VInt 0; VInt 1] s2 (External "SubmissionError") s4
              eq_refl eq_refl eq_refl eq_refl
              ltac:(vm_compute; reflexivity) ltac:(vm_compute; reflexivity))
    as (w' & tr_s & Hmain & _ & _).
  split; [|vm_compute; reflexivity].
  fold cfg s0. rewrite Hmain. reflexivity.
Defined.

(** C6.  Cleanup may be repeated.  [stop_workers] run twice in a row on the
    same handles comes to a normal end both times, for any backend and any
    answers of [stop_job], failures included; with a scheduler backend each
    pass calls [stop_job] once per handle, in order. *)
Theorem stop_workers_twice {W : Type} (cluster : @pyobj W) (jobids : list value)
    (s : @state W) :
  (stop_workers cluster jobids s).1 = Return tt /\
  (stop_workers cluster jobids (stop_workers cluster jobids s).2).1 = Return tt /\
  (forall c, cluster = Backend c ->
     exists tr1 tr2,
       trace (stop_workers cluster jobids (stop_workers cluster jobids s).2).2
       = trace s ++ tr1 ++ tr2 /\
       stop_calls jobids tr1 /\ stop_calls jobids tr2).
Proof.
  pose (env := {| load_config := fun _ _ => inl TypeError;
                  globals_ := fun _ => @None (@pyobj W);
                  time_sleep := fun _ w => (inr tt, w) |}).
  split; [exact (stop_workers_returns env cluster jobids s)|].
  split; [exact (stop_workers_returns env cluster jobids (stop_workers cluster jobids s).2)|].
  intros c ->.
  destruct (stop_workers_run env c jobids s) as (w1 & tr1 & Hrun1 & Hcalls1 & _).
  rewrite Hrun1. cbn [snd].
  destruct (stop_workers_run env c jobids (after s w1 tr1))
    as (w2 & tr2 & Hrun2 & Hcalls2 & _).
  rewrite Hrun2. exists tr1, tr2. cbn [snd after trace].
  by rewrite <- app_assoc.
Qed.

(** On the simulated scheduler the second pass finds every job already
    stopped: each request fails and the pass still ends normally. *)
Example second_cleanup_pass_sim :
  let s1 := (start_workers (Sim.sample_env (Sim.sample_config (VStr "messaging") 2)) 10
               (Backend Sim.lsf) (Sim.sample_config (VStr "messaging") 2)
               "post_process.yaml" (Sim.start (Sim.fresh 0 7 None []))).2 in
  let r1 := stop_workers (Backend Sim.lsf) [VInt 0; VInt 1] s1 in
  let r2 := stop_workers (Backend Sim.lsf) [VInt 0; VInt 1] r1.2 in
  r1.1 = Return tt /\ r2.1 = Return tt /\
  List.skipn 3 (trace r2.2) =
    [EvStop (VInt 0) (inr tt); EvStop (VInt 1) (inr tt);
     EvStop (VInt 0) (inl (External "CancellationError"));
     EvStop (VInt 1) (inl (External "CancellationError"))].
Proof. vm_compute. auto. Qed.

(** C9.  With a configuration whose [algorithm.num_cores] is anything but
    the string ["messaging"], [main] fails its assertion at once: nothing is
    looked up, submitted, polled or printed, and the state is as before. *)
Theorem main_requires_messaging {W : Type} (env : @Env W) (fuel : nat)
    (config_file fc_dir : string) (run_info_yaml : option string) (s : @state W)
    (config : Config) (num_cores : value) :
  load_config env config_file (world s) = inr config ->
  getitem2 config "algorithm" "num_cores" = inr num_cores ->
  num_cores <> VStr "messaging" ->
  main env fuel config_file fc_dir run_info_yaml s =
  (Raise (AssertionError "Designed for use with messaging parallelization"), s).
Proof.
  intros Hload Hnc Hne. unfold main. rewrite bind_run. cbv beta. rewrite Hload.
  cbn [lift ret]. unfold config_item. rewrite bind_lift, Hnc, bind_run.
  assert (eq_str num_cores "messaging" = false) as ->; [|reflexivity].
  destruct num_cores as [| | |x]; try reflexivity.
  apply String.eqb_neq. congruence.
Qed.

Lemma main_requires_messaging_witness :
  main (Sim.sample_env (Sim.sample_config (VInt 8) 2)) 10
    "post_process.yaml" "/store/110106_FC70BUKAAXX" None
    (Sim.start (Sim.fresh 10 7 None []))
  = (Raise (AssertionError "Designed for use with messaging parallelization"),
     Sim.start (Sim.fresh 10 7 None [])).
Proof.
  apply (main_requires_messaging
           (Sim.sample_env (Sim.sample_config (VInt 8) 2)) 10
           "post_process.yaml" "/store/110106_FC70BUKAAXX" None
           (Sim.start (Sim.fresh 10 7 None []))
           (Sim.sample_config (VInt 8) 2) (VInt 8) eq_refl eq_refl);
    discriminate.
Defined.

(** C2, as the specification has it, fails: with two workers configured and
    the second submission refused, [main] ends with the scheduler's error
    and exit status 1, but no cancellation at all has been issued; the first
    worker keeps running. *)
Lemma failed_pool_start_leaks_worker :
  let run := main (Sim.sample_env (Sim.sample_config (VStr "messaging") 2)) 10
               "post_process.yaml" "/store/110106_FC70BUKAAXX" None
               (Sim.start (Sim.fresh 10 7 (Some 1) [])) in
  submissions (trace run.2) =
    [EvSubmit ["-q"; "normal"] [VStr "worker.py"; VStr "post_process.yaml"]
       (inr (VInt 0));
     EvSubmit ["-q"; "normal"] [VStr "worker.py"; VStr "post_process.yaml"]
       (inl (External "SubmissionError"))] /\
  exit_status run.1 = Some 1 /\
  stops (trace run.2) = [] /\
  ~ (length (stops (trace run.2)) = 1%nat).
Proof. vm_compute. repeat split; discriminate. Qed.

(** C2, amended.  When a submission of the pool start raises [e] after the
    submissions [done] succeeded, [main] raises [e] (exit status 1) straight
    after that call: no job is polled, the driver is not submitted and
    [stop_job] is not called. *)
Theorem failed_pool_start_propagates {W : Type} (env : @Env W) (c : @Cluster W)
    (fuel : nat) (config_file fc_dir : string) (run_info_yaml : option string)
    (s : @state W) (config : Config) (name pa : string) (wp : value) (N : Z)
    (done : list value) (e : exn) (w' : W) :
  load_config env config_file (world s) = inr config ->
  getitem2 config "algorithm" "num_cores" = inr (VStr "messaging") ->
  getitem2 config "distributed" "cluster_platform" = inr (VStr name) ->
  globals_ env name = Some (Backend c) ->
  getitem2 config "distributed" "platform_args" = inr (VStr pa) ->
  getitem2 config "analysis" "worker_program" = inr wp ->
  getitem2 config "distributed" "num_workers" = inr (VInt N) ->
  (length done < Z.to_nat N)%nat ->
  replay env c (submits (split_from "" pa) [wp; VStr config_file] done ++
                [EvSubmit (split_from "" pa) [wp; VStr config_file] (inl e)])
         (world s) = Some w' ->
  main env fuel config_file fc_dir run_info_yaml s =
  (Raise e,
   after s w' ([EvPrint "Starting cluster workers"] ++
               submits (split_from "" pa) [wp; VStr config_file] done ++
               [EvSubmit (split_from "" pa) [wp; VStr config_file] (inl e)])) /\
  exit_status (main env fuel config_file fc_dir run_info_yaml s).1 = Some 1 /\
  stops ([EvPrint "Starting cluster workers"] ++
         submits (split_from "" pa) [wp; VStr config_file] done ++
         [EvSubmit (split_from "" pa) [wp; VStr config_file] (inl e)]) = [] /\
  submitted ([EvPrint "Starting cluster workers"] ++
             submits (split_from "" pa) [wp; VStr config_file] done ++
             [EvSubmit (split_from "" pa) [wp; VStr config_file] (inl e)]) = done.
Proof.
  intros Hload Hnc Hcp Hglob Hpa Hwp Hnw Hlen Hre.
  assert (main env fuel config_file fc_dir run_info_yaml s =
          (Raise e,
           after s w' ([EvPrint "Starting cluster workers"] ++
                       submits (split_from "" pa) [wp; VStr config_file] done ++
                       [EvSubmit (split_from "" pa) [wp; VStr config_file] (inl e)])))
    as Hmain.
  { rewrite (main_unfold env config config_file fc_dir name run_info_yaml (Backend c) s
               Hload Hnc Hcp Hglob).
    rewrite bind_run.
    rewrite (start_workers_unfold env fuel (Backend c) config config_file pa wp
               (VInt N) (Z.to_nat N) _ Hpa Hwp Hnw eq_refl).
    rewrite bind_run.
    rewrite (submit_all_fails env c _ _ done e (Z.to_nat N)
               (after s (world s) [EvPrint "Starting cluster workers"]) w' Hlen Hre).
    by rewrite after_after. }
  split; [exact Hmain|]. rewrite Hmain. split; [reflexivity|].
  rewrite !stops_app, !submitted_app, stops_submits, submitted_submits.
  simpl. by rewrite app_nil_r.
Qed.

Lemma failed_pool_start_propagates_witness :
  exists s',
    main (Sim.sample_env (Sim.sample_config (VStr "messaging") 2)) 10
      "post_process.yaml" "/store/110106_FC70BUKAAXX" None
      (Sim.start (Sim.fresh 10 7 (Some 1) []))
    = (Raise (External "SubmissionError"), s') /\
    stops (trace s') = [].
Proof.
  eexists. split.
  - apply (failed_pool_start_propagates
             (Sim.sample_env (Sim.sample_config (VStr "messaging") 2)) Sim.lsf 10
             "post_process.yaml" "/store/110106_FC70BUKAAXX" None
             (Sim.start (Sim.fresh 10 7 (Some 1) []))
             (Sim.sample_config (VStr "messaging") 2) "lsf" "-q  normal"
             (VStr "worker.py") 2 [VInt 0] (External "SubmissionError"));
      [reflexivity .. | simpl; lia | vm_compute; reflexivity].
  - vm_compute. reflexivity.
Defined.

(** * Further properties of the distributed script *)

Section PollLoopExhaust.

Context {W : Type} (env : @Env W) (c : @Cluster W).

Variable cond : M (@state W) bool.
Variable jobids : list value.
Variable b : bool.

Hypothesis cond_run : forall s,
  cond s =
  (match (are_running c jobids (world s)).1 with
   | inl e => Raise e
   | inr r => Return (Bool.eqb r b)
   end,
   after s (are_running c jobids (world s)).2
         [EvPoll jobids (are_running c jobids (world s)).1]).

(** A scheduler that answers [b] once more than the fuel allows sleeps
    leaves the loop polling. *)
Lemma poll_loop_exhaust fuel : forall (s : @state W) w',
  replay env c (rounds jobids b fuel ++ [EvPoll jobids (inr b)]) (world s) = Some w' ->
  while_ fuel cond (sleep env 5) s =
  (OutOfFuel, after s w' (rounds jobids b fuel ++ [EvPoll jobids (inr b)])).
Proof.
  induction fuel as [|fuel IH]; intros s w' H.
  - simpl in H. destruct (are_running c jobids (world s)) as [r w1] eqn:E.
    case_decide; [subst r | discriminate]. injection H as <-.
    rewrite while_run, cond_run, E. cbn [fst snd]. by rewrite Bool.eqb_reflx.
  - rewrite rounds_S in H. simpl in H.
    destruct (are_running c jobids (world s)) as [r w1] eqn:E.
    case_decide; [subst r | discriminate].
    destruct (time_sleep env 5 w1) as [r2 w2] eqn:E2.
    case_decide; [subst r2 | discriminate].
    rewrite while_run, cond_run, E. cbn [fst snd]. rewrite Bool.eqb_reflx.
    rewrite sleep_run. cbn [after world]. rewrite E2. cbn [fst snd].
    fold (after s w1 [EvPoll jobids (inr b)]).
    rewrite (IH (after (after s w1 [EvPoll jobids (inr b)]) w2 [EvSleep 5 (inr tt)]) w')
      by done.
    rewrite !after_after. reflexivity.
Qed.

(** The events of a poll loop, whatever it comes to: when it returns,
    polls answering [b], each followed by a sleep, then the poll answering
    the opposite; otherwise polls that did not give the awaited answer, and
    sleeps. *)
Lemma poll_loop_cases fuel : forall (s : @state W) r s',
  while_ fuel cond (sleep env 5) s = (r, s') ->
  exists tr,
    trace s' = trace s ++ tr /\
    match r with
    | Return _ => exists k, tr = rounds jobids b k ++ [EvPoll jobids (inr (negb b))]
    | _ => Forall (fun ev => (exists a, ev = EvPoll jobids a /\ a <> inr (negb b)) \/
                             (exists a, ev = EvSleep 5 a)) tr
    end.
Proof.
  assert (forall a : bool, Bool.eqb a b = true -> @inr exn bool a <> inr (negb b)) as Hne.
  { intros a Ha [= ->]. by destruct b. }
  induction fuel as [|fuel IH]; intros s r s' H;
    rewrite while_run, cond_run in H;
    destruct (are_running c jobids (world s)) as [[e|a] w1] eqn:E;
    cbn [fst snd] in H.
  - injection H as <- <-. eexists. split; [reflexivity|].
    apply Forall_singleton. left. eexists. split; [reflexivity | discriminate].
  - destruct (Bool.eqb a b) eqn:Eab; injection H as <- <-;
      (eexists; split; [reflexivity|]).
    + apply Forall_singleton. left. eexists. split; [reflexivity | by apply Hne].
    + exists 0%nat. apply eqb_false_negb in Eab. by subst a.
  - injection H as <- <-. eexists. split; [reflexivity|].
    apply Forall_singleton. left. eexists. split; [reflexivity | discriminate].
  - destruct (Bool.eqb a b) eqn:Eab.
    2:{ injection H as <- <-. eexists. split; [reflexivity|].
        exists 0%nat. apply eqb_false_negb in Eab. by subst a. }
    rewrite sleep_run in H. cbn [after world] in H.
    destruct (time_sleep env 5 w1) as [[e|[]] w2] eqn:E2; cbn [fst snd] in H.
    { injection H as <- <-. exists [EvPoll jobids (inr a); EvSleep 5 (inl e)].
      split; [cbn [after trace]; by rewrite <- app_assoc|].
      apply Forall_cons. split; [left; eexists; split; [reflexivity | by apply Hne]|].
      apply Forall_singleton. right. by eexists. }
    apply IH in H as (tr & Htr & Hshape).
    exists ([EvPoll jobids (inr a); EvSleep 5 (inr tt)] ++ tr).
    split; [rewrite Htr; cbn [after trace]; by rewrite <- !app_assoc|].
    destruct r as [[]|e|].
    + destruct Hshape as [k ->]. exists (S k). apply Bool.eqb_prop in Eab. by subst a.
    + apply Forall_cons. split; [left; eexists; split; [reflexivity | by apply Hne]|].
      apply Forall_cons. split; [right; by eexists | exact Hshape].
    + apply Forall_cons. split; [left; eexists; split; [reflexivity | by apply Hne]|].
      apply Forall_cons. split; [right; by eexists | exact Hshape].
Qed.

End PollLoopExhaust.

Section MoreStartWorkers.

Context {W : Type} (env : @Env W).

Implicit Types (s : @state W) (tr : list event) (c : @Cluster W) (cluster : @pyobj W).

Lemma start_workers_no_stop fuel cluster (config : Config) cf :
  emits_only not_stop (start_workers env fuel cluster config cf).
Proof.
  unfold start_workers, config_item.
  repeat (apply only_bind; [try apply only_lift | intros ?]).
  - apply only_list_comp. by apply only_submit.
  - apply only_while; [|by apply only_sleep].
    apply only_bind; [by apply only_poll | intros; apply only_ret].
  - apply only_ret.
Qed.

Lemma wait_loop_waits fuel cluster (jobids : list value) :
  emits_only (waits_on jobids)
    (while_ fuel (let* r := call_are_running cluster jobids in ret (negb r))
            (sleep env 5) ;;
     ret jobids).
Proof.
  apply only_bind; [|intros; apply only_ret].
  apply only_while.
  - apply only_bind; [|intros; apply only_ret].
    apply only_poll. intros r. left. by exists r.
  - apply only_sleep. intros r. right. by exists r.
Qed.

(** What [start_workers] adds to the trace, whatever it comes to and
    whatever [cluster] is. *)
Lemma start_workers_cases fuel cluster (config : Config) cf s r s' :
  start_workers env fuel cluster config cf s = (r, s') ->
  exists tr,
    trace s' = trace s ++ tr /\
    match r with
    | Return jobids =>
        exists args cl, worker_call config cf args cl /\ pool_started args cl jobids tr
    | _ =>
        tr = [] \/
        exists args cl, worker_call config cf args cl /\ pool_not_started args cl tr
    end.
Proof.
  assert (forall e, (Raise e, s) = (r, s') ->
            exists tr,
              trace s' = trace s ++ tr /\
              match r with
              | Return jobids =>
                  exists args cl,
                    worker_call config cf args cl /\ pool_started args cl jobids tr
              | _ =>
                  tr = [] \/
                  exists args cl,
                    worker_call config cf args cl /\ pool_not_started args cl tr
              end) as Hearly.
  { intros e [= <- <-]. exists []. rewrite app_nil_r. split; [done|]. by left. }
  unfold start_workers, config_item. rewrite bind_lift.
  destruct (getitem2 config "distributed" "platform_args") as [e|pa] eqn:Hpa;
    [apply Hearly|].
  rewrite bind_lift. destruct pa as [| | |pa]; cbn [py_split]; try apply Hearly.
  rewrite bind_lift.
  destruct (getitem2 config "analysis" "worker_program") as [e|wp] eqn:Hwp;
    [apply Hearly|].
  rewrite bind_lift.
  destruct (getitem2 config "distributed" "num_workers") as [e|nw]; [apply Hearly|].
  rewrite bind_lift. destruct (range_len nw) as [e|n]; [apply Hearly|].
  assert (worker_call config cf (split_from "" pa) [wp; VStr cf]) as Hcall
    by (by exists pa, wp).
  rewrite bind_run. destruct cluster as [c|].
  2:{ destruct n as [|n]; [|apply Hearly].
      cbn [list_comp ret]. rewrite bind_run, while_run. apply Hearly. }
  destruct (list_comp n _ s) as [r1 s1] eqn:E1.
  apply (submit_all_shape env) in E1. destruct r1 as [ids|e|]; [| |done].
  - destruct E1 as (Hlen & Htr1 & _). rewrite bind_run.
    destruct (while_ fuel _ _ s1) as [rw sw] eqn:Ew.
    apply (poll_loop_cases env c _ ids false (wait_cond_run c ids)) in Ew
      as (tr_p & Htr_p & Hshape).
    assert (trace sw = trace s ++ submits (split_from "" pa) [wp; VStr cf] ids ++ tr_p)
      as Htr by (by rewrite Htr_p, Htr1, <- app_assoc).
    assert (rw <> Return tt ->
            Forall (fun ev => (exists a, ev = EvPoll ids a /\ a <> inr (negb false)) \/
                              (exists a, ev = EvSleep 5 a)) tr_p ->
            exists args cl,
              worker_call config cf args cl /\
              pool_not_started args cl
                (submits (split_from "" pa) [wp; VStr cf] ids ++ tr_p)) as Hwait.
    { intros _ HF. eexists _, _. split; [exact Hcall|]. right. exists ids, tr_p.
      split; [done|]. eapply Forall_impl; [exact HF|].
      intros ev [(a & -> & Ha)|(a & ->)]; [left | right]; eauto. }
    destruct rw as [[]|e|]; intros [= <- <-]; (eexists; split; [exact Htr|]).
    + destruct Hshape as [k ->]. eexists _, _. split; [exact Hcall|]. by exists k.
    + right. by apply Hwait.
    + right. by apply Hwait.
  - destruct E1 as (done_ & Hlen & Htr1 & _). intros [= <- <-].
    eexists. split; [exact Htr1|]. right. eexists _, _. split; [exact Hcall|].
    left. by exists done_, e.
Qed.

Lemma driver_loops_wait fuel cluster (jobid : value) :
  emits_only (waits_on [jobid])
    (while_ fuel (let* r := call_are_running cluster [jobid] in ret (negb r)) (sleep env 5) ;;
     while_ fuel (call_are_running cluster [jobid]) (sleep env 5)).
Proof.
  assert (forall r, waits_on [jobid] (EvPoll [jobid] r)) as Hpoll
    by (intros r; left; by exists r).
  assert (forall r, waits_on [jobid] (EvSleep 5 r)) as Hsleep
    by (intros r; right; by exists r).
  apply only_bind; [|intros _].
  - apply only_while; [|by apply only_sleep].
    apply only_bind; [by apply only_poll | intros; apply only_ret].
  - apply only_while; [by apply only_poll | by apply only_sleep].
Qed.

(** What [run_analysis] adds to the trace, whatever it comes to. *)
Lemma run_analysis_phase fuel cf fc ry cluster (config : Config) s :
  exists tr,
    trace (run_analysis env fuel cf fc ry cluster config s).2 = trace s ++ tr /\
    (tr = [] \/
     exists args cl, driver_call config cf fc ry args cl /\ driver_phase args cl tr).
Proof.
  assert (exists tr,
             trace s = trace s ++ tr /\
             (tr = [] \/
              exists args cl,
                driver_call config cf fc ry args cl /\ driver_phase args cl tr)) as Hnil.
  { exists []. rewrite app_nil_r. split; [done|]. by left. }
  unfold run_analysis, config_item. rewrite bind_lift.
  destruct (getitem2 config "distributed" "platform_args") as [e|pa] eqn:Hpa;
    [exact Hnil|].
  rewrite bind_lift. destruct pa as [| | |pa]; cbn [py_split]; try exact Hnil.
  rewrite bind_lift.
  destruct (getitem2 config "analysis" "process_program") as [e|pp] eqn:Hpp;
    [exact Hnil|].
  destruct cluster as [c|]; [|exact Hnil].
  assert (driver_call config cf fc ry (split_from "" pa) (driver_program_cl pp cf fc ry))
    as Hcall by (by exists pa, pp).
  rewrite bind_run, submit_run.
  destruct (submit_job c (split_from "" pa) _ (world s)) as [[e|j] w1]; cbn [fst snd].
  - eexists. split; [reflexivity|]. right. eexists _, _. split; [exact Hcall|].
    by exists (inl e), [].
  - destruct (driver_loops_wait fuel (Backend c) j (after s w1 [EvSubmit (split_from "" pa)
                (driver_program_cl pp cf fc ry) (inr j)])) as (tr & Htr & HQ).
    eexists. split; [rewrite Htr; simpl; rewrite <- app_assoc; reflexivity|].
    right. eexists _, _. split; [exact Hcall|]. by exists (inr j), tr.
Qed.

End MoreStartWorkers.

(** X1.  The phases of a run.  Whatever a run of [main] comes to, its
    events are in one of four shapes.  (1) Nothing at all: it failed before
    its first message.  (2) The first message and a pool start that did not
    succeed: no scheduler call; or submissions of the worker command line,
    the last of which failed; or such submissions followed only by polls of
    the whole pool, none answering "yes", and sleeps.  No driver is
    submitted and nothing is stopped.  (3) A pool start that succeeded
    (submissions of the worker command line, polls of the whole pool
    answering "no", each followed by a sleep, the poll answering "yes"), the
    second message, and a driver phase that has not ended: no scheduler
    call, or the submission of the driver command line and then, if it
    succeeded, polls of that job alone and sleeps; nothing is stopped.
    (4) The same with a driver phase that ended, then the third message and
    one call of [stop_job] per handle of the pool, in order.  So the driver
    is submitted only after [are_running] answered "yes" for the whole pool,
    and [stop_job] is called only on handles of the pool, after the driver
    phase. *)
Theorem main_phases {W : Type} (env : @Env W) (fuel : nat)
    (config_file fc_dir : string) (run_info_yaml : option string) (s : @state W) :
  exists tr,
    trace (main env fuel config_file fc_dir run_info_yaml s).2 = trace s ++ tr /\
    ((tr = [] /\
      exists e, (main env fuel config_file fc_dir run_info_yaml s).1 = Raise e) \/
     (exists tr_w,
        tr = EvPrint "Starting cluster workers" :: tr_w /\
        (tr_w = [] \/
         exists config args program_cl,
           load_config env config_file (world s) = inr config /\
           worker_call config config_file args program_cl /\
           pool_not_started args program_cl tr_w) /\
        stops tr_w = [] /\
        (main env fuel config_file fc_dir run_info_yaml s).1 <> Return tt) \/
     (exists config args program_cl jobids tr_w tr_d,
        tr = EvPrint "Starting cluster workers" :: tr_w ++
             EvPrint "Running analysis" :: tr_d /\
        load_config env config_file (world s) = inr config /\
        worker_call config config_file args program_cl /\
        pool_started args program_cl jobids tr_w /\
        (tr_d = [] \/
         exists args_d program_cl_d,
           driver_call config config_file fc_dir run_info_yaml args_d program_cl_d /\
           driver_phase args_d program_cl_d tr_d) /\
        stops tr_d = [] /\
        (main env fuel config_file fc_dir run_info_yaml s).1 = OutOfFuel) \/
     (exists config args program_cl jobids tr_w tr_d tr_s,
        tr = EvPrint "Starting cluster workers" :: tr_w ++
             EvPrint "Running analysis" :: tr_d ++
             EvPrint "Cleaning up cluster workers" :: tr_s /\
        load_config env config_file (world s) = inr config /\
        worker_call config config_file args program_cl /\
        pool_started args program_cl jobids tr_w /\
        (tr_d = [] \/
         exists args_d program_cl_d,
           driver_call config config_file fc_dir run_info_yaml args_d program_cl_d /\
           driver_phase args_d program_cl_d tr_d) /\
        stops tr_d = [] /\
        stop_calls jobids tr_s /\
        (main env fuel config_file fc_dir run_info_yaml s).1 <> OutOfFuel)).
Proof.
  set (res := main env fuel config_file fc_dir run_info_yaml s).
  pattern res. match goal with |- ?P res => set (Q := P) end.
  assert (forall e, Q (Raise e, s)) as Hearly.
  { intros e. exists []. rewrite app_nil_r. split; [done|]. left. split; [done|].
    by exists e. }
  subst res.
  unfold main. rewrite bind_run. cbv beta.
  destruct (load_config env config_file (world s)) as [e|config] eqn:Hload;
    [apply Hearly|].
  cbn [lift ret]. unfold config_item at 1. rewrite bind_lift.
  destruct (getitem2 config "algorithm" "num_cores") as [e|nc]; [apply Hearly|].
  rewrite bind_run. destruct (eq_str nc "messaging"); [|apply Hearly].
  cbn [assert_ ret]. unfold config_item at 1. rewrite bind_lift.
  destruct (getitem2 config "distributed" "cluster_platform") as [e|cp];
    [apply Hearly|].
  rewrite bind_run.
  assert (exists o : exn + pyobj,
             match cp with
             | VStr name =>
                 match globals_ env name with
                 | Some o => ret o
                 | None => raise (KeyError cp)
                 end
             | _ => raise (KeyError cp)
             end s = lift o s) as [o ->].
  { destruct cp as [| | |name]; try (by eexists (inl _)).
    destruct (globals_ env name) as [o|]; [by exists (inr o) | by eexists (inl _)]. }
  destruct o as [e|cluster]; [apply Hearly|]. cbn [lift ret].
  rewrite bind_run.
  change (print "Starting cluster workers" s)
    with (Return tt, after s (world s) [EvPrint "Starting cluster workers"]).
  cbv beta iota. rewrite bind_run.
  set (s1 := after s (world s) [EvPrint "Starting cluster workers"]).
  destruct (start_workers env fuel cluster config config_file s1) as [r1 s2] eqn:Hstart.
  destruct (start_workers_cases env _ _ _ _ _ _ _ Hstart) as (tr_w & Htr_w & Hshape).
  destruct (start_workers_no_stop env fuel cluster config config_file s1)
    as (tr_w' & Htr_w' & Hns_w).
  rewrite Hstart in Htr_w'. cbn [snd] in Htr_w'.
  assert (tr_w' = tr_w) as -> by (rewrite Htr_w in Htr_w'; by apply app_inv_head in Htr_w').
  apply Forall_not_stop in Hns_w.
  assert (trace s2 = trace s ++ EvPrint "Starting cluster workers" :: tr_w) as Htr2.
  { rewrite Htr_w. unfold s1. cbn [after trace]. by rewrite <- app_assoc. }
  destruct r1 as [jobids|e|]; cycle 1.
  { exists (EvPrint "Starting cluster workers" :: tr_w). split; [exact Htr2|].
    right. left. exists tr_w. split; [done|]. split; [|by split].
    destruct Hshape as [->|(args & cl & Hcall & Hnot)]; [by left|].
    right. by exists config, args, cl. }
  { exists (EvPrint "Starting cluster workers" :: tr_w). split; [exact Htr2|].
    right. left. exists tr_w. split; [done|]. split; [|by split].
    destruct Hshape as [->|(args & cl & Hcall & Hnot)]; [by left|].
    right. by exists config, args, cl. }
  destruct Hshape as (args & cl & Hcall & Hpool).
  destruct (start_workers_returned env _ _ _ _ _ _ _ Hstart) as (c & _ & -> & _).
  rewrite try_finally_run, bind_run.
  change (print "Running analysis" s2)
    with (Return tt, after s2 (world s2) [EvPrint "Running analysis"]).
  cbv beta iota.
  set (s3 := after s2 (world s2) [EvPrint "Running analysis"]).
  destruct (run_analysis env fuel config_file fc_dir run_info_yaml (Backend c) config s3)
    as [r s4] eqn:Hrun.
  destruct (run_analysis_no_stop env fuel config_file fc_dir run_info_yaml (Backend c)
              config s3) as (tr_d & Htr_d & Hns_d).
  rewrite Hrun in Htr_d. cbn [snd] in Htr_d. apply Forall_not_stop in Hns_d.
  destruct (run_analysis_phase env fuel config_file fc_dir run_info_yaml (Backend c)
              config s3) as (tr_d' & Htr_d' & Hphase).
  rewrite Hrun in Htr_d'. cbn [snd] in Htr_d'.
  assert (tr_d' = tr_d) as -> by (rewrite Htr_d in Htr_d'; by apply app_inv_head in Htr_d').
  assert (trace s4 = trace s ++ EvPrint "Starting cluster workers" :: tr_w ++
                     EvPrint "Running analysis" :: tr_d) as Htr4.
  { rewrite Htr_d. unfold s3. cbn [after trace]. rewrite Htr2.
    rewrite <- !app_assoc. reflexivity. }
  assert ((print "Cleaning up cluster workers" ;; stop_workers (Backend c) jobids) s4
          = stop_workers (Backend c) jobids
              (after s4 (world s4) [EvPrint "Cleaning up cluster workers"])) as Hfin
    by reflexivity.
  destruct (stop_workers_run env c jobids
              (after s4 (world s4) [EvPrint "Cleaning up cluster workers"]))
    as (w' & tr_s & Hstop & Hcalls & _).
  rewrite Hstop, after_after in Hfin.
  assert (trace (after s4 w' ([EvPrint "Cleaning up cluster workers"] ++ tr_s)) =
          trace s ++ EvPrint "Starting cluster workers" :: tr_w ++
          EvPrint "Running analysis" :: tr_d ++
          EvPrint "Cleaning up cluster workers" :: tr_s) as Htr5.
  { cbn [after trace]. rewrite Htr4, <- app_assoc. f_equal. simpl. f_equal.
    by rewrite <- app_assoc. }
  destruct r as [[]|e|].
  - rewrite Hfin. eexists. split; [exact Htr5|]. do 3 right.
    exists config, args, cl, jobids, tr_w, tr_d, tr_s. by repeat split.
  - rewrite Hfin. eexists. split; [exact Htr5|]. do 3 right.
    exists config, args, cl, jobids, tr_w, tr_d, tr_s. by repeat split.
  - eexists. split; [exact Htr4|]. do 2 right. left.
    exists config, args, cl, jobids, tr_w, tr_d. by repeat split.
Qed.

(** X2.  What [start_workers] may do, whatever its outcome, with [N]
    workers configured: either a submission fails after fewer than [N] have
    succeeded, and that is the end of it (the exception is passed on, nothing
    is polled); or [N] submissions succeed and from then on it only polls
    [are_running] on the list of all [N] handles and sleeps five seconds.  It
    never polls a part of the pool and never submits after a poll. *)
Theorem start_workers_polls_full_set {W : Type} (env : @Env W) (c : @Cluster W)
    (config : Config) (config_file pa : string) (wp : value) (N : Z)
    (fuel : nat) (s : @state W) :
  getitem2 config "distributed" "platform_args" = inr (VStr pa) ->
  getitem2 config "analysis" "worker_program" = inr wp ->
  getitem2 config "distributed" "num_workers" = inr (VInt N) ->
  exists tr,
    trace (start_workers env fuel (Backend c) config config_file s).2 = trace s ++ tr /\
    ((exists done e,
         (length done < Z.to_nat N)%nat /\
         tr = submits (split_from "" pa) [wp; VStr config_file] done ++
              [EvSubmit (split_from "" pa) [wp; VStr config_file] (inl e)] /\
         (start_workers env fuel (Backend c) config config_file s).1 = Raise e) \/
     (exists jobids tr_p,
         length jobids = Z.to_nat N /\
         tr = submits (split_from "" pa) [wp; VStr config_file] jobids ++ tr_p /\
         Forall (waits_on jobids) tr_p)).
Proof.
  intros Hpa Hwp Hnw.
  rewrite (start_workers_unfold env fuel (Backend c) config config_file pa wp
             (VInt N) (Z.to_nat N) s Hpa Hwp Hnw eq_refl).
  rewrite bind_run.
  destruct (list_comp _ _ s) as [r1 s1] eqn:E1.
  apply (submit_all_shape env) in E1.
  destruct r1 as [ids|e|]; [| |done].
  - destruct E1 as (Hlen & Htr1 & _).
    destruct (wait_loop_waits env fuel (Backend c) ids s1) as (tr_p & Htr_p & Hw).
    exists (submits (split_from "" pa) [wp; VStr config_file] ids ++ tr_p). split.
    + etransitivity; [exact Htr_p|]. by rewrite Htr1, <- app_assoc.
    + right. by exists ids, tr_p.
  - destruct E1 as (done_ & Hlen & Htr1 & _).
    eexists. split; [exact Htr1|]. left. by exists done_, e.
Qed.

Lemma start_workers_polls_full_set_witness :
  exists tr,
    trace (start_workers (Sim.sample_env (Sim.sample_config (VStr "messaging") 3)) 10
             (Backend Sim.lsf) (Sim.sample_config (VStr "messaging") 3)
             "post_process.yaml" (Sim.start (Sim.fresh 10 7 (Some 2) []))).2
    = trace (Sim.start (Sim.fresh 10 7 (Some 2) [])) ++ tr /\
    ((exists done e,
         (length done < Z.to_nat 3)%nat /\
         tr = submits (split_from "" "-q  normal") [VStr "worker.py"; VStr "post_process.yaml"]
                done ++
              [EvSubmit (split_from "" "-q  normal")
                 [VStr "worker.py"; VStr "post_process.yaml"] (inl e)] /\
         (start_workers (Sim.sample_env (Sim.sample_config (VStr "messaging") 3)) 10
            (Backend Sim.lsf) (Sim.sample_config (VStr "messaging") 3)
            "post_process.yaml" (Sim.start (Sim.fresh 10 7 (Some 2) []))).1 = Raise e) \/
     (exists jobids tr_p,
         length jobids = Z.to_nat 3 /\
         tr = submits (split_from "" "-q  normal")
                [VStr "worker.py"; VStr "post_process.yaml"] jobids ++ tr_p /\
         Forall (waits_on jobids) tr_p)).
Proof.
  exact (start_workers_polls_full_set
           (Sim.sample_env (Sim.sample_config (VStr "messaging") 3)) Sim.lsf
           (Sim.sample_config (VStr "messaging") 3) "post_process.yaml"
           "-q  normal" (VStr "worker.py") 3 10
           (Sim.start (Sim.fresh 10 7 (Some 2) []))
           eq_refl eq_refl eq_refl).
Defined.

(** X3.  A driver job that is never seen running keeps [main] waiting and the
    workers alive.  After the pool has started and the driver is submitted,
    if [are_running] on the driver's handle answers "no" [fuel + 1] times,
    [main] is out of fuel in the first loop of [run_analysis], having slept
    [fuel] times, and has not called [stop_job].  This holds for every
    amount of fuel: there is no bound on the wait. *)
Theorem driver_never_seen_running {W : Type} (env : @Env W) (c : @Cluster W)
    (fuel : nat) (config_file fc_dir : string) (run_info_yaml : option string)
    (s : @state W) (config : Config) (name pa : string) (pp : value)
    (jobids : list value) (s2 : @state W) (j : value) (w' : W) :
  load_config env config_file (world s) = inr config ->
  getitem2 config "algorithm" "num_cores" = inr (VStr "messaging") ->
  getitem2 config "distributed" "cluster_platform" = inr (VStr name) ->
  globals_ env name = Some (Backend c) ->
  getitem2 config "distributed" "platform_args" = inr (VStr pa) ->
  getitem2 config "analysis" "process_program" = inr pp ->
  start_workers env fuel (Backend c) config config_file
    (after s (world s) [EvPrint "Starting cluster workers"]) = (Return jobids, s2) ->
  replay env c
    ([EvSubmit (split_from "" pa)
        (driver_program_cl pp config_file fc_dir run_info_yaml) (inr j)] ++
     rounds [j] false fuel ++ [EvPoll [j] (inr false)]) (world s2) = Some w' ->
  main env fuel config_file fc_dir run_info_yaml s =
  (OutOfFuel,
   after s2 w'
     ([EvPrint "Running analysis";
       EvSubmit (split_from "" pa)
         (driver_program_cl pp config_file fc_dir run_info_yaml) (inr j)] ++
      rounds [j] false fuel ++ [EvPoll [j] (inr false)])) /\
  stops (trace (main env fuel config_file fc_dir run_info_yaml s).2) = stops (trace s) /\
  sleeps ([EvPrint "Running analysis";
           EvSubmit (split_from "" pa)
             (driver_program_cl pp config_file fc_dir run_info_yaml) (inr j)] ++
          rounds [j] false fuel ++ [EvPoll [j] (inr false)]) = replicate fuel 5.
Proof.
  intros Hload Hnc Hcp Hglob Hpa Hpp Hstart Hre.
  assert (main env fuel config_file fc_dir run_info_yaml s =
          (OutOfFuel,
           after s2 w'
             ([EvPrint "Running analysis";
               EvSubmit (split_from "" pa)
                 (driver_program_cl pp config_file fc_dir run_info_yaml) (inr j)] ++
              rounds [j] false fuel ++ [EvPoll [j] (inr false)]))) as Hmain.
  { rewrite (main_unfold env config config_file fc_dir name run_info_yaml (Backend c) s
               Hload Hnc Hcp Hglob).
    rewrite bind_run, Hstart, try_finally_run, bind_run.
    change (print "Running analysis" s2)
      with (Return tt, after s2 (world s2) [EvPrint "Running analysis"]).
    cbv beta iota.
    rewrite (run_analysis_unfold env fuel config_file fc_dir run_info_yaml (Backend c)
               config pa pp _ Hpa Hpp).
    rewrite replay_app in Hre. cbn [replay] in Hre.
    destruct (submit_job c _ _ (world s2)) as [r w1] eqn:E.
    case_decide; [subst r | discriminate].
    rewrite bind_run, submit_run. cbn [after world]. rewrite E. cbn [fst snd].
    rewrite bind_run.
    rewrite (poll_loop_exhaust env c _ [j] false (wait_cond_run c [j]) fuel
               (after (after s2 (world s2) [EvPrint "Running analysis"]) w1
                      [EvSubmit (split_from "" pa)
                         (driver_program_cl pp config_file fc_dir run_info_yaml)
                         (inr j)]) w' Hre).
    rewrite !after_after. reflexivity. }
  split; [exact Hmain|]. rewrite Hmain. cbn [snd after trace].
  destruct (start_workers_returned env _ _ _ _ _ _ _ Hstart)
    as (_ & tr_w & _ & Htr_w & _ & Hns).
  split.
  - rewrite Htr_w. cbn [after trace].
    rewrite !stops_app, Hns, stops_rounds. simpl. by rewrite !app_nil_r.
  - rewrite sleeps_app, sleeps_app, sleeps_rounds. simpl. by rewrite app_nil_r.
Qed.

Lemma driver_never_seen_running_witness :
  (main (Sim.sample_env (Sim.sample_config (VStr "messaging") 2)) 6
     "post_process.yaml" "/store/110106_FC70BUKAAXX" None
     (Sim.start (Sim.fresh 10 0 None []))).1 = OutOfFuel /\
  stops (trace (main (Sim.sample_env (Sim.sample_config (VStr "messaging") 2)) 6
                  "post_process.yaml" "/store/110106_FC70BUKAAXX" None
                  (Sim.start (Sim.fresh 10 0 None []))).2) = [].
Proof.
  pose (cfg := Sim.sample_config (VStr "messaging") 2).
  pose (s0 := Sim.start (Sim.fresh 10 0 None [])).
  pose (s2 := (start_workers (Sim.sample_env cfg) 6 (Backend Sim.lsf) cfg
                 "post_process.yaml"
                 (after s0 (world s0) [EvPrint "Starting cluster workers"])).2).
  pose (s4 := (main (Sim.sample_env cfg) 6 "post_process.yaml"
                 "/store/110106_FC70BUKAAXX" None s0).2).
  destruct (driver_never_seen_running (Sim.sample_env cfg) Sim.lsf 6
              "post_process.yaml" "/store/110106_FC70BUKAAXX" None s0 cfg "lsf"
              "-q  normal" (VStr "automated_initial_analysis.py")
              [VInt 0; VInt 1] s2 (VInt 2) (world s4)
              eq_refl eq_refl eq_refl eq_refl eq_refl eq_refl
              ltac:(vm_compute; reflexivity) ltac:(vm_compute; reflexivity))
    as (Hmain & Hstops & _).
  fold cfg s0. split; [by rewrite Hmain | exact Hstops].
Defined.

(** X4.  The backend is whatever object the configured name is bound to at
    module level.  When that object is not a scheduler backend ([time],
    [sys], ...), [main] fails on the first attribute it asks of it
    ([submit_job] when workers are configured, [are_running] when none
    are), after its first message and without any call to a scheduler. *)
Theorem main_rejects_non_backend {W : Type} (env : @Env W) (fuel : nat)
    (config_file fc_dir : string) (run_info_yaml : option string) (s : @state W)
    (config : Config) (name pa : string) (wp : value) (N : Z) :
  load_config env config_file (world s) = inr config ->
  getitem2 config "algorithm" "num_cores" = inr (VStr "messaging") ->
  getitem2 config "distributed" "cluster_platform" = inr (VStr name) ->
  globals_ env name = Some OtherObject ->
  getitem2 config "distributed" "platform_args" = inr (VStr pa) ->
  getitem2 config "analysis" "worker_program" = inr wp ->
  getitem2 config "distributed" "num_workers" = inr (VInt N) ->
  main env fuel config_file fc_dir run_info_yaml s =
  (Raise (AttributeError (if 0 <? N then "submit_job" else "are_running")),
   after s (world s) [EvPrint "Starting cluster workers"]).
Proof.
  intros Hload Hnc Hcp Hglob Hpa Hwp Hnw.
  rewrite (main_unfold env config config_file fc_dir name run_info_yaml OtherObject s
             Hload Hnc Hcp Hglob).
  rewrite bind_run.
  rewrite (start_workers_unfold env fuel OtherObject config config_file pa wp
             (VInt N) (Z.to_nat N) _ Hpa Hwp Hnw eq_refl).
  rewrite bind_run.
  destruct (0 <? N) eqn:HN.
  - apply Z.ltb_lt in HN. destruct (Z.to_nat N) as [|n] eqn:Hn; [lia|]. reflexivity.
  - apply Z.ltb_ge in HN. replace (Z.to_nat N) with 0%nat by lia.
    cbn [list_comp ret]. rewrite bind_run, while_run. reflexivity.
Qed.

Lemma main_rejects_non_backend_witness :
  main (Sim.sample_env Samples.misnamed_platform) 10
    "post_process.yaml" "/store/110106_FC70BUKAAXX" None
    (Sim.start (Sim.fresh 10 7 None []))
  = (Raise (AttributeError "submit_job"),
     after (Sim.start (Sim.fresh 10 7 None [])) (Sim.fresh 10 7 None [])
           [EvPrint "Starting cluster workers"]).
Proof.
  apply (main_rejects_non_backend
           (Sim.sample_env Samples.misnamed_platform) 10
           "post_process.yaml" "/store/110106_FC70BUKAAXX" None
           (Sim.start (Sim.fresh 10 7 None []))
           Samples.misnamed_platform
           "time" "-q normal" (VStr "worker.py") 2
           eq_refl eq_refl eq_refl eq_refl eq_refl eq_refl eq_refl).
Defined.

(** * Properties of the top-level launcher *)

Import Toplevel.

Lemma append_nonempty (a b : string) : b <> "" -> a +:+ b <> "".
Proof. destruct a; simpl; [done | discriminate]. Qed.

Lemma join_step_relative (path b : string) :
  b <> "" -> join_step path b <> "".
Proof.
  intros Hb. unfold join_step.
  destruct (startswith_slash b); [done|].
  destruct (_ || _); apply append_nonempty; [done|]. by apply append_nonempty.
Qed.

Section ToplevelFacts.

Context {W : Type} (env : @Env W).

Implicit Types (s : @state W) (tr : list event).

Lemma top_extern_run {A} (op : W -> (exn + A) * W) (log : exn + A -> event) s :
  extern op log s =
  (match (op (world s)).1 with inl e => Raise e | inr a => Return a end,
   {| world := (op (world s)).2; trace := trace s ++ [log (op (world s)).1] |}).
Proof. unfold extern. destruct (op (world s)) as [[e|a] w']; reflexivity. Qed.

Lemma check_calls_app tr1 tr2 :
  check_calls (tr1 ++ tr2) = check_calls tr1 ++ check_calls tr2.
Proof. apply flat_map_app. Qed.

(** [_get_run_yaml] reads the world and leaves it as it is.  What it
    returns is [None] or the name of a file found to exist; that name is not
    empty, so it counts as true in an [if]. *)
Lemma get_run_yaml_run (remote_info : Dict) fc_dir (config : Config) s :
  exists r,
    _get_run_yaml env remote_info fc_dir config s = (r, s) /\
    r <> OutOfFuel /\
    forall v, r = Return v ->
      v = VNone \/
      exists p, v = VStr p /\ truthy v = true /\ path_exists env p (world s) = true.
Proof.
  unfold _get_run_yaml.
  assert (forall p : string, p <> "" -> exists r,
             (let* found := os_path_exists env (VStr p) in
              ret (if negb found then VNone else VStr p)) s = (r, s) /\
             r <> OutOfFuel /\
             forall v, r = Return v ->
               v = VNone \/
               exists q, v = VStr q /\ truthy v = true /\
                         path_exists env q (world s) = true) as Hstr.
  { intros p Hp. unfold bind, os_path_exists, ret.
    destruct (path_exists env p (world s)) eqn:E; simpl; eexists;
      (split; [reflexivity|]); (split; [discriminate|]); intros v [= <-]; [|by left].
    right. exists p. split; [done|]. split; [|done].
    simpl. by apply negb_true_iff, String.eqb_neq. }
  assert (forall e : exn, exists r : outcome value,
             (Raise e, s) = (r, s) /\ r <> OutOfFuel /\
             forall v, r = Return v ->
               v = VNone \/
               exists q, v = VStr q /\ truthy v = true /\
                         path_exists env q (world s) = true) as Hraise.
  { intros e. eexists. split; [reflexivity|]. split; [discriminate|]. by intros v [=]. }
  rewrite bind_run.
  destruct (truthy (dict_get remote_info "run_yaml" VNone)) eqn:Htruthy.
  - unfold dict_get in Htruthy. unfold getitem.
    destruct (remote_info !! "run_yaml") as [v|] eqn:E; [|discriminate].
    cbn [lift ret].
    destruct v as [|b|n|p]; try discriminate; try apply Hraise.
    apply Hstr. simpl in Htruthy. apply negb_true_iff in Htruthy.
    by apply String.eqb_neq.
  - rewrite bind_lift.
    destruct (getitem2 config "analysis" "store_dir") as [e|store_dir]; [apply Hraise|].
    rewrite bind_lift.
    destruct (os_path_join store_dir (basename fc_dir) ["run_info.yaml"]) as [e|p] eqn:Hjoin;
      [apply Hraise|].
    cbn [ret]. apply Hstr.
    unfold os_path_join in Hjoin.
    destruct (if startswith_slash (basename fc_dir) then _ else _) as [e|first];
      [discriminate|].
    injection Hjoin as <-. simpl. by apply join_step_relative.
Qed.

End ToplevelFacts.

Lemma eq_str_true (x : value) (lit : string) : eq_str x lit = true <-> x = VStr lit.
Proof.
  destruct x as [| | |x]; simpl; try (split; [discriminate | congruence]).
  rewrite String.eqb_eq. split; congruence.
Qed.

Section Launch.

Context {W : Type} (env : @Env W).

Variables (config : Config) (config_file fc_dir : string).

Implicit Types (s : @state W) (tr : list event).

(** The command line the code builds inside [with utils.chdir(..)], as a
    pure computation. *)
Lemma command_line_matches_spec (run_yaml : value) (num_cores : value) :
  run_yaml = VNone \/ truthy run_yaml = true ->
  getitem2 config "algorithm" "num_cores" = inr num_cores ->
  forall prog,
    (if eq_str num_cores "messaging"
     then match getitem config "analysis" with
          | inl e => inl e
          | inr analysis =>
              inr (dict_get analysis "distributed_process_program"
                            (VStr "distributed_nextgen_pipeline.py"))
          end
     else getitem2 config "analysis" "process_program") = inr prog <->
    spec_command_line config config_file fc_dir run_yaml =
    Some (if truthy run_yaml
          then [prog; VStr config_file; VStr fc_dir] ++ [run_yaml]
          else [prog; VStr config_file; VStr fc_dir]).
Proof.
  intros Hry Hnc prog. unfold spec_command_line. rewrite Hnc.
  assert ((if truthy run_yaml
           then [prog; VStr config_file; VStr fc_dir] ++ [run_yaml]
           else [prog; VStr config_file; VStr fc_dir]) =
          [prog; VStr config_file; VStr fc_dir] ++
          match run_yaml with VNone => [] | y => [y] end) as ->.
  { destruct Hry as [-> | Hry]; [reflexivity|]. rewrite Hry.
    by destruct run_yaml. }
  unfold getitem2, getitem.
  destruct (config !! "analysis") as [analysis|]; [|by destruct (eq_str _ _)].
  destruct (eq_str num_cores "messaging") eqn:E.
  - apply eq_str_true in E. rewrite decide_True by done.
    split; intros [= ->]; reflexivity.
  - rewrite decide_False by (intros H; apply eq_str_true in H; congruence).
    destruct (analysis !! "process_program") as [p|];
      split; intros H; try discriminate; injection H as ->; reflexivity.
Qed.

Lemma launch_run (run_yaml : value) (analysis_dir : string) s :
  run_yaml = VNone \/ truthy run_yaml = true ->
  exists tr,
    trace ((with_chdir env analysis_dir
              (let* num_cores := lift (getitem2 config "algorithm" "num_cores") in
               let* prog :=
                 if eq_str num_cores "messaging"
                 then
                   let* analysis := lift (getitem config "analysis") in
                   ret (dict_get analysis "distributed_process_program"
                                 (VStr "distributed_nextgen_pipeline.py"))
                 else lift (getitem2 config "analysis" "process_program") in
               let cl := [prog; VStr config_file; VStr fc_dir] in
               let cl := if truthy run_yaml then cl ++ [run_yaml] else cl in
               extern (check_call env cl) (EvCheckCall cl)) ;;
            ret analysis_dir) s).2 = trace s ++ tr /\
    (check_calls tr = [] \/
     exists cl, check_calls tr = [cl] /\
                spec_command_line config config_file fc_dir run_yaml = Some cl) /\
    (forall cl w2,
        chdir_enter env analysis_dir (world s) = (inr tt, w2) ->
        spec_command_line config config_file fc_dir run_yaml = Some cl ->
        check_calls tr = [cl]).
Proof.
  intros Hry. rewrite bind_run. unfold with_chdir. rewrite bind_run, top_extern_run.
  destruct (chdir_enter env analysis_dir (world s)) as [[e|[]] w2] eqn:Henter;
    cbn [fst snd].
  { eexists. split; [reflexivity|]. split; [by left|]. intros cl w2' [=]. }
  rewrite try_finally_run, bind_lift.
  destruct (getitem2 config "algorithm" "num_cores") as [e|num_cores] eqn:Hnc.
  { rewrite top_extern_run. cbn [world trace].
    destruct (chdir_exit env w2) as [[e'|[]] w3]; cbn [fst snd];
      (eexists; split; [rewrite <- app_assoc; reflexivity|]);
      (split; [by left|]); intros cl w2' _ Hspec;
      unfold spec_command_line in Hspec; by rewrite Hnc in Hspec. }
  pose proof (command_line_matches_spec run_yaml num_cores Hry Hnc) as Hspec.
  rewrite bind_run.
  assert ((if eq_str num_cores "messaging"
           then
             let* analysis := lift (getitem config "analysis") in
             ret (dict_get analysis "distributed_process_program"
                           (VStr "distributed_nextgen_pipeline.py"))
           else lift (getitem2 config "analysis" "process_program"))
            {| world := w2; trace := trace s ++ [EvChdir analysis_dir (inr tt)] |}
          = lift (if eq_str num_cores "messaging"
                  then match getitem config "analysis" with
                       | inl e => inl e
                       | inr analysis =>
                           inr (dict_get analysis "distributed_process_program"
                                         (VStr "distributed_nextgen_pipeline.py"))
                       end
                  else getitem2 config "analysis" "process_program")
              {| world := w2; trace := trace s ++ [EvChdir analysis_dir (inr tt)] |})
    as ->.
  { destruct (eq_str num_cores "messaging"); [|reflexivity].
    rewrite bind_lift. by destruct (getitem config "analysis"). }
  destruct (if eq_str num_cores "messaging" then _ else _) as [e|prog] eqn:Hprog;
    cbn [lift raise ret].
  { rewrite top_extern_run. cbn [world trace].
    destruct (chdir_exit env w2) as [[e'|[]] w3]; cbn [fst snd];
      (eexists; split; [rewrite <- app_assoc; reflexivity|]);
      (split; [by left|]); intros cl w2' _ Hcl;
      (assert (exists prog, spec_command_line config config_file fc_dir run_yaml =
                 Some (if truthy run_yaml
                       then [prog; VStr config_file; VStr fc_dir] ++ [run_yaml]
                       else [prog; VStr config_file; VStr fc_dir])) as [prog Hp];
       [| apply Hspec in Hp; discriminate]);
      revert Hcl; unfold spec_command_line; rewrite Hnc;
      destruct (config !! "analysis") as [analysis|]; [|discriminate| |discriminate];
      (destruct (if decide (num_cores = VStr "messaging") then _ else _) as [prog|];
       [|discriminate]); intros _; exists prog; f_equal;
      destruct Hry as [-> | Hry]; try reflexivity; rewrite Hry; by destruct run_yaml. }
  clear Hprog. pose proof (proj1 (Hspec prog) eq_refl) as Hprog.
  rewrite top_extern_run. cbn [world trace].
  destruct (check_call env _ w2) as [r3 w3]. cbn [fst snd].
  assert (forall (o : outcome unit) s4,
             trace s4 = trace s ++ [EvChdir analysis_dir (inr tt);
               EvCheckCall (if truthy run_yaml
                            then [prog; VStr config_file; VStr fc_dir] ++ [run_yaml]
                            else [prog; VStr config_file; VStr fc_dir]) r3] ->
             exists tr,
               trace (match
                       (let (o1, s5) := extern (chdir_exit env) EvChdirBack s4 in
                        match o1 with
                        | Return _ => (o, s5)
                        | Raise e => (Raise e, s5)
                        | OutOfFuel => (OutOfFuel, s5)
                        end)
                     with
                     | (Return _, s6) => ret analysis_dir s6
                     | (Raise e, s6) => (Raise e, s6)
                     | (OutOfFuel, s6) => (OutOfFuel, s6)
                     end).2 = trace s ++ tr /\
               check_calls tr =
               [if truthy run_yaml
                then [prog; VStr config_file; VStr fc_dir] ++ [run_yaml]
                else [prog; VStr config_file; VStr fc_dir]]) as Hfin.
  { intros o s4 Hs4. rewrite top_extern_run.
    destruct (chdir_exit env (world s4)) as [[e'|[]] w5]; cbn [fst snd];
      destruct o; cbn [ret snd trace]; rewrite Hs4;
      (eexists; split; [rewrite <- app_assoc; reflexivity | reflexivity]). }
  destruct r3 as [e3|[]]; cbn [fst snd].
  - destruct (Hfin (Raise e3) {| world := w3; trace := (trace s ++ [EvChdir analysis_dir (inr tt)]) ++ [EvCheckCall (if truthy run_yaml
                            then [prog; VStr config_file; VStr fc_dir] ++ [run_yaml]
                            else [prog; VStr config_file; VStr fc_dir]) (inl e3)] |})
      as (tr & Htr & Hcc); [cbn [trace]; by rewrite <- app_assoc|].
    exists tr. split; [exact Htr|]. split.
    + right. eexists. split; [exact Hcc | exact Hprog].
    + intros cl w2' _ Hcl. rewrite Hcl in Hprog. injection Hprog as ->. exact Hcc.
  - destruct (Hfin (Return tt) {| world := w3; trace := (trace s ++ [EvChdir analysis_dir (inr tt)]) ++ [EvCheckCall (if truthy run_yaml
                            then [prog; VStr config_file; VStr fc_dir] ++ [run_yaml]
                            else [prog; VStr config_file; VStr fc_dir]) (inr tt)] |})
      as (tr & Htr & Hcc); [cbn [trace]; by rewrite <- app_assoc|].
    exists tr. split; [exact Htr|]. split.
    + right. eexists. split; [exact Hcc | exact Hprog].
    + intros cl w2' _ Hcl. rewrite Hcl in Hprog. injection Hprog as ->. exact Hcc.
Qed.

End Launch.

(** C10.  What [_run_analysis] launches.  Whatever its outcome,
    [_run_analysis] calls [subprocess.check_call] at most once, and the
    command line of that call is the one of [spec_command_line]: the
    distributed program ([analysis.distributed_process_program], by default
    ["distributed_nextgen_pipeline.py"]) when [algorithm.num_cores] is
    ["messaging"] and [analysis.process_program] otherwise, then the
    configuration file and the flowcell directory, then the run description
    exactly when [_get_run_yaml] returned one, which it does only for a file
    that exists.  When the analysis directory can be prepared and entered,
    the call is made. *)
Theorem run_analysis_launches_configured_program {W : Type} (env : @Env W)
    (fc_dir : string) (remote_info : Dict) (config : Config) (config_file : string)
    (s : @state W) :
  exists tr,
    trace (_run_analysis env fc_dir remote_info config config_file s).2 = trace s ++ tr /\
    (check_calls tr = [] \/
     exists run_yaml cl,
       check_calls tr = [cl] /\
       _get_run_yaml env remote_info fc_dir config s = (Return run_yaml, s) /\
       spec_command_line config config_file fc_dir run_yaml = Some cl /\
       (run_yaml = VNone \/
        exists p, run_yaml = VStr p /\ path_exists env p (world s) = true)) /\
    (forall run_yaml cl analysis d analysis_dir w1 w2,
        _get_run_yaml env remote_info fc_dir config s = (Return run_yaml, s) ->
        spec_command_line config config_file fc_dir run_yaml = Some cl ->
        config !! "analysis" = Some analysis ->
        remote_info !! "directory" = Some (VStr d) ->
        os_path_join (dict_get analysis "base_dir" (VStr (getcwd env (world s))))
                     (basename d) [] = inr analysis_dir ->
        (if path_exists env analysis_dir (world s)
         then w1 = world s
         else makedirs env analysis_dir (world s) = (inr tt, w1)) ->
        chdir_enter env analysis_dir w1 = (inr tt, w2) ->
        check_calls tr = [cl]).
Proof.
  unfold _run_analysis. rewrite bind_run.
  destruct (get_run_yaml_run env remote_info fc_dir config s) as (r & Hg & Hr & Hv).
  rewrite Hg.
  destruct r as [ry|e|]; [| |done]; cycle 1.
  { exists []. rewrite app_nil_r. split; [done|]. split; [by left|]. by intros. }
  assert (ry = VNone \/ truthy ry = true) as Hry.
  { destruct (Hv ry eq_refl) as [->|(p & -> & Ht & _)]; auto. }
  assert (ry = VNone \/ exists p, ry = VStr p /\ path_exists env p (world s) = true)
    as Hfound.
  { destruct (Hv ry eq_refl) as [->|(p & -> & _ & Hp)]; eauto. }
  rewrite bind_lift. unfold getitem at 1.
  destruct (config !! "analysis") as [analysis|] eqn:Han; cycle 1.
  { exists []. rewrite app_nil_r. split; [done|]. split; [by left|]. by intros. }
  rewrite bind_run. cbv beta iota. rewrite bind_lift. unfold getitem at 1.
  destruct (remote_info !! "directory") as [dv|] eqn:Hdir; cycle 1.
  { exists []. rewrite app_nil_r. split; [done|]. split; [by left|]. by intros. }
  rewrite bind_run.
  destruct dv as [| | |d];
    try (exists []; rewrite app_nil_r; split; [done|]; split; [by left|]; by intros).
  cbn [ret]. rewrite bind_lift.
  destruct (os_path_join (dict_get analysis "base_dir" (VStr (getcwd env (world s))))
              (basename d) []) as [e|adir] eqn:Hjoin.
  { exists []. rewrite app_nil_r. split; [done|]. split; [by left|].
    intros ? ? ? ? ? ? ? _ _ [= <-] [= <-]. by rewrite Hjoin. }
  rewrite bind_run. cbn [os_path_exists]. cbv beta iota. rewrite bind_run.
  destruct (path_exists env adir (world s)) eqn:Hex; cbn [negb].
  - cbn [ret]. cbv beta iota.
    destruct (launch_run env config config_file fc_dir ry adir s Hry)
      as (tr & Htr & Hsafe & Hprog).
    exists tr. split; [exact Htr|]. split.
    + destruct Hsafe as [Hnone | (cl & Hcl & Hspec)]; [by left|].
      right. exists ry, cl. auto.
    + intros ry' cl an' d' adir' w1 w2 [= <-] Hspec [= <-] [= <-] Hj Hw1 Henter.
      rewrite Hjoin in Hj. injection Hj as <-. rewrite Hex in Hw1. subst w1.
      by apply (Hprog cl w2).
  - rewrite top_extern_run.
    destruct (makedirs env adir (world s)) as [[e|[]] w1'] eqn:Hmk; cbn [fst snd].
    { eexists. split; [reflexivity|]. split; [by left|].
      intros ry' cl an' d' adir' w1 w2 _ _ [= <-] [= <-] Hj Hw1 _.
      rewrite Hjoin in Hj. injection Hj as <-. rewrite Hex, Hmk in Hw1.
      discriminate. }
    destruct (launch_run env config config_file fc_dir ry adir
                {| world := w1'; trace := trace s ++ [EvMakedirs adir (inr tt)] |} Hry)
      as (tr & Htr & Hsafe & Hprog).
    exists (EvMakedirs adir (inr tt) :: tr). split.
    { transitivity ((trace s ++ [EvMakedirs adir (inr tt)]) ++ tr);
        [exact Htr | by rewrite <- app_assoc]. }
    change (check_calls (EvMakedirs adir (inr tt) :: tr)) with (check_calls tr).
    split.
    + destruct Hsafe as [Hnone | (cl & Hcl & Hspec)]; [by left|].
      right. exists ry, cl. auto.
    + intros ry' cl an' d' adir' w1 w2 [= <-] Hspec [= <-] [= <-] Hj Hw1 Henter.
      rewrite Hjoin in Hj. injection Hj as <-. rewrite Hex, Hmk in Hw1.
      injection Hw1 as <-. by apply (Hprog cl w2).
Qed.

(** On the simulated system: a distributed run with a run description in
    the store, and a local run without one. *)
Example run_analysis_messaging_sim :
  let run := _run_analysis SimOs.sample_env "/store/110106_FC70BUKAAXX"
               SimOs.sample_remote_info (SimOs.sample_config (VStr "messaging"))
               "post_process.yaml"
               (SimOs.start ["/store/110106_FC70BUKAAXX/run_info.yaml"]) in
  run.1 = Return "/work/110106_FC70BUKAAXX" /\
  check_calls (trace run.2) =
    [[VStr "distributed_nextgen_pipeline.py"; VStr "post_process.yaml";
      VStr "/store/110106_FC70BUKAAXX";
      VStr "/store/110106_FC70BUKAAXX/run_info.yaml"]].
Proof. vm_compute. auto. Qed.

Example run_analysis_local_sim :
  let run := _run_analysis SimOs.sample_env "/store/110106_FC70BUKAAXX"
               SimOs.sample_remote_info (SimOs.sample_config (VInt 8))
               "post_process.yaml" (SimOs.start []) in
  run.1 = Return "/work/110106_FC70BUKAAXX" /\
  check_calls (trace run.2) =
    [[VStr "automated_initial_analysis.py"; VStr "post_process.yaml";
      VStr "/store/110106_FC70BUKAAXX"]].
Proof. vm_compute. auto. Qed.

(** * Further properties of the top-level launcher *)

(** *** Paths *)

Lemma append_cons (x : ascii) (a b : string) : String x a +:+ b = String x (a +:+ b).
Proof. reflexivity. Qed.

Lemma slash_append (b : string) : "/" +:+ b = String "/" b.
Proof. reflexivity. Qed.

Lemma append_empty_r (a : string) : a +:+ "" = a.
Proof. induction a as [|x a IH]; [done | by rewrite append_cons, IH]. Qed.

Lemma append_assoc (a b c : string) : (a +:+ b) +:+ c = a +:+ b +:+ c.
Proof. induction a as [|x a IH]; [done | by rewrite !append_cons, IH]. Qed.

Lemma basename_from_no_slash (cur p : string) :
  has_slash p = false -> basename_from cur p = cur +:+ p.
Proof.
  revert cur. induction p as [|c p IH]; intros cur H; simpl in *.
  - by rewrite append_empty_r.
  - apply orb_false_iff in H as [Hc Hp]. rewrite Hc, (IH _ Hp).
    by rewrite append_assoc.
Qed.

Lemma basename_from_after_slash (cur x b : string) :
  basename_from cur (x +:+ String "/" b) = basename_from "" b.
Proof.
  revert cur. induction x as [|c x IH]; intros cur; [done|].
  rewrite append_cons. simpl. destruct (Ascii.eqb c "/"); apply IH.
Qed.

Lemma basename_from_has_no_slash (cur p : string) :
  has_slash cur = false -> has_slash (basename_from cur p) = false.
Proof.
  revert cur. induction p as [|c p IH]; intros cur H; simpl; [done|].
  destruct (Ascii.eqb c "/") eqn:E; [by apply IH|]. apply IH.
  clear IH. induction cur as [|a cur IHc].
  - simpl. by rewrite E.
  - rewrite append_cons. simpl in *.
    apply orb_false_iff in H as [Ha Hcur]. by rewrite Ha, IHc.
Qed.

Lemma endswith_slash_split (p : string) :
  endswith_slash p = true -> exists x, p = x +:+ "/".
Proof.
  induction p as [|c p IH]; [discriminate|]. simpl.
  destruct p as [|c' p'].
  - intros H. apply Ascii.eqb_eq in H as ->. by exists "".
  - intros H. destruct (IH H) as [x Hx]. exists (String c x).
    by rewrite append_cons, <- Hx.
Qed.

Lemma no_slash_not_startswith (p : string) :
  has_slash p = false -> startswith_slash p = false.
Proof. destruct p as [|c p]; [done|]. simpl. by intros [H _]%orb_false_iff. Qed.

(** X5.  The last component survives the join: joining any string
    directory with a name that has no slash gives a path whose [basename]
    is that name.  As [basename] never returns a slash, the analysis
    directory [os.path.join(base_dir, basename(directory))] always has the
    last component of the sequencer's directory. *)
Theorem basename_of_join (base d : string) (analysis_dir : string) :
  os_path_join (VStr base) (basename d) [] = inr analysis_dir ->
  has_slash (basename d) = false /\
  basename analysis_dir = basename d.
Proof.
  assert (has_slash (basename d) = false) as Hns
    by (by apply basename_from_has_no_slash).
  unfold os_path_join. rewrite (no_slash_not_startswith _ Hns). simpl.
  intros [= <-]. split; [done|]. unfold join_step.
  rewrite (no_slash_not_startswith _ Hns).
  destruct (String.eqb base "") eqn:Hb; cbn [orb].
  - apply String.eqb_eq in Hb as ->. unfold basename at 1.
    by rewrite basename_from_no_slash.
  - destruct (endswith_slash base) eqn:He.
    + destruct (endswith_slash_split _ He) as [x ->].
      rewrite append_assoc, slash_append. unfold basename at 1.
      rewrite basename_from_after_slash. by rewrite basename_from_no_slash.
    + rewrite slash_append. unfold basename at 1.
      rewrite basename_from_after_slash. by rewrite basename_from_no_slash.
Qed.

Lemma basename_of_join_witness :
  basename "/work/110106_FC70BUKAAXX" = basename "/seq/110106_FC70BUKAAXX".
Proof.
  apply (basename_of_join "/work" "/seq/110106_FC70BUKAAXX" "/work/110106_FC70BUKAAXX").
  reflexivity.
Defined.

Lemma basename_trailing_slash (cur d : string) : basename_from cur (d +:+ "/") = "".
Proof. apply (basename_from_after_slash cur d ""). Qed.

Lemma endswith_slash_append (x : string) : endswith_slash (x +:+ "/") = true.
Proof.
  induction x as [|c x IH]; [done|]. rewrite append_cons.
  destruct x as [|c' x']; [done|]. rewrite append_cons in *. exact IH.
Qed.

(** X6.  A directory name that ends in a slash has an empty last
    component, so the analysis directory is the base directory itself, with
    a slash at its end, and the default run description is looked for
    directly under [store_dir]. *)
Theorem trailing_slash_directory (base d : string) :
  base <> "" ->
  endswith_slash base = false ->
  basename (d +:+ "/") = "" /\
  os_path_join (VStr base) (basename (d +:+ "/")) [] = inr (base +:+ "/") /\
  os_path_join (VStr base) (basename (d +:+ "/")) ["run_info.yaml"]
  = inr (base +:+ "/run_info.yaml").
Proof.
  intros Hb He. unfold basename. rewrite basename_trailing_slash.
  split; [done|]. unfold os_path_join, join_step. cbn [startswith_slash fold_left].
  apply String.eqb_neq in Hb. rewrite !Hb, He. cbn [orb].
  change ("/" +:+ "") with "/".
  split; [done|].
  rewrite endswith_slash_append, orb_true_r.
  by rewrite append_assoc.
Qed.

Lemma trailing_slash_directory_witness :
  os_path_join (VStr "/work") (basename ("/seq/110106_FC70BUKAAXX" +:+ "/")) []
  = inr "/work/".
Proof.
  apply (trailing_slash_directory "/work" "/seq/110106_FC70BUKAAXX");
    [discriminate | reflexivity].
Defined.

(** *** [_get_run_yaml], [_run_analysis], [_upload_to_galaxy] *)

Section ToplevelMore.

Context {W : Type} (env : @Env W).

Implicit Types (s : @state W) (tr : list event).

Lemma os_path_exists_str (p : string) s :
  os_path_exists env (VStr p) s = (Return (path_exists env p (world s)), s).
Proof. reflexivity. Qed.

Lemma with_chdir_run {A} (d : string) (body : M (@state W) A) s :
  with_chdir env d body s =
  match chdir_enter env d (world s) with
  | (inl e, w1) => (Raise e, {| world := w1; trace := trace s ++ [EvChdir d (inl e)] |})
  | (inr _, w1) =>
      match body {| world := w1; trace := trace s ++ [EvChdir d (inr tt)] |} with
      | (OutOfFuel, s2) => (OutOfFuel, s2)
      | (r, s2) =>
          match chdir_exit env (world s2) with
          | (inl e, w3) =>
              (Raise e, {| world := w3; trace := trace s2 ++ [EvChdirBack (inl e)] |})
          | (inr _, w3) =>
              (r, {| world := w3; trace := trace s2 ++ [EvChdirBack (inr tt)] |})
          end
      end
  end.
Proof.
  unfold with_chdir. rewrite bind_run, top_extern_run.
  destruct (chdir_enter env d (world s)) as [[e|[]] w1]; cbn [fst snd]; [done|].
  rewrite try_finally_run.
  destruct (body _) as [[a|e|] s2]; [| |done]; rewrite top_extern_run;
    destruct (chdir_exit env (world s2)) as [[e'|[]] w3]; reflexivity.
Qed.

End ToplevelMore.

(** X7.  Where the run description comes from.  A non-empty string under
    [run_yaml] in the remote information is used as it is, and the
    configuration is not looked at; without one (or with an empty or null
    one) the path is [store_dir/<last component of fc_dir>/run_info.yaml].
    In both cases the answer is that path if it exists and [None] if not,
    and nothing is changed. *)
Theorem get_run_yaml_precedence {W : Type} (env : @Env W) (remote_info : Dict)
    (fc_dir : string) (config : Config) (s : @state W) :
  (forall p,
      remote_info !! "run_yaml" = Some (VStr p) -> p <> "" ->
      _get_run_yaml env remote_info fc_dir config s =
      (Return (if path_exists env p (world s) then VStr p else VNone), s)) /\
  (forall store_dir,
      truthy (dict_get remote_info "run_yaml" VNone) = false ->
      getitem2 config "analysis" "store_dir" = inr (VStr store_dir) ->
      _get_run_yaml env remote_info fc_dir config s =
      (Return (if path_exists env
                    (join_step (join_step store_dir (basename fc_dir)) "run_info.yaml")
                    (world s)
               then VStr (join_step (join_step store_dir (basename fc_dir))
                                    "run_info.yaml")
               else VNone), s)).
Proof.
  split.
  - intros p Hp Hne. unfold _get_run_yaml. rewrite bind_run.
    unfold dict_get, getitem. rewrite Hp. cbn [truthy].
    apply String.eqb_neq in Hne. rewrite Hne. cbn [negb lift ret].
    rewrite bind_run, os_path_exists_str. unfold ret.
    by destruct (path_exists env p (world s)).
  - intros store_dir Hfalsy Hsd. unfold _get_run_yaml. rewrite bind_run, Hfalsy.
    rewrite bind_lift, Hsd, bind_lift.
    assert (os_path_join (VStr store_dir) (basename fc_dir) ["run_info.yaml"] =
            inr (join_step (join_step store_dir (basename fc_dir)) "run_info.yaml"))
      as ->.
    { unfold os_path_join.
      assert (startswith_slash (basename fc_dir) = false) as Hb
        by (apply no_slash_not_startswith; by apply basename_from_has_no_slash).
      rewrite Hb. reflexivity. }
    cbn [ret]. rewrite bind_run, os_path_exists_str. unfold ret.
    by destruct (path_exists env _ (world s)).
Qed.

Example get_run_yaml_sim :
  (_get_run_yaml SimOs.sample_env SimOs.sample_remote_info
     "/store/110106_FC70BUKAAXX" (SimOs.sample_config (VInt 8))
     (SimOs.start ["/store/110106_FC70BUKAAXX/run_info.yaml"])).1
  = Return (VStr "/store/110106_FC70BUKAAXX/run_info.yaml") /\
  (_get_run_yaml SimOs.sample_env (<["run_yaml" := VStr "/tmp/mine.yaml"]> ∅)
     "/store/110106_FC70BUKAAXX" ∅ (SimOs.start ["/tmp/mine.yaml"])).1
  = Return (VStr "/tmp/mine.yaml").
Proof. vm_compute. auto. Qed.

Lemma yaml_argument (cl : list value) (run_yaml : value) :
  run_yaml = VNone \/ truthy run_yaml = true ->
  (if truthy run_yaml then cl ++ [run_yaml] else cl) =
  cl ++ match run_yaml with VNone => [] | y => [y] end.
Proof.
  intros [-> | H]; [by rewrite app_nil_r|]. rewrite H. by destruct run_yaml.
Qed.

(** X8.  What [_upload_to_galaxy] launches.  It calls
    [subprocess.check_call] at most once, with the upload program of the
    configuration, the configuration file, the flowcell directory and the
    analysis directory, then the run description when [_get_run_yaml]
    returned one.  Once the analysis directory has been entered it is left
    again, also when [upload_program] is missing or the upload fails; and
    a normal return means the upload program was run and succeeded. *)
Theorem upload_to_galaxy_protocol {W : Type} (env : @Env W)
    (fc_dir analysis_dir : string) (remote_info : Dict) (config : Config)
    (config_file : string) (s : @state W) :
  exists tr,
    trace (_upload_to_galaxy env fc_dir analysis_dir remote_info config config_file s).2
    = trace s ++ tr /\
    (check_calls tr = [] \/
     exists run_yaml upload_program,
       check_calls tr =
         [[upload_program; VStr config_file; VStr fc_dir; VStr analysis_dir] ++
          match run_yaml with VNone => [] | y => [y] end] /\
       _get_run_yaml env remote_info fc_dir config s = (Return run_yaml, s) /\
       getitem2 config "analysis" "upload_program" = inr upload_program) /\
    (head tr = Some (EvChdir analysis_dir (inr tt)) ->
     exists r, last tr = Some (EvChdirBack r)) /\
    ((_upload_to_galaxy env fc_dir analysis_dir remote_info config config_file s).1
     = Return tt ->
     exists cl, tr = [EvChdir analysis_dir (inr tt); EvCheckCall cl (inr tt);
                      EvChdirBack (inr tt)]).
Proof.
  unfold _upload_to_galaxy. rewrite bind_run.
  destruct (get_run_yaml_run env remote_info fc_dir config s) as (r & Hg & Hr & Hv).
  rewrite Hg.
  destruct r as [ry|e|]; [| |done]; cycle 1.
  { exists []. rewrite app_nil_r. split; [done|]. split; [by left|]. by split. }
  assert (ry = VNone \/ truthy ry = true) as Hry.
  { destruct (Hv ry eq_refl) as [->|(p & -> & Ht & _)]; auto. }
  rewrite with_chdir_run.
  destruct (chdir_enter env analysis_dir (world s)) as [[e|[]] w1].
  { eexists. split; [reflexivity|]. split; [by left|]. by split. }
  rewrite bind_lift.
  destruct (getitem2 config "analysis" "upload_program") as [e|up] eqn:Hup.
  { cbn [world trace].
    destruct (chdir_exit env w1) as [[e'|[]] w3];
      (eexists; split; [cbn [snd trace]; rewrite <- app_assoc; reflexivity|]);
      (split; [by left|]); (split; [intros _; by eexists | discriminate]). }
  rewrite top_extern_run. cbn [world trace].
  rewrite (yaml_argument _ ry Hry).
  destruct (check_call env _ w1) as [[e3|[]] w2]; cbn [fst snd world trace];
    destruct (chdir_exit env w2) as [[e'|[]] w3];
    (eexists; split; [cbn [snd trace]; rewrite <- !app_assoc; reflexivity|]);
    (split; [right; exists ry, up; by repeat split|]);
    (split; [intros _; by eexists|]); try discriminate.
  intros _. by eexists.
Qed.

Example upload_to_galaxy_sim :
  let run := _upload_to_galaxy SimOs.sample_env "/store/110106_FC70BUKAAXX"
               "/work/110106_FC70BUKAAXX" SimOs.sample_remote_info
               SamplesOs.upload_config "post_process.yaml"
               (SimOs.start ["/work/110106_FC70BUKAAXX";
                             "/store/110106_FC70BUKAAXX/run_info.yaml"]) in
  run.1 = Return tt /\
  check_calls (trace run.2) =
    [[VStr "upload_to_galaxy.py"; VStr "post_process.yaml";
      VStr "/store/110106_FC70BUKAAXX"; VStr "/work/110106_FC70BUKAAXX";
      VStr "/store/110106_FC70BUKAAXX/run_info.yaml"]].
Proof. vm_compute. auto. Qed.

(** X9.  A normal return of [_run_analysis] means all went well: the
    returned directory is [base_dir] (the configured one, else the current
    directory) joined with the last component of the sequencer's directory;
    it was created only if it did not exist; it was entered, the processing
    program was run once and succeeded, and the directory was left. *)
Theorem run_analysis_returns_after_success {W : Type} (env : @Env W)
    (fc_dir : string) (remote_info : Dict) (config : Config) (config_file : string)
    (s : @state W) (analysis_dir : string) (s' : @state W) :
  _run_analysis env fc_dir remote_info config config_file s = (Return analysis_dir, s') ->
  exists analysis d cl,
    config !! "analysis" = Some analysis /\
    remote_info !! "directory" = Some (VStr d) /\
    os_path_join (dict_get analysis "base_dir" (VStr (getcwd env (world s))))
                 (basename d) [] = inr analysis_dir /\
    trace s' = trace s ++
      (if path_exists env analysis_dir (world s) then []
       else [EvMakedirs analysis_dir (inr tt)]) ++
      [EvChdir analysis_dir (inr tt); EvCheckCall cl (inr tt); EvChdirBack (inr tt)].
Proof.
  unfold _run_analysis. rewrite bind_run.
  destruct (get_run_yaml_run env remote_info fc_dir config s) as (r & Hg & _ & _).
  rewrite Hg. destruct r as [ry|e|]; [|discriminate..].
  rewrite bind_lift. unfold getitem at 1.
  destruct (config !! "analysis") as [analysis|] eqn:Han; [|discriminate].
  rewrite bind_run. cbv beta iota. rewrite bind_lift. unfold getitem at 1.
  destruct (remote_info !! "directory") as [dv|] eqn:Hdir; [|discriminate].
  rewrite bind_run. destruct dv as [| | |d]; try discriminate.
  cbn [ret]. rewrite bind_lift.
  destruct (os_path_join (dict_get analysis "base_dir" (VStr (getcwd env (world s))))
              (basename d) []) as [e|adir] eqn:Hjoin; [discriminate|].
  rewrite bind_run, os_path_exists_str. rewrite bind_run.
  assert (forall s1 tr0,
             trace s1 = trace s ++ tr0 ->
             (let (o, s2) :=
                with_chdir env adir
                  (let* num_cores := lift (getitem2 config "algorithm" "num_cores") in
                   let* prog :=
                     if eq_str num_cores "messaging"
                     then
                       let* analysis := lift (getitem config "analysis") in
                       ret (dict_get analysis "distributed_process_program"
                                     (VStr "distributed_nextgen_pipeline.py"))
                     else lift (getitem2 config "analysis" "process_program") in
                   let cl := [prog; VStr config_file; VStr fc_dir] in
                   let cl := if truthy ry then cl ++ [ry] else cl in
                   extern (check_call env cl) (EvCheckCall cl)) s1 in
              match o with
              | Return _ => ret adir s2
              | Raise e => (Raise e, s2)
              | OutOfFuel => (OutOfFuel, s2)
              end) = (Return analysis_dir, s') ->
             adir = analysis_dir /\
             exists cl, trace s' = trace s ++ tr0 ++
               [EvChdir adir (inr tt); EvCheckCall cl (inr tt); EvChdirBack (inr tt)])
    as Hlaunch.
  { intros s1 tr0 Hs1. rewrite with_chdir_run.
    destruct (chdir_enter env adir (world s1)) as [[e|[]] w1]; [discriminate|].
    rewrite bind_lift.
    destruct (getitem2 config "algorithm" "num_cores") as [e|nc].
    { destruct (chdir_exit env _) as [[?|[]] ?]; discriminate. }
    rewrite bind_run.
    assert (exists o : exn + value,
               (if eq_str nc "messaging"
                then
                  let* analysis := lift (getitem config "analysis") in
                  ret (dict_get analysis "distributed_process_program"
                                (VStr "distributed_nextgen_pipeline.py"))
                else lift (getitem2 config "analysis" "process_program"))
                 {| world := w1; trace := trace s1 ++ [EvChdir adir (inr tt)] |}
               = lift o {| world := w1; trace := trace s1 ++ [EvChdir adir (inr tt)] |})
      as [o ->].
    { destruct (eq_str nc "messaging"); [|by eexists].
      rewrite bind_lift. destruct (getitem config "analysis"); [by eexists (inl _)|].
      by eexists (inr _). }
    destruct o as [e|prog]; cbn [lift raise ret].
    { destruct (chdir_exit env _) as [[?|[]] ?]; discriminate. }
    rewrite top_extern_run. cbn [world trace].
    destruct (check_call env _ w1) as [[e3|[]] w2]; cbn [fst snd world trace];
      destruct (chdir_exit env w2) as [[e'|[]] w3]; try discriminate.
    intros [= <- <-]. split; [done|]. eexists. cbn [trace].
    rewrite Hs1, <- !app_assoc. reflexivity. }
  destruct (path_exists env adir (world s)) eqn:Hex; cbn [negb].
  - cbn [ret]. cbv beta iota. intros H.
    destruct (Hlaunch s [] (eq_sym (app_nil_r _)) H) as (-> & cl & Htr).
    exists analysis, d, cl. rewrite Hex. by repeat split.
  - rewrite top_extern_run.
    destruct (makedirs env adir (world s)) as [[e|[]] w1']; cbn [fst snd];
      [discriminate|].
    intros H.
    destruct (Hlaunch {| world := w1'; trace := trace s ++ [EvMakedirs adir (inr tt)] |}
                [EvMakedirs adir (inr tt)] eq_refl H) as (-> & cl & Htr).
    exists analysis, d, cl. rewrite Hex. by repeat split.
Qed.

Lemma run_analysis_returns_after_success_witness :
  exists cl,
    trace (_run_analysis SimOs.sample_env "/store/110106_FC70BUKAAXX"
             SimOs.sample_remote_info (SimOs.sample_config (VInt 8))
             "post_process.yaml" (SimOs.start [])).2
    = [EvMakedirs "/work/110106_FC70BUKAAXX" (inr tt);
       EvChdir "/work/110106_FC70BUKAAXX" (inr tt); EvCheckCall cl (inr tt);
       EvChdirBack (inr tt)].
Proof.
  destruct (run_analysis_returns_after_success SimOs.sample_env
              "/store/110106_FC70BUKAAXX" SimOs.sample_remote_info
              (SimOs.sample_config (VInt 8)) "post_process.yaml" (SimOs.start [])
              "/work/110106_FC70BUKAAXX"
              (_run_analysis SimOs.sample_env "/store/110106_FC70BUKAAXX"
                 SimOs.sample_remote_info (SimOs.sample_config (VInt 8))
                 "post_process.yaml" (SimOs.start [])).2
              ltac:(vm_compute; reflexivity)) as (an & d & cl & _ & _ & _ & Htr).
  exists cl. exact Htr.
Defined.

(** * Properties of the pipeline from the sequencer to the upload *)

Import Pipeline.

(** *** The short host name *)

Lemma strip_from_dot_no_dot (skipping : bool) (s : string) :
  has_char "." (strip_from_dot skipping s) = false.
Proof.
  revert skipping. induction s as [|c s IH]; intros skipping; [done|]. simpl.
  destruct (Ascii.eqb c "010") eqn:Hnl.
  - apply Ascii.eqb_eq in Hnl as ->. simpl. apply IH.
  - destruct skipping; [apply IH|].
    destruct (Ascii.eqb c ".") eqn:Hdot; [apply IH|]. simpl. rewrite Hdot. apply IH.
Qed.

Lemma strip_from_dot_skips (s : string) :
  has_char "010" s = false -> strip_from_dot true s = "".
Proof.
  induction s as [|c s IH]; [done|]. simpl.
  intros [Hc Hs]%orb_false_iff. rewrite Hc. by apply IH.
Qed.

(** X10.  The host part of the connection string is the short host name:
    [re.sub(r'\..*', '', name)] has no dot left in it, leaves a name without
    a dot as it is, and cuts a one-line name at its first dot. *)
Theorem strip_domain_short_name (name : string) :
  has_char "." (strip_domain name) = false /\
  (has_char "." name = false -> strip_domain name = name) /\
  (forall host domain,
      name = host +:+ "." +:+ domain ->
      has_char "." host = false -> has_char "010" name = false ->
      strip_domain name = host).
Proof.
  split; [apply strip_from_dot_no_dot|]. split.
  - unfold strip_domain. induction name as [|c s IH]; [done|]. simpl.
    intros [Hc Hs]%orb_false_iff. rewrite Hc.
    destruct (Ascii.eqb c "010"); by rewrite IH.
  - intros host domain -> Hhost. unfold strip_domain.
    induction host as [|c h IH].
    + change ("" +:+ "." +:+ domain) with (String "." domain). simpl.
      intros Hnl. by apply strip_from_dot_skips.
    + rewrite append_cons. simpl in *.
      apply orb_false_iff in Hhost as [Hc Hh].
      intros [Hnl Hrest]%orb_false_iff. rewrite Hnl, Hc. by rewrite IH.
Qed.

Example strip_domain_sim :
  strip_domain "seq01.example.org" = "seq01" /\ strip_domain "localhost" = "localhost".
Proof. split; reflexivity. Qed.

(** *** [_config_hosts] and [_copy_from_sequencer] *)

Section PipelineFacts.

Context {W : Type} (env : @Env W).

Implicit Types (s : @state W) (tr : list event).

Lemma state_eta s : {| world := world s; trace := trace s ++ [] |} = s.
Proof. destruct s. simpl. by rewrite app_nil_r. Qed.

Lemma pipe_extern_run {A} (op : W -> (exn + A) * W) (log : exn + A -> event) s :
  extern op log s =
  (match (op (world s)).1 with inl e => Raise e | inr a => Return a end,
   {| world := (op (world s)).2; trace := trace s ++ [log (op (world s)).1] |}).
Proof. unfold extern. destruct (op (world s)) as [[e|a] w']; reflexivity. Qed.

Lemma os_run_run {A} (m : M (@Toplevel.state W) A) s :
  os_run m s =
  ((m {| Toplevel.world := world s; Toplevel.trace := [] |}).1,
   {| world := Toplevel.world (m {| Toplevel.world := world s; Toplevel.trace := [] |}).2;
      trace := trace s ++
               List.map EvOs
                 (Toplevel.trace
                    (m {| Toplevel.world := world s; Toplevel.trace := [] |}).2) |}).
Proof. unfold os_run. by destruct (m _). Qed.


Lemma with_run {A} (enter_op : W -> (exn + unit) * W) (enter_log : exn + unit -> event)
    (exit_op : W -> (exn + unit) * W) (exit_log : exn + unit -> event)
    (body : M (@state W) A) s :
  with_ (extern enter_op enter_log) (extern exit_op exit_log) body s =
  match enter_op (world s) with
  | (inl e, w1) => (Raise e, {| world := w1; trace := trace s ++ [enter_log (inl e)] |})
  | (inr _, w1) =>
      match body {| world := w1; trace := trace s ++ [enter_log (inr tt)] |} with
      | (OutOfFuel, s2) => (OutOfFuel, s2)
      | (r, s2) =>
          match exit_op (world s2) with
          | (inl e, w3) =>
              (Raise e, {| world := w3; trace := trace s2 ++ [exit_log (inl e)] |})
          | (inr _, w3) =>
              (r, {| world := w3; trace := trace s2 ++ [exit_log (inr tt)] |})
          end
      end
  end.
Proof.
  unfold with_. rewrite bind_run, pipe_extern_run.
  destruct (enter_op (world s)) as [[e|[]] w1]; cbn [fst snd]; [done|].
  rewrite try_finally_run.
  destruct (body _) as [[a|e|] s2]; [| |done]; rewrite pipe_extern_run;
    destruct (exit_op (world s2)) as [[e'|[]] w3]; reflexivity.
Qed.

(** [_config_hosts] only reads: the state is as before and the answer
    depends on the world alone. *)
Lemma config_hosts_run (config : gmap string entry) s :
  _config_hosts env config s =
  (match analysis_mapping config with
   | inl e => Raise e
   | inr analysis =>
       if truthy (dict_get analysis "copy_user" VNone) &&
          truthy (dict_get analysis "copy_host" VNone)
       then Return (py_str (dict_get analysis "copy_user" VNone) +:+ "@" +:+
                    py_str (dict_get analysis "copy_host" VNone))
       else match environ env (world s) !! "USER" with
            | Some user =>
                Return (user +:+ "@" +:+ strip_domain (nodename env (world s)))
            | None => Raise (KeyError (VStr "USER"))
            end
   end, s).
Proof.
  unfold _config_hosts. rewrite bind_lift.
  destruct (analysis_mapping config) as [e|analysis]; [done|].
  rewrite bind_lift, bind_run.
  destruct (truthy (dict_get analysis "copy_user" VNone)),
           (truthy (dict_get analysis "copy_host" VNone)); cbn [negb orb andb];
    try reflexivity;
    rewrite bind_run; cbv beta; unfold getitem;
    destruct (environ env (world s) !! "USER"); reflexivity.
Qed.

End PipelineFacts.

(** X11.  Who to connect as.  The user and host of the configuration are
    used only when both are set and count as true; when either is missing,
    empty or null, both are replaced: the user is [$USER] and the host the
    short name of this machine, and an unset [USER] is a [KeyError].
    Nothing is changed by asking. *)
Theorem config_hosts_result {W : Type} (env : @Env W) (config : gmap string entry)
    (analysis : Dict) (s : @state W) :
  config !! "analysis" = Some (Mapping analysis) ->
  _config_hosts env config s =
  (if truthy (dict_get analysis "copy_user" VNone) &&
      truthy (dict_get analysis "copy_host" VNone)
   then Return (py_str (dict_get analysis "copy_user" VNone) +:+ "@" +:+
                py_str (dict_get analysis "copy_host" VNone))
   else match environ env (world s) !! "USER" with
        | Some user => Return (user +:+ "@" +:+ strip_domain (nodename env (world s)))
        | None => Raise (KeyError (VStr "USER"))
        end, s).
Proof.
  intros Han. unfold _config_hosts.
  assert (analysis_mapping config = inr analysis) as ->
    by (unfold analysis_mapping, getitem; by rewrite Han).
  rewrite bind_lift, bind_lift, bind_run.
  destruct (truthy (dict_get analysis "copy_user" VNone)),
           (truthy (dict_get analysis "copy_host" VNone)); cbn [negb orb andb];
    try reflexivity;
    rewrite bind_run; cbv beta; unfold getitem;
    destruct (environ env (world s) !! "USER"); reflexivity.
Qed.

Lemma config_hosts_result_witness :
  _config_hosts (SimPipe.sample_env (SimPipe.sample_config (VStr "pipeline") VNone)
                   (Some "galaxy") true)
    (SimPipe.sample_config (VStr "pipeline") VNone) (SimPipe.start [])
  = (Return "galaxy@seq01", SimPipe.start []).
Proof.
  apply (config_hosts_result
           (SimPipe.sample_env (SimPipe.sample_config (VStr "pipeline") VNone)
              (Some "galaxy") true)
           (SimPipe.sample_config (VStr "pipeline") VNone) _ (SimPipe.start [])
           eq_refl).
Defined.

(** X12.  A flowcell directory given in the remote information is taken as
    it is: [_copy_from_sequencer] returns it when it exists, fails its
    assertion when it does not, and fails with [TypeError] when it is not a
    string.  Nothing is copied, logged or changed, and neither the
    configuration nor Fabric is needed. *)
Theorem copy_from_sequencer_local {W : Type} (env : @Env W) (remote_info : Dict)
    (config : gmap string entry) (fc_dir : value) (s : @state W) :
  remote_info !! "fc_dir" = Some fc_dir ->
  _copy_from_sequencer env remote_info config s =
  (match fc_dir with
   | VStr p =>
       if Toplevel.path_exists (os env) p (world s) then Return (VStr p)
       else Raise (AssertionError "")
   | _ => Raise TypeError
   end, s).
Proof.
  intros Hfc. unfold _copy_from_sequencer. rewrite Hfc, bind_run, os_run_run.
  destruct fc_dir as [|b|n|p]; cbn [Toplevel.os_path_exists raise fst snd
                                    Toplevel.world Toplevel.trace List.map];
    rewrite state_eta; try reflexivity.
  by destruct (Toplevel.path_exists (os env) p (world s)).
Qed.

Lemma copy_from_sequencer_local_witness :
  _copy_from_sequencer
    (SimPipe.sample_env (SimPipe.sample_config VNone VNone) None false)
    SimPipe.local_remote_info SimPipe.empty_config
    (SimPipe.start ["/store/110106_FC70BUKAAXX"])
  = (Return (VStr "/store/110106_FC70BUKAAXX"),
     SimPipe.start ["/store/110106_FC70BUKAAXX"]).
Proof.
  apply (copy_from_sequencer_local
           (SimPipe.sample_env (SimPipe.sample_config VNone VNone) None false)
           SimPipe.local_remote_info SimPipe.empty_config
           (VStr "/store/110106_FC70BUKAAXX")
           (SimPipe.start ["/store/110106_FC70BUKAAXX"]) eq_refl).
Defined.

(** X13.  Without a flowcell directory in the remote information,
    [_copy_from_sequencer] logs the remote information and works out the
    host string; an exception of [_config_hosts] is passed on.  Then it
    needs Fabric: when Fabric could not be imported it raises
    [AttributeError] and has done nothing else.  Otherwise it enters
    [fabric.settings] for that host string, and if that fails, that is the
    end.  Inside, a missing [store_dir] is a [KeyError]; otherwise
    [remote_copy] is called, once, with [config["store_dir"]] and with
    [config["transfer_protocol"]], or [None] when there is no such key.  The
    settings that were entered are always left.  What comes out is the
    exception of leaving if there is one, else the exception from inside if
    there is one, else the path [remote_copy] returned. *)
Theorem copy_from_sequencer_remote {W : Type} (env : @Env W) (remote_info : Dict)
    (config : gmap string entry) (s : @state W) :
  remote_info !! "fc_dir" = None ->
  _copy_from_sequencer env remote_info config s =
  match (_config_hosts env config s).1 with
  | Raise e =>
      (Raise e, {| world := world s; trace := trace s ++ [EvDebug remote_info] |})
  | OutOfFuel =>
      (OutOfFuel, {| world := world s; trace := trace s ++ [EvDebug remote_info] |})
  | Return host =>
      match fabric env with
      | None =>
          (Raise (AttributeError "settings"),
           {| world := world s; trace := trace s ++ [EvDebug remote_info] |})
      | Some fab =>
          match settings_enter fab host (world s) with
          | (inl e, w1) =>
              (Raise e,
               {| world := w1;
                  trace := trace s ++ [EvDebug remote_info; EvSettings host (inl e)] |})
          | (inr _, w1) =>
              match config !! "store_dir" with
              | None =>
                  match settings_exit fab w1 with
                  | (inl e', w3) =>
                      (Raise e',
                       {| world := w3;
                          trace := trace s ++ [EvDebug remote_info;
                                               EvSettings host (inr tt);
                                               EvSettingsBack (inl e')] |})
                  | (inr _, w3) =>
                      (Raise (KeyError (VStr "store_dir")),
                       {| world := w3;
                          trace := trace s ++ [EvDebug remote_info;
                                               EvSettings host (inr tt);
                                               EvSettingsBack (inr tt)] |})
                  end
              | Some base =>
                  match remote_copy env remote_info base
                          (match config !! "transfer_protocol" with
                           | Some protocol => protocol
                           | None => Scalar VNone
                           end) w1 with
                  | (r, w2) =>
                      match settings_exit fab w2 with
                      | (inl e', w3) =>
                          (Raise e',
                           {| world := w3;
                              trace := trace s ++
                                [EvDebug remote_info;
                                 EvSettings host (inr tt);
                                 EvRemoteCopy remote_info base
                                   (match config !! "transfer_protocol" with
                                    | Some protocol => protocol
                                    | None => Scalar VNone
                                    end) r;
                                 EvSettingsBack (inl e')] |})
                      | (inr _, w3) =>
                          (match r with
                           | inl e => Raise e
                           | inr path => Return (VStr path)
                           end,
                           {| world := w3;
                              trace := trace s ++
                                [EvDebug remote_info;
                                 EvSettings host (inr tt);
                                 EvRemoteCopy remote_info base
                                   (match config !! "transfer_protocol" with
                                    | Some protocol => protocol
                                    | None => Scalar VNone
                                    end) r;
                                 EvSettingsBack (inr tt)] |})
                      end
                  end
              end
          end
      end
  end.
Proof.
  intros Hfc. unfold _copy_from_sequencer. rewrite Hfc, bind_run.
  change (emit (EvDebug remote_info) s)
    with (Return tt, {| world := world s; trace := trace s ++ [EvDebug remote_info] |}).
  cbv beta iota. rewrite bind_run.
  set (s1 := {| world := world s; trace := trace s ++ [EvDebug remote_info] |}).
  assert (_config_hosts env config s1 = ((_config_hosts env config s).1, s1)) as ->
    by (by rewrite !config_hosts_run).
  destruct (_config_hosts env config s).1 as [host|e|]; [|reflexivity..].
  rewrite bind_run.
  destruct (fabric env) as [fab|]; cbn [ret raise]; [|reflexivity].
  rewrite with_run. cbn [world trace s1].
  destruct (settings_enter fab host (world s)) as [[e|[]] w1].
  { by rewrite <- app_assoc. }
  rewrite bind_lift. unfold getitem at 1.
  destruct (config !! "store_dir") as [base|].
  2:{ cbn [world trace].
      destruct (settings_exit fab w1) as [[e'|[]] w3]; by rewrite <- !app_assoc. }
  rewrite bind_run, pipe_extern_run. cbn [world trace].
  assert (match getitem config "transfer_protocol" with
          | inl _ => Scalar VNone
          | inr protocol => protocol
          end = match config !! "transfer_protocol" with
                | Some protocol => protocol
                | None => Scalar VNone
                end) as ->.
  { unfold getitem. by destruct (config !! "transfer_protocol"). }
  destruct (remote_copy env remote_info base _ w1) as [[e2|path] w2];
    cbn [fst snd ret world trace];
    destruct (settings_exit fab w2) as [[e'|[]] w3]; by rewrite <- !app_assoc.
Qed.

Lemma copy_from_sequencer_remote_witness :
  exists st,
    _copy_from_sequencer
      (SimPipe.sample_env (SimPipe.sample_config VNone VNone) (Some "galaxy") true)
      SimOs.sample_remote_info (SimPipe.sample_config VNone VNone)
      (SimPipe.start [])
    = (Return (VStr "/store/110106_FC70BUKAAXX"), st) /\
    trace st =
      [EvDebug SimOs.sample_remote_info;
       EvSettings "galaxy@seq01" (inr tt);
       EvRemoteCopy SimOs.sample_remote_info (Scalar (VStr "/store")) (Scalar VNone)
         (inr "/store/110106_FC70BUKAAXX");
       EvSettingsBack (inr tt)].
Proof.
  rewrite (copy_from_sequencer_remote
             (SimPipe.sample_env (SimPipe.sample_config VNone VNone) (Some "galaxy") true)
             SimOs.sample_remote_info (SimPipe.sample_config VNone VNone)
             (SimPipe.start []) eq_refl).
  vm_compute. eexists. split; reflexivity.
Defined.

Example copy_without_fabric_sim :
  _copy_from_sequencer
    (SimPipe.sample_env (SimPipe.sample_config VNone VNone) (Some "galaxy") false)
    SimOs.sample_remote_info (SimPipe.sample_config VNone VNone) (SimPipe.start [])
  = (Raise (AttributeError "settings"),
     {| world := world (SimPipe.start []);
        trace := [EvDebug SimOs.sample_remote_info] |}).
Proof. vm_compute. reflexivity. Qed.

(** *** [analyze_and_upload] *)

Section AnalyzeAndUpload.

Context {W : Type} (env : @Env W).

Implicit Types (s : @state W) (tr : list event).







End AnalyzeAndUpload.


Example analyze_and_upload_sim :
  let run := analyze_and_upload
               (SimPipe.sample_env (SimPipe.sample_config VNone VNone) (Some "galaxy") true)
               SimOs.sample_remote_info "post_process.yaml" (SimPipe.start []) in
  run.1 = Return tt /\
  launches (trace run.2) =
    [([VStr "automated_initial_analysis.py"; VStr "post_process.yaml";
       VStr "/store/110106_FC70BUKAAXX"], inr tt);
     ([VStr "upload_to_galaxy.py"; VStr "post_process.yaml";
       VStr "/store/110106_FC70BUKAAXX"; VStr "/work/110106_FC70BUKAAXX"], inr tt)].
Proof. vm_compute. auto. Qed.

(** A configuration whose [analysis] entry is a scalar: the host string
    cannot be worked out, and with a flowcell directory at hand the run
    description cannot be looked up. *)
Example scalar_analysis_sim :
  (analyze_and_upload
     (SimPipe.sample_env SimPipe.scalar_analysis_config (Some "galaxy") true)
     SimOs.sample_remote_info "post_process.yaml" (SimPipe.start [])).1
  = Raise (AttributeError "get") /\
  (analyze_and_upload
     (SimPipe.sample_env SimPipe.scalar_analysis_config (Some "galaxy") true)
     SimPipe.local_remote_info "post_process.yaml"
     (SimPipe.start ["/store/110106_FC70BUKAAXX"])).1
  = Raise TypeError.
Proof. vm_compute. auto. Qed.
